(** * csv_processor: filtering and aggregation over CSV tables

    A shallow embedding of [csv_processor.py] and the properties of its
    condition parsers, filter operators, aggregator and table reader.

    Python values are modelled as follows.
    - [str] is [string], read as a sequence of code points: the texts
      whose code points are all below 256.
    - [float] is [spec_float] at binary64 (53 bits of precision, infinities
      at exponent 1024).
    - an exception is a value of [exn]; a call that may raise returns
      [result].
    - a row ([Dict[str, str]] in the annotations) is a [gmap string cell];
      a [cell] is what [csv.DictReader] stores under a header: a text or
      [None]. *)

From Stdlib Require Import ZArith Ascii String List Lia Bool.
From Stdlib Require Import Floats.SpecFloat.
From Stdlib Require Import DecimalString.
From stdpp Require Import base option list gmap strings.

Local Open Scope string_scope.
Local Open Scope list_scope.

(** ** Exceptions and results *)

Inductive exn :=
  | ValueError (msg : string)
  | TypeError (msg : string)
  | KeyError (key : string)
  | FileNotFoundError (msg : string)
  | Exception (msg : string).

Inductive result (A : Type) :=
  | Ok (a : A)
  | Raise (e : exn).
Arguments Ok {A} a.
Arguments Raise {A} e.

#[global] Instance result_ret : MRet result := fun _ a => Ok a.
#[global] Instance result_bind : MBind result := fun _ _ k r =>
  match r with
  | Ok a => k a
  | Raise e => Raise e
  end.

(** The error kinds, by the message each [raise] of the source builds. *)

Definition InvalidFilterFormat (condition : string) : exn :=
  ValueError ("Invalid filter condition format: " +:+ condition).
Definition InvalidAggregationFormat (condition : string) : exn :=
  ValueError ("Invalid aggregation condition format: " +:+ condition).
Definition ColumnNotFound (column : string) : exn :=
  ValueError ("Column '" +:+ column +:+ "' not found in CSV").
Definition UnsupportedOperator (operator : string) : exn :=
  ValueError ("Unsupported filter operator: " +:+ operator).
Definition UnsupportedFunction (function : string) : exn :=
  ValueError ("Unsupported aggregation function: " +:+ function).
Definition NonNumericValue (column text : string) : exn :=
  ValueError ("Non-numeric value found in column '" +:+ column +:+ "': " +:+ text).
Definition NotFound (filepath : string) : exn :=
  FileNotFoundError ("File not found: " +:+ filepath).
Definition ReadError (why : string) : exn :=
  Exception ("Error reading CSV file: " +:+ why).

(** ** Python's string methods *)

Module PyStr.

Definition code (c : ascii) : N := N_of_ascii c.

(** [str.isspace] on one code point below 256. *)
Definition isspace (c : ascii) : bool :=
  let n := code c in
  ((9 <=? n) && (n <=? 13) || (28 <=? n) && (n <=? 32)
   || (n =? 133) || (n =? 160))%N.

Fixpoint lstrip (s : string) : string :=
  match s with
  | String c r => if isspace c then lstrip r else s
  | EmptyString => EmptyString
  end.

Fixpoint rstrip (s : string) : string :=
  match s with
  | String c r =>
      match rstrip r with
      | EmptyString => if isspace c then EmptyString else String c EmptyString
      | r' => String c r'
      end
  | EmptyString => EmptyString
  end.

(** [s.strip()] *)
Definition strip (s : string) : string := rstrip (lstrip s).

Fixpoint skip (n : nat) (s : string) : string :=
  match n, s with
  | S k, String _ r => skip k r
  | _, _ => s
  end.

(** [sub in s] *)
Fixpoint contains (sub s : string) : bool :=
  String.prefix sub s
  || match s with
     | String _ r => contains sub r
     | EmptyString => false
     end.

(** [s.partition(sep)] when [sep] occurs: the text before and after the
    leftmost occurrence. *)
Fixpoint cut (sep s : string) : option (string * string) :=
  if String.prefix sep s then Some (EmptyString, skip (String.length sep) s)
  else match s with
       | String c r =>
           match cut sep r with
           | Some (a, b) => Some (String c a, b)
           | None => None
           end
       | EmptyString => None
       end.

(** [s.split(sep, 1)] for a separator that is not empty. *)
Definition split1 (sep s : string) : list string :=
  match cut sep s with
  | Some (a, b) => [a; b]
  | None => [s]
  end.

(** [a < b] and [a > b] on [str]: code point by code point. *)
Definition lt (a b : string) : bool :=
  match String.compare a b with Lt => true | _ => false end.
Definition gt (a b : string) : bool :=
  match String.compare a b with Gt => true | _ => false end.

End PyStr.

(** ** Python's [float]

    [float(x)] for a text [x] follows CPython's [PyFloat_FromString]: code
    points 133 and 160 count as blanks, ASCII blanks are dropped at both
    ends, underscores are allowed between digits, and the rest is a signed
    decimal literal or [inf], [infinity] or [nan] in any letter case.  The
    value is the binary64 number nearest to the literal, ties to even. *)

Module PyFloat.

Local Open Scope Z_scope.

Definition prec : Z := 53.
Definition emax : Z := 1024.

Definition lt (a b : spec_float) : bool := SFltb a b.
Definition gt (a b : spec_float) : bool :=
  match SFcompare a b with Some Gt => true | _ => false end.

Definition is_digit (c : ascii) : bool :=
  ((48 <=? PyStr.code c) && (PyStr.code c <=? 57))%N.
Definition digit_val (c : ascii) : Z := Z.of_N (PyStr.code c) - 48.

(** [Py_ISSPACE] *)
Definition is_blank (c : ascii) : bool :=
  let n := PyStr.code c in ((9 <=? n) && (n <=? 13) || (n =? 32))%N.

Fixpoint to_ascii_blanks (s : string) : string :=
  match s with
  | String c r =>
      String (if ((PyStr.code c =? 133) || (PyStr.code c =? 160))%N
              then " "%char else c) (to_ascii_blanks r)
  | EmptyString => EmptyString
  end.

Fixpoint drop_blanks (s : string) : string :=
  match s with
  | String c r => if is_blank c then drop_blanks r else s
  | EmptyString => EmptyString
  end.

Fixpoint drop_blanks_end (s : string) : string :=
  match s with
  | String c r =>
      match drop_blanks_end r with
      | EmptyString => if is_blank c then EmptyString else String c EmptyString
      | r' => String c r'
      end
  | EmptyString => EmptyString
  end.

(** [_Py_string_to_number_with_underscores]: an underscore must follow
    a digit and precede a digit; [prev] is the previous character. *)
Fixpoint drop_underscores (prev : option ascii) (s : string) : option string :=
  match s with
  | String c r =>
      if Ascii.eqb c "_" then
        match prev with
        | Some p => if is_digit p then drop_underscores (Some c) r else None
        | None => None
        end
      else
        match prev with
        | Some p =>
            if Ascii.eqb p "_" && negb (is_digit c) then None
            else String c <$> drop_underscores (Some c) r
        | None => String c <$> drop_underscores (Some c) r
        end
  | EmptyString =>
      match prev with
      | Some p => if Ascii.eqb p "_" then None else Some EmptyString
      | None => Some EmptyString
      end
  end.

Definition read_sign (s : string) : bool * string :=
  match s with
  | String "-" r => (true, r)
  | String "+" r => (false, r)
  | _ => (false, s)
  end.

(** A run of digits: the number read so far, how many digits, the rest. *)
Fixpoint digits (s : string) (acc n : Z) : Z * Z * string :=
  match s with
  | String c r =>
      if is_digit c then digits r (10 * acc + digit_val c) (n + 1)
      else (acc, n, s)
  | EmptyString => (acc, n, s)
  end.

(** The literal as (sign, m, e), standing for [m * 10^e]. *)
Definition decimal (s : string) : option (bool * Z * Z) :=
  let '(sign, s1) := read_sign s in
  let '(m1, n1, s2) := digits s1 0 0 in
  let '(m, n2, s3) :=
    match s2 with
    | String "." r => digits r m1 0
    | _ => (m1, 0, s2)
    end in
  if n1 + n2 =? 0 then None
  else match s3 with
       | EmptyString => Some (sign, m, - n2)
       | String c r =>
           if Ascii.eqb c "e" || Ascii.eqb c "E" then
             let '(esign, r1) := read_sign r in
             let '(ev, en, r2) := digits r1 0 0 in
             match r2 with
             | EmptyString =>
                 if en =? 0 then None
                 else Some (sign, m, (if esign then - ev else ev) - n2)
             | _ => None
             end
           else None
       end.

(** The binary64 number nearest to [m * 10^e], for [0 <= m]. *)
Definition of_decimal (sign : bool) (m e : Z) : spec_float :=
  if m =? 0 then S754_zero sign
  else if 0 <=? e then
    binary_normalize prec emax (cond_Zopp sign (m * 10 ^ e)) 0 false
  else
    let '(q, e', l) := SFdiv_core_binary prec emax m 0 (10 ^ (- e)) 0 in
    binary_round_aux prec emax sign q e' l.

Definition lower (c : ascii) : ascii :=
  let n := PyStr.code c in
  if ((65 <=? n) && (n <=? 90))%N then ascii_of_N (n + 32) else c.

Fixpoint lowercase (s : string) : string :=
  match s with
  | String c r => String (lower c) (lowercase r)
  | EmptyString => EmptyString
  end.

(** [_Py_parse_inf_or_nan] *)
Definition inf_or_nan (s : string) : option spec_float :=
  let '(sign, r) := read_sign s in
  let w := lowercase r in
  if String.eqb w "inf" || String.eqb w "infinity" then Some (S754_infinity sign)
  else if String.eqb w "nan" then Some S754_nan
  else None.

Definition number (s : string) : option spec_float :=
  match decimal s with
  | Some (sign, m, e) => Some (of_decimal sign m e)
  | None => inf_or_nan s
  end.

(** [float(s)] on a text: [None] stands for [ValueError]. *)
Definition of_str (s : string) : option spec_float :=
  let t := drop_blanks_end (drop_blanks (to_ascii_blanks s)) in
  if PyStr.contains "_" t then drop_underscores None t ≫= number
  else number t.

End PyFloat.

(** ** The condition parsers *)

Definition operators : list string := [">="; "<="; ">"; "<"; "="; "!="].

Definition op_mapping : gmap string string :=
  <["=" := "eq"]> (<[">" := "gt"]> (<["<" := "lt"]>
  (<[">=" := "gte"]> (<["<=" := "lte"]> (<["!=" := "ne"]> ∅))))).

(** The [for op in operators] loop of [parse_filter_condition]; running off
    the end of the list reaches the final [raise]. *)
Fixpoint parse_filter_loop (ops : list string) (condition : string)
  : result (string * string * string) :=
  match ops with
  | op :: rest =>
      if PyStr.contains op condition then
        match PyStr.split1 op condition with
        | [p0; p1] =>
            let column := PyStr.strip p0 in
            let value := PyStr.strip p1 in
            match op_mapping !! op with
            | Some tag => Ok (column, tag, value)
            | None => parse_filter_loop rest condition
            end
        | _ => parse_filter_loop rest condition
        end
      else parse_filter_loop rest condition
  | [] => Raise (InvalidFilterFormat condition)
  end.

Definition parse_filter_condition (condition : string)
  : result (string * string * string) :=
  parse_filter_loop operators condition.

Definition parse_aggregation_condition (condition : string)
  : result (string * string) :=
  if negb (PyStr.contains "=" condition) then
    Raise (InvalidAggregationFormat condition)
  else
    match PyStr.split1 "=" condition with
    | [p0; p1] => Ok (PyStr.strip p0, PyStr.strip p1)
    | _ => Raise (InvalidAggregationFormat condition)
    end.

(** ** Cells and rows *)

(** What a row holds under a header: a text, or [None] (which
    [csv.DictReader] stores for a field the line does not have). *)
Inductive cell :=
  | Str (s : string)
  | PyNone.

Abbreviation row := (gmap string cell).

(** [str(value)] *)
Definition py_str (value : cell) : string :=
  match value with
  | Str s => s
  | PyNone => "None"
  end.

(** [float(value)].  The message of the [ValueError] also quotes the text;
    every [ValueError] of [float] is caught in this program, so the
    message is left short. *)
Definition py_float (value : cell) : result spec_float :=
  match value with
  | Str s =>
      match PyFloat.of_str s with
      | Some x => Ok x
      | None => Raise (ValueError "could not convert string to float")
      end
  | PyNone =>
      Raise (TypeError
        "float() argument must be a string or a real number, not 'NoneType'")
  end.

(** [row[column]] *)
Definition getitem (r : row) (column : string) : result cell :=
  match r !! column with
  | Some c => Ok c
  | None => Raise (KeyError column)
  end.

(** [try: body except <caught>: handler] *)
Definition try_except {A : Type} (body : result A) (caught : exn -> bool)
    (handler : result A) : result A :=
  match body with
  | Ok a => Ok a
  | Raise e => if caught e then handler else Raise e
  end.

Definition is_ValueError (e : exn) : bool :=
  match e with ValueError _ => true | _ => false end.
Definition is_TypeError (e : exn) : bool :=
  match e with TypeError _ => true | _ => false end.

(** ** The [csv] module

    [csv.reader] with the default dialect ([excel]: delimiter [,], quote
    character 34, doubled quotes, no escape character, not strict), as the
    state machine of CPython's [_csv.c], and [csv.DictReader] with its
    defaults [restkey=None] and [restval=None]. *)

Module Csv.

Inductive state :=
  | START_RECORD | START_FIELD | IN_FIELD
  | IN_QUOTED_FIELD | QUOTE_IN_QUOTED_FIELD | EAT_CRNL.

#[global] Instance state_eq_dec : EqDecision state.
Proof. solve_decision. Defined.

Record reader := {
  st : state;
  field : string;          (* the field being read *)
  fields : list string;    (* the fields of the record read so far *)
}.

Definition delimiter : ascii := ",".
Definition quotechar : ascii := ascii_of_nat 34.
Definition field_limit : N := 131072.

Definition is_newline (c : ascii) : bool :=
  Ascii.eqb c (ascii_of_nat 10) || Ascii.eqb c (ascii_of_nat 13).

Definition Error (msg : string) : exn := Exception msg.

Definition parse_reset : reader :=
  {| st := START_RECORD; field := EmptyString; fields := [] |}.

Definition parse_save_field (rd : reader) (next : state) : reader :=
  {| st := next; field := EmptyString; fields := fields rd ++ [field rd] |}.

Definition parse_add_char (rd : reader) (c : ascii) (next : state)
  : result reader :=
  if (field_limit <=? N.of_nat (String.length (field rd)))%N then
    Raise (Error "field larger than field limit (131072)")
  else
    Ok {| st := next; field := field rd +:+ String c EmptyString;
          fields := fields rd |}.

Definition set_state (rd : reader) (next : state) : reader :=
  {| st := next; field := field rd; fields := fields rd |}.

(** [parse_process_char]; [None] is the end-of-line mark that the reader
    feeds after the last character of each line. *)
Definition parse_process_char (rd : reader) (c : option ascii)
  : result reader :=
  let start_field :=
    match c with
    | None => Ok (parse_save_field rd START_RECORD)
    | Some ch =>
        if is_newline ch then Ok (parse_save_field rd EAT_CRNL)
        else if Ascii.eqb ch quotechar then Ok (set_state rd IN_QUOTED_FIELD)
        else if Ascii.eqb ch delimiter then Ok (parse_save_field rd START_FIELD)
        else parse_add_char rd ch IN_FIELD
    end in
  match st rd with
  | START_RECORD =>
      match c with
      | None => Ok rd
      | Some ch =>
          if is_newline ch then Ok (set_state rd EAT_CRNL) else start_field
      end
  | START_FIELD => start_field
  | IN_FIELD =>
      match c with
      | None => Ok (parse_save_field rd START_RECORD)
      | Some ch =>
          if is_newline ch then Ok (parse_save_field rd EAT_CRNL)
          else if Ascii.eqb ch delimiter then Ok (parse_save_field rd START_FIELD)
          else parse_add_char rd ch IN_FIELD
      end
  | IN_QUOTED_FIELD =>
      match c with
      | None => Ok rd
      | Some ch =>
          if Ascii.eqb ch quotechar then Ok (set_state rd QUOTE_IN_QUOTED_FIELD)
          else parse_add_char rd ch IN_QUOTED_FIELD
      end
  | QUOTE_IN_QUOTED_FIELD =>
      match c with
      | None => Ok (parse_save_field rd START_RECORD)
      | Some ch =>
          if Ascii.eqb ch quotechar then parse_add_char rd ch IN_QUOTED_FIELD
          else if Ascii.eqb ch delimiter then Ok (parse_save_field rd START_FIELD)
          else if is_newline ch then Ok (parse_save_field rd EAT_CRNL)
          else parse_add_char rd ch IN_FIELD
      end
  | EAT_CRNL =>
      match c with
      | None => Ok (set_state rd START_RECORD)
      | Some ch =>
          if is_newline ch then Ok rd
          else Raise (Error
            "new-line character seen in unquoted field - do you need to open the file with newline=''?")
      end
  end.

(** The characters of one line, then the end-of-line mark. *)
Fixpoint process_line (rd : reader) (line : string) : result reader :=
  match line with
  | String c r => rd' ← parse_process_char rd (Some c); process_line rd' r
  | EmptyString => parse_process_char rd None
  end.

(** Every record of the input: [list(csv.reader(lines))].  A record ends
    with the line that leaves the reader in [START_RECORD]; input that
    ends inside a quoted field yields what was read. *)
Fixpoint records (lines : list string) (rd : reader)
  : result (list (list string)) :=
  match lines with
  | line :: rest =>
      rd' ← process_line rd line;
      if decide (st rd' = START_RECORD) then
        more ← records rest parse_reset; Ok (fields rd' :: more)
      else records rest rd'
  | [] =>
      if negb (String.eqb (field rd) EmptyString)
         || bool_decide (st rd = IN_QUOTED_FIELD)
      then Ok [fields (parse_save_field rd (st rd))]
      else Ok []
  end.

(** Text mode with universal newlines: CR LF and CR are read as LF. *)
Fixpoint universal_newlines (s : string) : string :=
  match s with
  | String c r =>
      if Ascii.eqb c (ascii_of_nat 13) then
        String (ascii_of_nat 10)
          (match r with
           | String c' r' =>
               if Ascii.eqb c' (ascii_of_nat 10) then universal_newlines r'
               else universal_newlines r
           | EmptyString => EmptyString
           end)
      else String c (universal_newlines r)
  | EmptyString => EmptyString
  end.

(** The lines a text file iterates over, each with its line feed. *)
Fixpoint lines_from (cur s : string) : list string :=
  match s with
  | String c r =>
      if Ascii.eqb c (ascii_of_nat 10)
      then (cur +:+ String c EmptyString) :: lines_from EmptyString r
      else lines_from (cur +:+ String c EmptyString) r
  | EmptyString =>
      match cur with EmptyString => [] | _ => [cur] end
  end.

Definition file_lines (content : string) : list string :=
  lines_from EmptyString (universal_newlines content).

(** The records [csv.reader] yields over the whole file. *)
Definition file_records (content : string) : result (list (list string)) :=
  records (file_lines content) parse_reset.

(** A line feed, to write file contents with. *)
Definition LF : string := String (ascii_of_nat 10) EmptyString.

(** [DictReader.__next__] on one record that is not empty:
    [dict(zip(fieldnames, row))], then [restval] under each header the
    record is too short for.  The fields beyond the headers go under the
    key [restkey], which is [None] and no column name; a row is modelled
    by its entries under text keys. *)
Definition dict_row (fieldnames record : list string) : row :=
  let d := fold_left (fun d kv => <[kv.1 := Str kv.2]> d)
             (zip fieldnames record) (∅ : row) in
  let lf := length fieldnames in
  let lr := length record in
  if (lf <? lr)%nat then d
  else if (lr <? lf)%nat then
    fold_left (fun d key => <[key := PyNone]> d) (drop lr fieldnames) d
  else d.

(** [list(reader)] for a [DictReader]: empty records are skipped. *)
Definition dict_rows (fieldnames : list string) (recs : list (list string))
  : list row :=
  dict_row fieldnames <$> filter (fun r => r ≠ []) recs.

End Csv.

(** ** Filter operators *)

Record FilterOperator := { apply : cell -> cell -> result bool }.

Definition EqualsOperator : FilterOperator :=
  {| apply value target :=
       Ok (String.eqb (PyStr.strip (py_str value)) (PyStr.strip (py_str target))) |}.

Definition GreaterThanOperator : FilterOperator :=
  {| apply value target :=
       try_except
         (a ← py_float value; b ← py_float target; Ok (PyFloat.gt a b))
         (fun e => is_ValueError e || is_TypeError e)
         (Ok (PyStr.gt (py_str value) (py_str target))) |}.

Definition LessThanOperator : FilterOperator :=
  {| apply value target :=
       try_except
         (a ← py_float value; b ← py_float target; Ok (PyFloat.lt a b))
         (fun e => is_ValueError e || is_TypeError e)
         (Ok (PyStr.lt (py_str value) (py_str target))) |}.

(** ** Aggregation functions *)

(** [Union[int, float]] *)
Inductive number :=
  | Int (z : Z)
  | Float (x : spec_float).

Record AggregationFunction := { calculate : list spec_float -> number }.

Definition fadd : spec_float -> spec_float -> spec_float :=
  SFadd PyFloat.prec PyFloat.emax.
Definition fdiv : spec_float -> spec_float -> spec_float :=
  SFdiv PyFloat.prec PyFloat.emax.
(** [float(n)] for an [int] *)
Definition float_of_int (n : Z) : spec_float :=
  binary_normalize PyFloat.prec PyFloat.emax n 0 false.

(** [sum(values)] over floats: the additions from left to right, from 0,
    as CPython up to 3.11 does them (later versions compensate the
    rounding errors of the partial sums). *)
Definition py_sum (values : list spec_float) : spec_float :=
  fold_left fadd values (S754_zero false).

(** [min(values)] and [max(values)] on a list that is not empty: a later
    item replaces the running one only when strictly below (above) it. *)
Definition py_min (first : spec_float) (rest : list spec_float) : spec_float :=
  fold_left (fun m x => if PyFloat.lt x m then x else m) rest first.
Definition py_max (first : spec_float) (rest : list spec_float) : spec_float :=
  fold_left (fun m x => if PyFloat.gt x m then x else m) rest first.

Definition AverageAggregation : AggregationFunction :=
  {| calculate values :=
       match values with
       | [] => Float (S754_zero false)
       | _ => Float (fdiv (py_sum values) (float_of_int (Z.of_nat (length values))))
       end |}.

Definition MinAggregation : AggregationFunction :=
  {| calculate values :=
       match values with
       | [] => Int 0
       | x :: rest => Float (py_min x rest)
       end |}.

Definition MaxAggregation : AggregationFunction :=
  {| calculate values :=
       match values with
       | [] => Int 0
       | x :: rest => Float (py_max x rest)
       end |}.

(** ** CSVProcessor *)

(** What opening and reading the file at [filepath] gives. *)
Inductive opened :=
  | Missing                      (* [FileNotFoundError] *)
  | Failed (why : string)        (* any other error of [open] or of decoding *)
  | Content (text : string).

Definition exn_message (e : exn) : string :=
  match e with
  | ValueError m | TypeError m | FileNotFoundError m | Exception m => m
  | KeyError k => "'" +:+ k +:+ "'"
  end.

Module CSVProcessor.

Definition filter_operators : gmap string FilterOperator :=
  <["eq" := EqualsOperator]> (<["gt" := GreaterThanOperator]>
  (<["lt" := LessThanOperator]> ∅)).

Definition aggregation_functions : gmap string AggregationFunction :=
  <["avg" := AverageAggregation]> (<["min" := MinAggregation]>
  (<["max" := MaxAggregation]> ∅)).

(** The [for row in data] loop of [filter_data]. *)
Fixpoint filter_rows (filter_op : FilterOperator) (column value : string)
    (data filtered_data : list row) : result (list row) :=
  match data with
  | r :: rest =>
      match r !! column with
      | None => Raise (ColumnNotFound column)
      | Some c =>
          keep ← apply filter_op c (Str value);
          filter_rows filter_op column value rest
            (if keep : bool then filtered_data ++ [r] else filtered_data)
      end
  | [] => Ok filtered_data
  end.

Definition filter_data (data : list row) (column operator value : string)
  : result (list row) :=
  match filter_operators !! operator with
  | None => Raise (UnsupportedOperator operator)
  | Some filter_op => filter_rows filter_op column value data []
  end.

(** The [for row in data] loop of [aggregate_data]. *)
Fixpoint numeric_values (column : string) (data : list row)
    (values : list spec_float) : result (list spec_float) :=
  match data with
  | r :: rest =>
      value ← try_except (c ← getitem r column; py_float c) is_ValueError
                 (c ← getitem r column;
                  Raise (NonNumericValue column (py_str c)));
      numeric_values column rest (values ++ [value])
  | [] => Ok values
  end.

Definition aggregate_data (data : list row) (column function : string)
  : result number :=
  match aggregation_functions !! function with
  | None => Raise (UnsupportedFunction function)
  | Some agg_func =>
      match data with
      | [] => Ok (Int 0)
      | first :: _ =>
          match first !! column with
          | None => Raise (ColumnNotFound column)
          | Some _ =>
              values ← numeric_values column data [];
              Ok (calculate agg_func values)
          end
      end
  end.

Definition read_csv (file : opened) (filepath : string)
  : result (list string * list row) :=
  match file with
  | Missing => Raise (NotFound filepath)
  | Failed why => Raise (ReadError why)
  | Content text =>
      match Csv.file_records text with
      | Raise e => Raise (ReadError (exn_message e))
      | Ok [] => Ok ([], [])
      | Ok (fieldnames :: recs) => Ok (fieldnames, Csv.dict_rows fieldnames recs)
      end
  end.

End CSVProcessor.

(** ** Predicates to state the properties with *)

(** The rows [filter_data] is meant to keep: those whose cell under
    [column] makes [filter_op.apply(cell, value)] return [True]. *)
Definition keeps (filter_op : FilterOperator) (column value : string)
    (r : row) : bool :=
  match r !! column with
  | Some c =>
      match apply filter_op c (Str value) with
      | Ok keep => keep
      | Raise _ => false
      end
  | None => false
  end.

(** A text of blanks only. *)
Fixpoint blank (s : string) : bool :=
  match s with
  | String c r => PyStr.isspace c && blank r
  | EmptyString => true
  end.

(** A text with no blank at its start, and one with no blank at its end. *)
Definition starts_nonblank (s : string) : Prop :=
  match s with
  | String c _ => PyStr.isspace c = false
  | EmptyString => True
  end.

Definition ends_nonblank (s : string) : Prop :=
  s = EmptyString \/
  exists (p : string) (c : ascii),
    s = p +:+ String c EmptyString /\ PyStr.isspace c = false.

(** ** The fixtures of the test suite *)

(** [sample_csv_file] of [TestCSVProcessor]; the last line has no line
    feed. *)
Definition sample_csv : string :=
  "name,brand,price,rating" +:+ Csv.LF +:+
  "iphone 15 pro,apple,999,4.9" +:+ Csv.LF +:+
  "galaxy s23 ultra,samsung,1199,4.8" +:+ Csv.LF +:+
  "redmi note 12,xiaomi,199,4.6" +:+ Csv.LF +:+
  "poco x5 pro,xiaomi,299,4.4".

(** [complex_csv_file] of [TestIntegration]. *)
Definition complex_csv : string :=
  "id,category,value,score,active" +:+ Csv.LF +:+
  "1,electronics,150.5,8.9,true" +:+ Csv.LF +:+
  "2,books,25.0,7.2,false" +:+ Csv.LF +:+
  "3,electronics,299.99,9.1,true" +:+ Csv.LF +:+
  "4,clothing,75.5,6.8,true" +:+ Csv.LF +:+
  "5,books,15.99,8.5,false" +:+ Csv.LF +:+
  "6,electronics,199.0,8.0,true".

(** The rows of a file that reads without error, and no rows otherwise. *)
Definition rows_of (content : string) : list row :=
  match CSVProcessor.read_csv (Content content) "test.csv" with
  | Ok (_, data) => data
  | Raise _ => []
  end.

(** [len(filtered)] for the rows a call returned. *)
Definition length_of (r : result (list row)) : option nat :=
  match r with
  | Ok data => Some (length data)
  | Raise _ => None
  end.

(** The float a literal of the test suite stands for. *)
Definition literal (s : string) : spec_float :=
  default S754_nan (PyFloat.of_str s).

(** ** The presenter and the orchestrator *)

(** [repr(s)] for a text: quoted with ['], or with the double quote when
    the text holds a ['] and no double quote; backslash, the quote used,
    tab, line feed and carriage return escaped; the other code points
    that do not print written as [\xhh]. *)
Module PyRepr.

Definition dquote : ascii := ascii_of_nat 34.
Definition squote : ascii := "'".
Definition backslash : ascii := ascii_of_nat 92.

Definition hex_digit (n : N) : ascii :=
  if (n <? 10)%N then ascii_of_N (48 + n) else ascii_of_N (87 + n).

Definition printable (c : ascii) : bool :=
  let n := PyStr.code c in
  ((32 <=? n) && (n <? 127) || (161 <=? n) && negb (n =? 173))%N.

Definition escape (quote c : ascii) : string :=
  let n := PyStr.code c in
  if Ascii.eqb c quote || Ascii.eqb c backslash
  then String backslash (String c EmptyString)
  else if (n =? 9)%N then String backslash "t"
  else if (n =? 10)%N then String backslash "n"
  else if (n =? 13)%N then String backslash "r"
  else if printable c then String c EmptyString
  else String backslash
         (String "x" (String (hex_digit (n / 16)) (String (hex_digit (n mod 16))
                                                      EmptyString))).

Fixpoint escape_all (quote : ascii) (s : string) : string :=
  match s with
  | String c r => escape quote c +:+ escape_all quote r
  | EmptyString => EmptyString
  end.

Definition repr (s : string) : string :=
  let quote :=
    if PyStr.contains (String squote EmptyString) s
       && negb (PyStr.contains (String dquote EmptyString) s)
    then dquote else squote in
  String quote (escape_all quote s +:+ String quote EmptyString).

End PyRepr.

(** [str(e)] for an exception, as the handlers of [main] print it. *)
Definition exn_str (e : exn) : string :=
  match e with
  | ValueError m | TypeError m | FileNotFoundError m | Exception m => m
  | KeyError k => PyRepr.repr k
  end.

(** [IndexError] is a subclass of [Exception] that no handler of the
    program tells apart from it. *)
Definition IndexError : exn := Exception "list index out of range".

(** [str(n)] for an [int] *)
Definition str_of_nat (n : nat) : string := NilZero.string_of_uint (Nat.to_uint n).
Definition str_of_int (z : Z) : string := NilZero.string_of_int (Z.to_int z).

(** A run of the program prints lines and then returns, raises, or leaves
    through [sys.exit]. *)
Inductive run (A : Type) :=
  | Done (a : A)
  | Raised (e : exn)
  | Exited (code : Z).
Arguments Done {A} a.
Arguments Raised {A} e.
Arguments Exited {A} code.

Definition io (A : Type) : Type := list string * run A.

#[global] Instance io_ret : MRet io := fun _ a => ([], Done a).
#[global] Instance io_bind : MBind io := fun _ _ k m =>
  match m with
  | (out, Done a) => let '(out', r) := k a in (out ++ out', r)
  | (out, Raised e) => (out, Raised e)
  | (out, Exited code) => (out, Exited code)
  end.

(** [print(s)] *)
Definition print (s : string) : io unit := ([s], Done tt).

(** [sys.exit(code)] *)
Definition sys_exit {A : Type} (code : Z) : io A := ([], Exited code).

(** A call that prints nothing. *)
Definition call {A : Type} (r : result A) : io A :=
  ([], match r with Ok a => Done a | Raise e => Raised e end).

(** [try: body except <caught> as e: handler(e)] *)
Definition io_try {A : Type} (body : io A) (caught : exn -> bool)
    (handler : exn -> io A) : io A :=
  match body with
  | (out, Raised e) =>
      if caught e then let '(out', r) := handler e in (out ++ out', r)
      else (out, Raised e)
  | _ => body
  end.


(** The status the process ends with. *)
Definition exit_status {A : Type} (m : io A) : Z :=
  match m.2 with
  | Done _ => 0
  | Raised _ => 1
  | Exited code => code
  end.

(** [s.ljust(width)] *)
Definition ljust (s : string) (width : nat) : string :=
  s +:+ string_of_list_ascii (replicate (width - String.length s) " "%char).

(** [sep.join(parts)] *)
Fixpoint join (sep : string) (parts : list string) : string :=
  match parts with
  | [] => EmptyString
  | [p] => p
  | p :: rest => p +:+ sep +:+ join sep rest
  end.

(** ["-" * n] *)
Definition rule (n : nat) : string :=
  string_of_list_ascii (replicate n "-"%char).

(** The inner loop of the column widths: [for i, cell in enumerate(row)],
    from the index [i]. *)
Fixpoint widen_from (i : nat) (row : list cell) (col_widths : list nat)
  : list nat :=
  match row with
  | c :: rest =>
      widen_from (S i) rest
        (if decide (i < length col_widths) then
           <[i := Nat.max (col_widths !!! i) (String.length (py_str c))]> col_widths
         else col_widths)
  | [] => col_widths
  end.

(** The padded cells of one line, [text.ljust(col_widths[i])] from the
    index [i]; an index beyond the widths raises [IndexError]. *)
Fixpoint padded_from (i : nat) (texts : list string) (col_widths : list nat)
  : result (list string) :=
  match texts with
  | t :: rest =>
      match col_widths !! i with
      | Some w =>
          more ← padded_from (S i) rest col_widths; Ok (ljust t w :: more)
      | None => Raise IndexError
      end
  | [] => Ok []
  end.

(** The loop that prints the data rows. *)
Fixpoint print_rows (col_widths : list nat) (data : list (list cell)) : io unit :=
  match data with
  | r :: rest =>
      cells ← call (padded_from 0 (py_str <$> r) col_widths);
      _ ← print (join " | " cells);
      print_rows col_widths rest
  | [] => mret tt
  end.

Definition _display_basic_table (headers : list string)
    (data : list (list cell)) : io unit :=
  let col_widths :=
    fold_left (fun w r => widen_from 0 r w) data (String.length <$> headers) in
  cells ← call (padded_from 0 headers col_widths);
  let header_row := join " | " cells in
  _ ← print header_row;
  _ ← print (rule (String.length header_row));
  print_rows col_widths data.

(** The runtime the program does not define: [tabulate], when the package
    is installed; [str.upper]; [str] of a [float]. *)
Section Runtime.

Variable tabulate : option (list (list cell) -> list string -> string).
Variable upper : string -> string.
Variable str_of_float : spec_float -> string.

Definition display_table (headers : list string) (data : list row) : io unit :=
  match data with
  | [] => print "No data to display."
  | _ =>
      let table_data :=
        (fun r : row => (fun header => default (Str EmptyString) (r !! header))
                          <$> headers) <$> data in
      match tabulate with
      | Some tabulate => print (tabulate table_data headers)
      | None => _display_basic_table headers table_data
      end
  end.

(** [str(result)] *)
Definition str_of_number (result : number) : string :=
  match result with
  | Int z => str_of_int z
  | Float x => str_of_float x
  end.

Definition display_aggregation_result (column function : string)
    (result : number) : io unit :=
  _ ← print (Csv.LF +:+ "Aggregation Result:");
  _ ← print ("Function: " +:+ upper function);
  _ ← print ("Column: " +:+ column);
  print ("Result: " +:+ str_of_number result).

(** The parsed command line; an option that is not given is [None]. *)
Record args := {
  filepath : string;
  filter_arg : option string;      (* [args.filter] *)
  aggregate_arg : option string;   (* [args.aggregate] *)
}.

(** [if x:] for an optional text: given, and not empty. *)
Definition given (x : option string) : option string :=
  match x with
  | Some (String c r) => x
  | _ => None
  end.

(** The filter step of [main]: returns the rows to go on with. *)
Definition filter_step (headers : list string) (data : list row)
    (condition : string) : io (list row) :=
  io_try
    ('(column, operator, value) ← call (parse_filter_condition condition);
     data ← call (CSVProcessor.filter_data data column operator value);
     _ ← print ("Filtered by: " +:+ column +:+ " " +:+ operator +:+ " " +:+ value);
     _ ← print ("Records found: " +:+ str_of_nat (length data) +:+ Csv.LF);
     _ ← display_table headers data;
     mret data)
    is_ValueError
    (fun e => _ ← print ("Filter error: " +:+ exn_str e); sys_exit 1).

(** The aggregation step of [main]. *)
Definition aggregate_step (data : list row) (condition : string) : io unit :=
  io_try
    ('(function, column) ← call (parse_aggregation_condition condition);
     result ← call (CSVProcessor.aggregate_data data column function);
     display_aggregation_result column function result)
    is_ValueError
    (fun e => _ ← print ("Aggregation error: " +:+ exn_str e); sys_exit 1).

(** [main()], on the parsed arguments and on what opening a path gives. *)
Definition main (open : string -> opened) (a : args) : io unit :=
  match given (filter_arg a), given (aggregate_arg a) with
  | None, None =>
      _ ← print "Error: Either --filter or --aggregate must be specified.";
      sys_exit 1
  | filter_condition, aggregate_condition =>
      io_try
        ('(headers, data) ← call (CSVProcessor.read_csv (open (filepath a)) (filepath a));
         match data with
         | [] => print "No data found in CSV file."
         | _ =>
             data ← match filter_condition with
                    | Some condition => filter_step headers data condition
                    | None => mret data
                    end;
             match aggregate_condition with
             | Some condition => aggregate_step data condition
             | None => mret tt
             end
         end)
        (fun _ => true)
        (fun e => _ ← print ("Error: " +:+ exn_str e); sys_exit 1)
  end.

End Runtime.

(** ** Files that need no quoting *)

(** Every character of a text passes a test. *)
Fixpoint all_chars (p : ascii -> bool) (s : string) : bool :=
  match s with
  | String c r => p c && all_chars p r
  | EmptyString => true
  end.

(** A character that [csv.reader] takes as part of a field wherever it
    stands: no delimiter, no quote, no end of line. *)
Definition plain_char (c : ascii) : bool :=
  negb (Ascii.eqb c Csv.delimiter || Ascii.eqb c Csv.quotechar
        || Csv.is_newline c).

(** A field of such characters, within the field size limit. *)
Definition plain_field (f : string) : bool :=
  all_chars plain_char f
  && (N.of_nat (String.length f) <=? Csv.field_limit)%N.

(** A record of such fields whose line is not empty. *)
Definition plain_record (record : list string) : bool :=
  forallb plain_field record
  && negb (String.eqb (join "," record) EmptyString).

(** The text of a file with one line for each record, the fields of a
    record separated by commas, the lines by line feeds; the last line
    ends with a line feed or not. *)
Definition csv_text (records : list (list string)) (final_newline : bool)
  : string :=
  join Csv.LF (join "," <$> records)
  +:+ (if final_newline then Csv.LF else EmptyString).

(** The states of the reader outside a quoted field and inside a line. *)
Definition unquoted (s : Csv.state) : Prop :=
  s = Csv.START_RECORD \/ s = Csv.START_FIELD \/ s = Csv.IN_FIELD.

(** * Properties *)

(** ** Facts about the string methods *)

Section StringFacts.

Implicit Types s sep a b : string.

Lemma append_nil s : EmptyString +:+ s = s.
Proof. reflexivity. Qed.

Lemma append_cons c a b : String c a +:+ b = String c (a +:+ b).
Proof. reflexivity. Qed.

Lemma append_assoc s1 s2 s3 : (s1 +:+ s2) +:+ s3 = s1 +:+ s2 +:+ s3.
Proof.
  induction s1 as [|c s1 IH]; [reflexivity|].
  rewrite !append_cons. now f_equal.
Qed.

Lemma append_inj_length a a' b b' :
  a +:+ b = a' +:+ b' -> String.length a = String.length a' ->
  a = a' /\ b = b'.
Proof.
  revert a'; induction a as [|c a IH]; intros [|c' a'] Heq Hlen;
    simpl in Hlen; try discriminate; [now split|].
  rewrite !append_cons in Heq. injection Heq as -> Heq.
  destruct (IH a' Heq) as [-> ->]; [lia | now split].
Qed.

Lemma prefix_append sep b : String.prefix sep (sep +:+ b) = true.
Proof.
  induction sep as [|c sep IH]; [now destruct b|].
  rewrite append_cons. simpl. destruct (ascii_dec c c); [assumption | congruence].
Qed.

Lemma prefix_skip sep s :
  String.prefix sep s = true -> s = sep +:+ PyStr.skip (String.length sep) s.
Proof.
  revert s; induction sep as [|c sep IH]; intros [|c' s] H; simpl in *;
    try reflexivity; try discriminate.
  destruct (ascii_dec c c') as [->|]; [|discriminate].
  rewrite append_cons. now rewrite <- IH.
Qed.

Lemma cut_nil sep :
  PyStr.cut sep EmptyString =
  if String.prefix sep EmptyString
  then Some (EmptyString, PyStr.skip (String.length sep) EmptyString)
  else None.
Proof. reflexivity. Qed.

Lemma cut_cons sep c s :
  PyStr.cut sep (String c s) =
  if String.prefix sep (String c s)
  then Some (EmptyString, PyStr.skip (String.length sep) (String c s))
  else match PyStr.cut sep s with
       | Some (a, b) => Some (String c a, b)
       | None => None
       end.
Proof. reflexivity. Qed.

Lemma contains_nil sep :
  PyStr.contains sep EmptyString = String.prefix sep EmptyString || false.
Proof. reflexivity. Qed.

Lemma contains_cons sep c s :
  PyStr.contains sep (String c s) =
  String.prefix sep (String c s) || PyStr.contains sep s.
Proof. reflexivity. Qed.

(** [cut] splits around an occurrence of the separator ... *)
Lemma cut_Some sep s a b :
  PyStr.cut sep s = Some (a, b) -> s = a +:+ sep +:+ b.
Proof.
  revert a; induction s as [|c s IH]; intros a;
    [rewrite cut_nil | rewrite cut_cons].
  - destruct (String.prefix sep EmptyString) eqn:Hp; [|discriminate].
    intros [= <- <-]. now apply prefix_skip.
  - destruct (String.prefix sep (String c s)) eqn:Hp.
    + intros [= <- <-]. now apply prefix_skip.
    + destruct (PyStr.cut sep s) as [[a0 b0]|]; [|discriminate].
      intros [= <- <-]. rewrite append_cons. now rewrite <- (IH a0).
Qed.

(** ... the leftmost one ... *)
Lemma cut_leftmost sep s a b :
  PyStr.cut sep s = Some (a, b) ->
  forall a' b', s = a' +:+ sep +:+ b' -> String.length a <= String.length a'.
Proof.
  revert a; induction s as [|c s IH]; intros a;
    [rewrite cut_nil | rewrite cut_cons].
  - destruct (String.prefix sep EmptyString); [|discriminate].
    intros [= <- <-] a' b' _. simpl. lia.
  - destruct (String.prefix sep (String c s)) eqn:Hp.
    + intros [= <- <-] a' b' _. simpl. lia.
    + destruct (PyStr.cut sep s) as [[a0 b0]|] eqn:Hc; [|discriminate].
      intros [= <- <-] [|c' a'] b' Heq.
      * rewrite append_nil in Heq. rewrite Heq, prefix_append in Hp. discriminate.
      * rewrite append_cons in Heq. injection Heq as -> Heq. simpl.
        specialize (IH a0 eq_refl a' b' Heq). lia.
Qed.

(** ... and finds one whenever there is one. *)
Lemma cut_append sep a b : is_Some (PyStr.cut sep (a +:+ sep +:+ b)).
Proof.
  induction a as [|c a IH].
  - rewrite append_nil.
    assert (Hp : String.prefix sep (sep +:+ b) = true) by apply prefix_append.
    destruct (sep +:+ b); [rewrite cut_nil | rewrite cut_cons]; rewrite Hp; eauto.
  - rewrite append_cons, cut_cons.
    destruct (String.prefix sep (String c (a +:+ sep +:+ b))); [eauto|].
    destruct IH as [[a0 b0] ->]. eauto.
Qed.

Lemma cut_unique sep s a b :
  s = a +:+ sep +:+ b ->
  (forall a' b', s = a' +:+ sep +:+ b' -> String.length a <= String.length a') ->
  PyStr.cut sep s = Some (a, b).
Proof.
  intros Hs Hleft.
  destruct (cut_append sep a b) as [[a0 b0] Hc]. rewrite <- Hs in Hc.
  pose proof (cut_Some _ _ _ _ Hc) as Hs0.
  pose proof (cut_leftmost _ _ _ _ Hc a b Hs) as H1.
  pose proof (Hleft a0 b0 Hs0) as H2.
  rewrite Hs in Hs0.
  destruct (append_inj_length a a0 (sep +:+ b) (sep +:+ b0) Hs0) as [-> Hb]; [lia|].
  destruct (append_inj_length sep sep b b0 Hb eq_refl) as [_ ->].
  exact Hc.
Qed.

Lemma contains_cut sep s :
  PyStr.contains sep s = bool_decide (is_Some (PyStr.cut sep s)).
Proof.
  induction s as [|c s IH];
    [rewrite contains_nil, cut_nil | rewrite contains_cons, cut_cons].
  - destruct (String.prefix sep EmptyString).
    + rewrite bool_decide_eq_true_2; [reflexivity | eauto].
    + rewrite bool_decide_eq_false_2; [reflexivity | now intros [? [=]]].
  - destruct (String.prefix sep (String c s)).
    + rewrite bool_decide_eq_true_2; [reflexivity | eauto].
    + rewrite IH. destruct (PyStr.cut sep s) as [[a0 b0]|].
      * rewrite !bool_decide_eq_true_2; [reflexivity | eauto ..].
      * rewrite !bool_decide_eq_false_2; [reflexivity|..]; now intros [? [=]].
Qed.

Lemma contains_true sep s :
  PyStr.contains sep s = true <-> exists a b, s = a +:+ sep +:+ b.
Proof.
  rewrite contains_cut, bool_decide_eq_true. split.
  - intros [[a b] Hc]. exists a, b. now apply cut_Some.
  - intros (a & b & ->). apply cut_append.
Qed.

Lemma contains_false_cut sep s :
  PyStr.contains sep s = false -> PyStr.cut sep s = None.
Proof.
  rewrite contains_cut, bool_decide_eq_false.
  destruct (PyStr.cut sep s); [intros []; eauto | reflexivity].
Qed.

Lemma contains_true_cut sep s :
  PyStr.contains sep s = true -> exists a b, PyStr.cut sep s = Some (a, b).
Proof.
  rewrite contains_cut, bool_decide_eq_true. intros [[a b] Hc]. eauto.
Qed.

Lemma prefix_char (c c' : ascii) s :
  String.prefix (String c EmptyString) (String c' s) = bool_decide (c = c').
Proof.
  simpl. destruct (ascii_dec c c') as [->|Hne].
  - rewrite bool_decide_eq_true_2; [now destruct s | reflexivity].
  - now rewrite bool_decide_eq_false_2.
Qed.

(** A string holds the one-character text [c] exactly when [c] is among
    its characters. *)
Lemma contains_char (c : ascii) s :
  PyStr.contains (String c EmptyString) s = true <->
  In c (list_ascii_of_string s).
Proof.
  induction s as [|c' s IH].
  - rewrite contains_nil. simpl. split; [discriminate | tauto].
  - rewrite contains_cons, prefix_char, orb_true_iff, IH, bool_decide_eq_true.
    simpl. split; intros [?|?]; auto.
Qed.

(** ** [strip] removes the blanks at both ends, and nothing else *)

Lemma lstrip_spec s :
  exists l, s = l +:+ PyStr.lstrip s /\ blank l = true
            /\ starts_nonblank (PyStr.lstrip s).
Proof.
  induction s as [|c s (l & Hs & Hl & Hstart)].
  - exists EmptyString. now repeat split.
  - simpl. destruct (PyStr.isspace c) eqn:Hc.
    + exists (String c l). rewrite append_cons, <- Hs. simpl. rewrite Hc, Hl.
      now repeat split.
    + exists EmptyString. now repeat split.
Qed.

Lemma rstrip_cons c s :
  PyStr.rstrip (String c s) =
  match PyStr.rstrip s with
  | EmptyString => if PyStr.isspace c then EmptyString else String c EmptyString
  | String c' r' => String c (String c' r')
  end.
Proof. reflexivity. Qed.

Lemma rstrip_spec s :
  exists r, s = PyStr.rstrip s +:+ r /\ blank r = true
            /\ ends_nonblank (PyStr.rstrip s).
Proof.
  induction s as [|c s (r & Hs & Hr & Hend)].
  - exists EmptyString. repeat split. now left.
  - rewrite rstrip_cons. destruct (PyStr.rstrip s) as [|c' r'] eqn:Hrs.
    + rewrite append_nil in Hs. subst r. destruct (PyStr.isspace c) eqn:Hc.
      * exists (String c s). simpl. rewrite Hc, Hr. repeat split. now left.
      * exists s. repeat split; [assumption|]. right. now exists EmptyString, c.
    + exists r. rewrite append_cons, <- Hs. repeat split; [assumption|].
      right. destruct Hend as [|(p & c2 & Hp & Hc2)]; [discriminate|].
      exists (String c p), c2. now rewrite append_cons, <- Hp.
Qed.

Lemma rstrip_starts_nonblank s :
  starts_nonblank s -> starts_nonblank (PyStr.rstrip s).
Proof.
  destruct s as [|c s]; [trivial|]. intros Hc. rewrite rstrip_cons.
  destruct (PyStr.rstrip s); simpl in *; [now rewrite Hc | exact Hc].
Qed.

Lemma strip_spec s :
  exists l r,
    s = l +:+ PyStr.strip s +:+ r /\ blank l = true /\ blank r = true /\
    starts_nonblank (PyStr.strip s) /\ ends_nonblank (PyStr.strip s).
Proof.
  destruct (lstrip_spec s) as (l & Hs & Hl & Hstart).
  destruct (rstrip_spec (PyStr.lstrip s)) as (r & Hls & Hr & Hend).
  exists l, r. unfold PyStr.strip. rewrite <- Hls.
  repeat split; auto using rstrip_starts_nonblank.
Qed.

End StringFacts.

(** ** The condition parsers *)

Section ParserFacts.

Implicit Types condition s a b op : string.

Lemma length_append a b :
  String.length (a +:+ b) = String.length a + String.length b.
Proof.
  induction a as [|c a IH]; [reflexivity|].
  rewrite append_cons. simpl. now rewrite IH.
Qed.

Lemma parse_filter_loop_cons op rest condition :
  parse_filter_loop (op :: rest) condition =
  if PyStr.contains op condition then
    match PyStr.split1 op condition with
    | [p0; p1] =>
        match op_mapping !! op with
        | Some tag => Ok (PyStr.strip p0, tag, PyStr.strip p1)
        | None => parse_filter_loop rest condition
        end
    | _ => parse_filter_loop rest condition
    end
  else parse_filter_loop rest condition.
Proof. reflexivity. Qed.

Lemma parse_filter_loop_hit op rest condition a b tag :
  PyStr.cut op condition = Some (a, b) ->
  op_mapping !! op = Some tag ->
  parse_filter_loop (op :: rest) condition
  = Ok (PyStr.strip a, tag, PyStr.strip b).
Proof.
  intros Hcut Hmap. rewrite parse_filter_loop_cons.
  rewrite contains_cut, bool_decide_eq_true_2 by eauto.
  unfold PyStr.split1. now rewrite Hcut, Hmap.
Qed.

Lemma parse_filter_loop_miss op rest condition :
  PyStr.contains op condition = false ->
  parse_filter_loop (op :: rest) condition = parse_filter_loop rest condition.
Proof. intros Hno. rewrite parse_filter_loop_cons. now rewrite Hno. Qed.

(** A token that occurs ends the loop, with its own tag. *)
Lemma parse_filter_loop_tag op rest condition tag :
  PyStr.contains op condition = true ->
  op_mapping !! op = Some tag ->
  exists column value,
    parse_filter_loop (op :: rest) condition = Ok (column, tag, value).
Proof.
  intros Hc Hmap. destruct (contains_true_cut _ _ Hc) as (a & b & Hcut).
  eexists _, _. eapply parse_filter_loop_hit; eassumption.
Qed.

(** The loop returns at the first token of the list that occurs. *)
Lemma parse_filter_loop_first pre op post condition a b tag :
  Forall (fun o => PyStr.contains o condition = false) pre ->
  PyStr.cut op condition = Some (a, b) ->
  op_mapping !! op = Some tag ->
  parse_filter_loop (pre ++ op :: post) condition
  = Ok (PyStr.strip a, tag, PyStr.strip b).
Proof.
  intros Hpre Hcut Hmap. induction Hpre as [|o pre Ho _ IH]; simpl app.
  - now apply parse_filter_loop_hit.
  - now rewrite parse_filter_loop_miss.
Qed.

Lemma parse_filter_loop_none ops condition :
  Forall (fun o => PyStr.contains o condition = false) ops ->
  parse_filter_loop ops condition = Raise (InvalidFilterFormat condition).
Proof.
  induction 1 as [|o ops Ho _ IH]; [reflexivity|].
  now rewrite parse_filter_loop_miss.
Qed.

Lemma op_mapping_operators op :
  op ∈ operators -> is_Some (op_mapping !! op).
Proof.
  unfold operators. intros Hin.
  repeat (apply elem_of_cons in Hin as [->|Hin]; [now eexists|]).
  now apply elem_of_nil in Hin.
Qed.

(** A text that holds [!=] holds [=]. *)
Lemma contains_ne_eq s :
  PyStr.contains "!=" s = true -> PyStr.contains "=" s = true.
Proof.
  rewrite !contains_true. intros (a & b & ->).
  exists (a +:+ "!"), b. now rewrite append_assoc.
Qed.

(** One turn of the loop on the next token: either the token occurs and
    the loop returns with the tag [tag] of that token, which is not [ne],
    or the loop goes on. *)
Ltac loop_turn tag :=
  match goal with
  | |- parse_filter_loop (?op :: ?rest) ?condition <> _ =>
      let Hop := fresh "Hop" in
      destruct (PyStr.contains op condition) eqn:Hop;
      [ destruct (parse_filter_loop_tag op rest condition tag Hop eq_refl)
          as (? & ? & ->); discriminate
      | rewrite (parse_filter_loop_miss op rest condition Hop) ]
  end.

(** No condition is parsed to the tag [ne]: a text that holds [!=] holds
    [=], and [=] comes before [!=] in [operators]. *)
Lemma parse_filter_condition_never_ne condition column value :
  parse_filter_condition condition <> Ok (column, "ne", value).
Proof.
  unfold parse_filter_condition, operators.
  loop_turn "gte". loop_turn "lte". loop_turn "gt". loop_turn "lt".
  loop_turn "eq".
  rewrite parse_filter_loop_cons.
  destruct (PyStr.contains "!=" condition) eqn:Hne; [|discriminate].
  apply contains_ne_eq in Hne. congruence.
Qed.

End ParserFacts.

(** C1.  The parser has the entry [!=] -> [ne] in its table, but never
    returns it: at ["price!=500"] the token [=] matches first, and the
    condition is parsed as column ["price!"], tag [eq], value ["500"]; no
    condition at all is parsed to the tag [ne]. *)
Theorem parse_filter_condition_ne_shadowed :
  op_mapping !! "!=" = Some "ne" /\
  parse_filter_condition "price!=500" = Ok ("price!", "eq", "500") /\
  forall condition column value,
    parse_filter_condition condition <> Ok (column, "ne", value).
Proof.
  split; [reflexivity|]. split; [reflexivity|].
  apply parse_filter_condition_never_ne.
Qed.

(** C2, as stated, fails at ["=5"]: the token [=] occurs, none of the four
    tokens before it in the list does, the text before the [=] is empty,
    and the parser returns a triple with the empty column instead of
    raising. *)
Lemma parse_filter_condition_empty_column :
  Forall (fun o => PyStr.contains o "=5" = false) [">="; "<="; ">"; "<"] /\
  PyStr.contains "=" "=5" = true /\
  "=5" = EmptyString +:+ "=" +:+ "5" /\
  PyStr.strip EmptyString = EmptyString /\
  parse_filter_condition "=5" = Ok (EmptyString, "eq", "5") /\
  parse_filter_condition "=5" <> Raise (InvalidFilterFormat "=5").
Proof.
  repeat split; try reflexivity; [|discriminate].
  repeat constructor.
Qed.

(** C2, amended.  When some token of [operators] occurs in the condition,
    the parser does not raise: with [op] the first token of the list that
    occurs, and [before] and [after] the texts around its leftmost
    occurrence, it returns the trimmed [before], the tag of [op] and the
    trimmed [after], whether or not they are empty. *)
Theorem parse_filter_condition_first_token :
  forall (condition : string) (pre : list string) (op : string)
         (post : list string) (before after : string),
    operators = pre ++ op :: post ->
    Forall (fun o => PyStr.contains o condition = false) pre ->
    condition = before +:+ op +:+ after ->
    (forall before' after',
        condition = before' +:+ op +:+ after' ->
        String.length before <= String.length before') ->
    exists tag,
      op_mapping !! op = Some tag /\
      parse_filter_condition condition
      = Ok (PyStr.strip before, tag, PyStr.strip after).
Proof.
  intros condition pre op post before after Hops Hpre Heq Hleft.
  destruct (op_mapping_operators op) as [tag Htag].
  { rewrite Hops. apply elem_of_app. right. apply list_elem_of_here. }
  exists tag. split; [exact Htag|].
  unfold parse_filter_condition. rewrite Hops.
  apply parse_filter_loop_first; auto using cut_unique.
Qed.

Lemma parse_filter_condition_first_token_witness :
  exists tag,
    op_mapping !! "=" = Some tag /\
    parse_filter_condition "=5"
    = Ok (PyStr.strip EmptyString, tag, PyStr.strip "5").
Proof.
  apply (parse_filter_condition_first_token
           "=5" [">="; "<="; ">"; "<"] "=" ["!="] EmptyString "5").
  - reflexivity.
  - repeat constructor.
  - reflexivity.
  - intros before' after' _. simpl. lia.
Defined.

(** The parser raises exactly when no token of the list occurs. *)
Lemma parse_filter_condition_invalid (condition : string) :
  parse_filter_condition condition = Raise (InvalidFilterFormat condition) <->
  Forall (fun o => PyStr.contains o condition = false) operators.
Proof.
  split; [|apply parse_filter_loop_none].
  unfold parse_filter_condition. pose proof op_mapping_operators as Hmap.
  induction operators as [|o ops IH]; intros Hraise; [constructor|].
  destruct (PyStr.contains o condition) eqn:Ho.
  - destruct (contains_true_cut _ _ Ho) as (a & b & Hcut).
    destruct (Hmap o) as [tag Htag]; [apply list_elem_of_here|].
    rewrite (parse_filter_loop_hit _ _ _ _ _ _ Hcut Htag) in Hraise.
    discriminate.
  - rewrite parse_filter_loop_miss in Hraise by assumption.
    constructor; [assumption|]. apply IH; [|assumption].
    intros op' Hin'. apply Hmap. now apply list_elem_of_further.
Qed.

Lemma parse_aggregation_condition_cut (s a b : string) :
  PyStr.cut "=" s = Some (a, b) ->
  parse_aggregation_condition s = Ok (PyStr.strip a, PyStr.strip b).
Proof.
  intros Hcut. unfold parse_aggregation_condition, PyStr.split1.
  rewrite contains_cut, bool_decide_eq_true_2 by eauto.
  now rewrite Hcut.
Qed.

Lemma parse_aggregation_condition_no_equals (s : string) :
  PyStr.contains "=" s = false ->
  parse_aggregation_condition s = Raise (InvalidAggregationFormat s).
Proof.
  intros Hno. unfold parse_aggregation_condition. now rewrite Hno.
Qed.

(** C9.  A text that holds the character [=] is split at its first [=]:
    with [a] the text before it (which holds no [=]) and [b] all the text
    after it, further [=] included, the parser returns the trimmed [a] and
    the trimmed [b].  It raises the format error exactly on the texts
    that hold no [=]. *)
Theorem parse_aggregation_condition_first_equals :
  (forall s : string,
      In "="%char (list_ascii_of_string s) ->
      exists a b : string,
        s = a +:+ "=" +:+ b /\
        ~ In "="%char (list_ascii_of_string a) /\
        parse_aggregation_condition s = Ok (PyStr.strip a, PyStr.strip b)) /\
  (forall s : string,
      parse_aggregation_condition s = Raise (InvalidAggregationFormat s) <->
      ~ In "="%char (list_ascii_of_string s)) /\
  parse_aggregation_condition "avg=price=test" = Ok ("avg", "price=test").
Proof.
  split; [|split; [|reflexivity]].
  - intros s Hin. apply contains_char in Hin.
    destruct (contains_true_cut _ _ Hin) as (a & b & Hcut).
    exists a, b. split; [now apply cut_Some|].
    split; [|now apply parse_aggregation_condition_cut].
    intros Ha. apply contains_char, contains_true in Ha as (a1 & a2 & ->).
    pose proof (cut_leftmost _ _ _ _ Hcut a1 (a2 +:+ "=" +:+ b)) as Hlen.
    rewrite (cut_Some _ _ _ _ Hcut), !append_assoc in Hlen.
    specialize (Hlen eq_refl). rewrite !length_append in Hlen.
    simpl in Hlen. lia.
  - intros s. rewrite <- contains_char.
    destruct (PyStr.contains "=" s) eqn:Hc.
    + destruct (contains_true_cut _ _ Hc) as (a & b & Hcut).
      rewrite (parse_aggregation_condition_cut _ _ _ Hcut).
      split; [discriminate | intros []; reflexivity].
    + rewrite parse_aggregation_condition_no_equals by assumption.
      split; [discriminate | reflexivity].
Qed.

(** ** The comparison operators *)

Section ComparisonFacts.

(** Swapping the operands of the IEEE comparison mirrors its outcome. *)
Lemma SFcompare_swap (x y : spec_float) :
  SFcompare y x = CompOpp <$> SFcompare x y.
Proof.
  destruct x as [sx|sx| |sx mx ex], y as [sy|sy| |sy my ey]; simpl;
    try reflexivity; try (destruct sx; reflexivity);
    try (destruct sy; reflexivity); try (destruct sx, sy; reflexivity).
  f_equal. destruct sx, sy; try reflexivity;
    rewrite (Z.compare_antisym ex ey); destruct (ex ?= ey)%Z; simpl;
    try reflexivity;
    change (Pos.compare_cont Eq my mx) with (Pos.compare my mx);
    change (Pos.compare_cont Eq mx my) with (Pos.compare mx my);
    rewrite (Pos.compare_antisym mx my); now rewrite ?CompOpp_involutive.
Qed.

Lemma float_gt_lt (x y : spec_float) : PyFloat.gt x y = PyFloat.lt y x.
Proof.
  unfold PyFloat.gt, PyFloat.lt, SFltb. rewrite (SFcompare_swap x y).
  now destruct (SFcompare x y) as [[]|].
Qed.

Lemma str_gt_lt (a b : string) : PyStr.gt a b = PyStr.lt b a.
Proof.
  unfold PyStr.gt, PyStr.lt. rewrite (String.compare_antisym b a).
  now destruct (String.compare a b).
Qed.

(** [PyStr.lt] is the lexicographic order on code points: [a] is below
    [b] when [a] is a proper prefix of [b], or when at the first place
    where they differ [a] has the smaller code point. *)
Lemma str_lt_lexicographic (a b : string) :
  PyStr.lt a b = true <->
  exists p : string,
    (exists c r, a = p /\ b = p +:+ String c r) \/
    (exists x y r1 r2,
        a = p +:+ String x r1 /\ b = p +:+ String y r2 /\
        (PyStr.code x < PyStr.code y)%N).
Proof.
  unfold PyStr.lt. revert b; induction a as [|x a IH]; intros [|y b]; simpl.
  - split; [discriminate|]. intros (p & [(c & r & <- & Hb)|(x & y & r1 & r2 & Ha & _)]).
    + discriminate.
    + destruct p; discriminate.
  - split; [|reflexivity]. intros _. exists EmptyString. left. now exists y, b.
  - split; [discriminate|]. intros (p & [(c & r & _ & Hb)|(x' & y & r1 & r2 & _ & Hb & _)]);
      destruct p; discriminate.
  - unfold Ascii.compare. fold (PyStr.code x) (PyStr.code y).
    destruct (PyStr.code x ?= PyStr.code y)%N eqn:Hc.
    + apply N.compare_eq in Hc.
      assert (x = y) as ->.
      { rewrite <- (ascii_N_embedding x), <- (ascii_N_embedding y).
        unfold PyStr.code in Hc. now rewrite Hc. }
      rewrite IH. split.
      * intros (p & [(c & r & -> & ->)|(x' & y' & r1 & r2 & -> & -> & Hlt)]);
          exists (String y p); [left | right]; eauto 10.
      * intros (p & [(c & r & Ha & Hb)|(x' & y' & r1 & r2 & Ha & Hb & Hlt)]).
        -- destruct p as [|c' p]; [discriminate|].
           rewrite append_cons in Hb. simplify_eq. exists p. left. eauto.
        -- destruct p as [|c' p].
           ++ rewrite append_nil in Ha, Hb. simplify_eq. lia.
           ++ rewrite append_cons in Ha, Hb. simplify_eq.
              exists p. right. eauto 10.
    + split; [|reflexivity]. intros _. exists EmptyString. right.
      exists x, y, a, b. now apply N.compare_lt_iff in Hc.
    + split; [discriminate|]. apply N.compare_gt_iff in Hc.
      intros (p & [(c & r & Ha & Hb)|(x' & y' & r1 & r2 & Ha & Hb & Hlt)]).
      * destruct p as [|c' p]; [discriminate|].
        rewrite append_cons in Hb. simplify_eq. lia.
      * destruct p as [|c' p].
        -- rewrite append_nil in Ha, Hb. simplify_eq. lia.
        -- rewrite append_cons in Ha, Hb. simplify_eq. lia.
Qed.

Lemma apply_gt (value target : cell) :
  apply GreaterThanOperator value target =
  Ok (match py_float value, py_float target with
      | Ok x, Ok y => PyFloat.gt x y
      | _, _ => PyStr.gt (py_str value) (py_str target)
      end).
Proof.
  unfold apply, GreaterThanOperator, try_except, mbind, result_bind.
  destruct value as [v|], target as [t|]; unfold py_float;
    repeat match goal with
           | |- context [PyFloat.of_str ?s] => destruct (PyFloat.of_str s)
           end; reflexivity.
Qed.

Lemma apply_lt (value target : cell) :
  apply LessThanOperator value target =
  Ok (match py_float value, py_float target with
      | Ok x, Ok y => PyFloat.lt x y
      | _, _ => PyStr.lt (py_str value) (py_str target)
      end).
Proof.
  unfold apply, LessThanOperator, try_except, mbind, result_bind.
  destruct value as [v|], target as [t|]; unfold py_float;
    repeat match goal with
           | |- context [PyFloat.of_str ?s] => destruct (PyFloat.of_str s)
           end; reflexivity.
Qed.

Lemma apply_eq (value target : cell) :
  apply EqualsOperator value target =
  Ok (String.eqb (PyStr.strip (py_str value)) (PyStr.strip (py_str target))).
Proof. reflexivity. Qed.

(** Swapping the operands turns one operator into the other, on any
    pair of cells. *)
Lemma apply_gt_lt (value target : cell) :
  apply GreaterThanOperator value target
  = apply LessThanOperator target value.
Proof.
  rewrite apply_gt, apply_lt, str_gt_lt.
  destruct (py_float value), (py_float target); try reflexivity.
  now rewrite float_gt_lt.
Qed.

End ComparisonFacts.

(** C7.  On two texts, [GreaterThanOperator.apply] is the comparison of
    the two floats when both texts parse as floats, and otherwise the
    comparison of the two texts as they are, code point by code point;
    [LessThanOperator.apply] likewise.  On ["banana"] and ["apple"] the
    first returns [True]. *)
Theorem comparison_operators_numeric_else_text :
  (forall v t : string,
      apply GreaterThanOperator (Str v) (Str t) =
      Ok (match PyFloat.of_str v, PyFloat.of_str t with
          | Some x, Some y => PyFloat.gt x y
          | _, _ => PyStr.gt v t
          end)) /\
  (forall v t : string,
      apply LessThanOperator (Str v) (Str t) =
      Ok (match PyFloat.of_str v, PyFloat.of_str t with
          | Some x, Some y => PyFloat.lt x y
          | _, _ => PyStr.lt v t
          end)) /\
  apply GreaterThanOperator (Str "banana") (Str "apple") = Ok true.
Proof.
  split; [|split; [|reflexivity]]; intros v t.
  - rewrite apply_gt. simpl.
    now destruct (PyFloat.of_str v), (PyFloat.of_str t).
  - rewrite apply_lt. simpl.
    now destruct (PyFloat.of_str v), (PyFloat.of_str t).
Qed.

(** C10.  On any two texts, [GreaterThanOperator.apply(v, t)] is
    [LessThanOperator.apply(t, v)]. *)
Theorem greater_than_is_swapped_less_than :
  forall v t : string,
    apply GreaterThanOperator (Str v) (Str t)
    = apply LessThanOperator (Str t) (Str v).
Proof. intros v t. apply apply_gt_lt. Qed.

(** ** Filtering *)

Section FilterFacts.

Lemma filter_operators_registered (operator : string) :
  operator ∈ ["eq"; "gt"; "lt"] <-> is_Some (CSVProcessor.filter_operators !! operator).
Proof.
  unfold CSVProcessor.filter_operators. split.
  - intros Hin.
    repeat (apply elem_of_cons in Hin as [->|Hin]; [now eexists|]).
    now apply elem_of_nil in Hin.
  - intros [op Hop].
    repeat (apply lookup_insert_Some in Hop as [[<- _]|[_ Hop]];
            [repeat constructor|]).
    now rewrite lookup_empty in Hop.
Qed.

(** No registered operator raises. *)
Lemma registered_apply_total (operator : string) (filter_op : FilterOperator) :
  CSVProcessor.filter_operators !! operator = Some filter_op ->
  forall value target, exists keep, apply filter_op value target = Ok keep.
Proof.
  unfold CSVProcessor.filter_operators. intros Hop value target.
  repeat (apply lookup_insert_Some in Hop as [[_ <-]|[_ Hop]];
          [rewrite ?apply_gt, ?apply_lt, ?apply_eq; eauto|]).
  now rewrite lookup_empty in Hop.
Qed.

Lemma filter_rows_filter (filter_op : FilterOperator) (column value : string)
    (data filtered_data : list row) :
  (forall c t, exists keep, apply filter_op c t = Ok keep) ->
  Forall (fun r : row => is_Some (r !! column)) data ->
  CSVProcessor.filter_rows filter_op column value data filtered_data
  = Ok (filtered_data ++ List.filter (keeps filter_op column value) data).
Proof.
  intros Htotal Hcol. revert filtered_data.
  induction Hcol as [|r data [c Hc] _ IH]; intros filtered_data; simpl.
  - now rewrite app_nil_r.
  - unfold keeps at 1. rewrite Hc.
    destruct (Htotal c (Str value)) as [keep ->].
    unfold mbind, result_bind. rewrite IH.
    destruct keep; [now rewrite <- app_assoc | reflexivity].
Qed.

Lemma keeps_spec (filter_op : FilterOperator) (column value : string) (r : row) :
  keeps filter_op column value r = true <->
  exists c, r !! column = Some c /\ apply filter_op c (Str value) = Ok true.
Proof.
  unfold keeps. split.
  - destruct (r !! column) as [c|]; [|discriminate].
    destruct (apply filter_op c (Str value)) as [[]|] eqn:Happ;
      try discriminate.
    intros _. now exists c.
  - now intros (c & -> & ->).
Qed.

End FilterFacts.

(** C6.  For an operator tag other than [eq], [gt] and [lt],
    [filter_data] raises the unsupported-operator error, whatever the
    rows, the column and the value. *)
Theorem filter_data_unsupported_operator :
  forall (data : list row) (column operator value : string),
    operator ∉ ["eq"; "gt"; "lt"] ->
    CSVProcessor.filter_data data column operator value
    = Raise (UnsupportedOperator operator).
Proof.
  intros data column operator value Hop. unfold CSVProcessor.filter_data.
  destruct (CSVProcessor.filter_operators !! operator) as [op|] eqn:Hlook; [|reflexivity].
  exfalso. apply Hop, filter_operators_registered. eauto.
Qed.

Lemma filter_data_unsupported_operator_witness :
  CSVProcessor.filter_data [{["price" := Str "999"]}] "price" "gte" "500"
  = Raise (UnsupportedOperator "gte").
Proof.
  apply (filter_data_unsupported_operator
           [{["price" := Str "999"]}] "price" "gte" "500").
  intros Hin. repeat (apply elem_of_cons in Hin as [Heq|Hin]; [discriminate|]).
  now apply elem_of_nil in Hin.
Defined.

(** The condition ["price>=500"] is parsed, to the tag [gte], and then
    refused by the filter. *)
Example parse_then_filter_gte (data : list row) :
  parse_filter_condition "price>=500" = Ok ("price", "gte", "500") /\
  CSVProcessor.filter_data data "price" "gte" "500" = Raise (UnsupportedOperator "gte").
Proof. split; reflexivity. Qed.

(** C8.  With a registered operator and the column present in every row,
    [filter_data] returns the input rows that the operator keeps, each as
    it is, in the order of the input; a row is kept when the operator
    applied to its cell under the column and to the value returns [True]. *)
Theorem filter_data_keeps_in_order :
  forall (data : list row) (column operator value : string),
    operator ∈ ["eq"; "gt"; "lt"] ->
    Forall (fun r : row => is_Some (r !! column)) data ->
    exists filter_op,
      CSVProcessor.filter_operators !! operator = Some filter_op /\
      CSVProcessor.filter_data data column operator value
      = Ok (List.filter (keeps filter_op column value) data) /\
      forall r : row,
        keeps filter_op column value r = true <->
        exists c, r !! column = Some c /\
                  apply filter_op c (Str value) = Ok true.
Proof.
  intros data column operator value Hop Hcol.
  apply filter_operators_registered in Hop as [filter_op Hop].
  exists filter_op. split; [exact Hop|]. split; [|apply keeps_spec].
  unfold CSVProcessor.filter_data. rewrite Hop.
  rewrite filter_rows_filter; [reflexivity | | assumption].
  now apply registered_apply_total with operator.
Qed.

Lemma filter_data_keeps_in_order_witness :
  exists filter_op,
    CSVProcessor.filter_operators !! "eq" = Some filter_op /\
    CSVProcessor.filter_data
      [{["brand" := Str "apple"]}; {["brand" := Str "xiaomi"]}]
      "brand" "eq" "xiaomi"
    = Ok (List.filter (keeps filter_op "brand" "xiaomi")
            [{["brand" := Str "apple"]}; {["brand" := Str "xiaomi"]}]) /\
    forall r : row,
      keeps filter_op "brand" "xiaomi" r = true <->
      exists c, r !! "brand" = Some c /\
                apply filter_op c (Str "xiaomi") = Ok true.
Proof.
  apply (filter_data_keeps_in_order
           [{["brand" := Str "apple"]}; {["brand" := Str "xiaomi"]}]
           "brand" "eq" "xiaomi").
  - apply list_elem_of_here.
  - repeat constructor; eexists; reflexivity.
Defined.

(** ** Aggregation *)

Section AggregateFacts.

Lemma aggregation_functions_registered (function : string) :
  function ∈ ["avg"; "min"; "max"] ->
  is_Some (CSVProcessor.aggregation_functions !! function).
Proof.
  unfold CSVProcessor.aggregation_functions. intros Hin.
  repeat (apply elem_of_cons in Hin as [->|Hin]; [now eexists|]).
  now apply elem_of_nil in Hin.
Qed.

(** The loop stops at the first row whose text does not parse, when the
    rows before it hold texts that parse. *)
Lemma numeric_values_first_failure (column text : string)
    (pre post : list row) (r : row) (values : list spec_float) :
  Forall (fun r0 : row => exists s x,
              r0 !! column = Some (Str s) /\ PyFloat.of_str s = Some x) pre ->
  r !! column = Some (Str text) ->
  PyFloat.of_str text = None ->
  CSVProcessor.numeric_values column (pre ++ r :: post) values
  = Raise (NonNumericValue column text).
Proof.
  intros Hpre Hr Htext. revert values.
  induction Hpre as [|r0 pre (s & x & Hs & Hx) _ IH]; intros values; simpl.
  - unfold getitem, try_except, mbind, result_bind, py_float.
    now rewrite Hr, Htext.
  - unfold getitem, try_except, mbind, result_bind, py_float.
    rewrite Hs, Hx. apply IH.
Qed.

End AggregateFacts.

(** C4.  On no rows, [aggregate_data] returns the integer 0 for each of
    the three functions and for any column name. *)
Theorem aggregate_data_empty :
  forall column function : string,
    function ∈ ["avg"; "min"; "max"] ->
    CSVProcessor.aggregate_data [] column function = Ok (Int 0).
Proof.
  intros column function Hin. unfold CSVProcessor.aggregate_data.
  now destruct (aggregation_functions_registered function Hin) as [f ->].
Qed.

Lemma aggregate_data_empty_witness :
  CSVProcessor.aggregate_data [] "no such column" "avg" = Ok (Int 0).
Proof.
  apply (aggregate_data_empty "no such column" "avg").
  apply list_elem_of_here.
Defined.

(** An unregistered function tag is refused on no rows as well. *)
Lemma aggregate_data_unregistered_on_empty (column : string) :
  CSVProcessor.aggregate_data [] column "sum" = Raise (UnsupportedFunction "sum").
Proof. reflexivity. Qed.

(** C5, as stated, fails in two ways.  On rows where a later row lacks
    the column, the lookup [row[column]] raises [KeyError] before the cell
    ["x"] that does not parse is reached.  On the rows read from a file
    with a short line, the cell is [None], and [float(None)] raises a
    [TypeError] that the loop does not catch. *)
Lemma aggregate_data_uncaught_errors :
  (let data : list row := [{["a" := Str "1"]}; ∅; {["a" := Str "x"]}] in
   is_Some (({["a" := Str "1"]} : row) !! "a") /\
   py_float (Str "x") = Raise (ValueError "could not convert string to float") /\
   CSVProcessor.aggregate_data data "a" "avg" = Raise (KeyError "a") /\
   forall text, CSVProcessor.aggregate_data data "a" "avg" <> Raise (NonNumericValue "a" text)) /\
  (let content := "a,b" +:+ Csv.LF +:+ "1,2" +:+ Csv.LF +:+ "3" +:+ Csv.LF
                  +:+ "4,y" +:+ Csv.LF in
   exists data,
     CSVProcessor.read_csv (Content content) "data.csv" = Ok (["a"; "b"], data) /\
     (exists first, head data = Some first /\ is_Some (first !! "b")) /\
     (exists r, data !! 1%nat = Some r /\ r !! "b" = Some PyNone) /\
     (exists r, data !! 2%nat = Some r /\ r !! "b" = Some (Str "y")) /\
     CSVProcessor.aggregate_data data "b" "avg"
     = Raise (TypeError
         "float() argument must be a string or a real number, not 'NoneType'") /\
     forall text, CSVProcessor.aggregate_data data "b" "avg" <> Raise (NonNumericValue "b" text)).
Proof.
  split.
  - cbv zeta. split; [eexists; reflexivity|]. split; [reflexivity|].
    split; [reflexivity|]. intros text. vm_compute. discriminate.
  - cbv zeta. eexists. split; [vm_compute; reflexivity|].
    split; [eexists; split; [reflexivity | eexists; reflexivity]|].
    split; [eexists; split; reflexivity|].
    split; [eexists; split; reflexivity|].
    split; [reflexivity|]. intros text. vm_compute. discriminate.
Qed.

(** C5, amended.  When some row holds under the column a text that does
    not parse as a float, and every row before it holds a text that does,
    [aggregate_data] raises the non-numeric error naming that text, for
    each of the three functions and whatever rows follow. *)
Theorem aggregate_data_first_non_numeric :
  forall (pre post : list row) (r : row) (column function text : string),
    function ∈ ["avg"; "min"; "max"] ->
    Forall (fun r0 : row => exists s x,
                r0 !! column = Some (Str s) /\ PyFloat.of_str s = Some x) pre ->
    r !! column = Some (Str text) ->
    PyFloat.of_str text = None ->
    CSVProcessor.aggregate_data (pre ++ r :: post) column function
    = Raise (NonNumericValue column text).
Proof.
  intros pre post r column function text Hin Hpre Hr Htext.
  unfold CSVProcessor.aggregate_data.
  destruct (aggregation_functions_registered function Hin) as [f ->].
  assert (Hfirst : exists first rest c,
             pre ++ r :: post = first :: rest /\ first !! column = Some c).
  { destruct Hpre as [|r0 pre (s & x & Hs & _) _]; simpl; eauto 6. }
  destruct Hfirst as (first & rest & c & Heq & Hc).
  rewrite Heq, Hc, <- Heq.
  now rewrite (numeric_values_first_failure column text pre post r []).
Qed.

Lemma aggregate_data_first_non_numeric_witness :
  CSVProcessor.aggregate_data
    ([{["price" := Str "999"]}] ++ {["price" := Str "n/a"]}
       :: [{["price" := Str "oops"]}])
    "price" "max"
  = Raise (NonNumericValue "price" "n/a").
Proof.
  apply (aggregate_data_first_non_numeric
           [{["price" := Str "999"]}] [{["price" := Str "oops"]}]
           {["price" := Str "n/a"]} "price" "max" "n/a").
  - apply list_elem_of_further, list_elem_of_further, list_elem_of_here.
  - repeat constructor. eexists _, _. split; reflexivity.
  - reflexivity.
  - reflexivity.
Defined.

(** ** Reading the table *)

Section CsvFacts.

Implicit Types (fieldnames record : list string) (d : row) (h : string).

Lemma zip_key fieldnames record (i : nat) h :
  fieldnames !! i = Some h -> i < length record ->
  exists v, (h, v) ∈ zip fieldnames record.
Proof.
  revert record i. induction fieldnames as [|k fieldnames IH];
    intros [|v record] [|i] Hi Hlen; simpl in *; try discriminate; try lia.
  - injection Hi as ->. exists v. apply list_elem_of_here.
  - destruct (IH record i Hi) as [v' Hin]; [lia|].
    exists v'. now apply list_elem_of_further.
Qed.

Lemma fold_insert_fields_is_Some (kvs : list (string * string)) d h :
  is_Some (d !! h) \/ (exists v, (h, v) ∈ kvs) ->
  is_Some (fold_left (fun d kv => <[kv.1 := Str kv.2]> d) kvs d !! h).
Proof.
  revert d. induction kvs as [|kv kvs IH]; intros d [Hd|[v Hin]]; simpl.
  - exact Hd.
  - now apply elem_of_nil in Hin.
  - apply IH. left. apply lookup_insert_is_Some'. now right.
  - apply elem_of_cons in Hin as [<-|Hin].
    + apply IH. left. apply lookup_insert_is_Some'. now left.
    + apply IH. right. eauto.
Qed.

Lemma fold_insert_restval_lookup (keys : list string) d h :
  fold_left (fun d key => <[key := PyNone]> d) keys d !! h
  = if decide (h ∈ keys) then Some PyNone else d !! h.
Proof.
  revert d. induction keys as [|k keys IH]; intros d.
  - destruct (decide (h ∈ [])) as [Hin|]; [|reflexivity].
    now apply elem_of_nil in Hin.
  - change (fold_left (fun d key => <[key := PyNone]> d) (k :: keys) d)
      with (fold_left (fun d key => <[key := PyNone]> d) keys (<[k := PyNone]> d)).
    rewrite IH.
    destruct (decide (h ∈ keys)) as [Hin|Hnin],
             (decide (h ∈ k :: keys)) as [Hin'|Hnin']; try reflexivity.
    + exfalso. apply Hnin'. now apply list_elem_of_further.
    + apply elem_of_cons in Hin' as [->|?]; [|contradiction].
      apply lookup_insert_eq.
    + apply lookup_insert_ne. intros ->. apply Hnin', list_elem_of_here.
Qed.

(** Every header has an entry in the row of a record. *)
Lemma dict_row_header fieldnames record h :
  h ∈ fieldnames -> is_Some (Csv.dict_row fieldnames record !! h).
Proof.
  intros [i Hi]%list_elem_of_lookup. unfold Csv.dict_row.
  pose proof (lookup_lt_Some _ _ _ Hi) as Hlt.
  destruct (length fieldnames <? length record)%nat eqn:Hlong.
  { apply Nat.ltb_lt in Hlong. apply fold_insert_fields_is_Some. right.
    apply (zip_key _ _ i); [assumption | lia]. }
  destruct (length record <? length fieldnames)%nat eqn:Hshort.
  - rewrite fold_insert_restval_lookup.
    destruct (decide (h ∈ drop (length record) fieldnames)) as [|Hnin]; [eauto|].
    apply fold_insert_fields_is_Some. right.
    apply (zip_key _ _ i); [assumption|].
    destruct (decide (i < length record)) as [|Hge]; [assumption|].
    exfalso. apply Hnin. apply list_elem_of_lookup.
    exists (i - length record). rewrite lookup_drop, <- Hi. f_equal. lia.
  - apply Nat.ltb_ge in Hlong, Hshort. apply fold_insert_fields_is_Some. right.
    apply (zip_key _ _ i); [assumption | lia].
Qed.

(** A header at a place the record has no field for is bound to [None]. *)
Lemma dict_row_missing fieldnames record (i : nat) h :
  fieldnames !! i = Some h -> length record <= i ->
  Csv.dict_row fieldnames record !! h = Some PyNone.
Proof.
  intros Hi Hge. unfold Csv.dict_row.
  pose proof (lookup_lt_Some _ _ _ Hi) as Hlt.
  destruct (length fieldnames <? length record)%nat eqn:Hlong.
  { apply Nat.ltb_lt in Hlong. lia. }
  destruct (length record <? length fieldnames)%nat eqn:Hshort.
  - rewrite fold_insert_restval_lookup, decide_True; [reflexivity|].
    apply list_elem_of_lookup. exists (i - length record).
    rewrite lookup_drop, <- Hi. f_equal. lia.
  - apply Nat.ltb_ge in Hshort. lia.
Qed.

Lemma fold_insert_fields_other (kvs : list (string * string)) d h :
  h ∉ kvs.*1 ->
  fold_left (fun d kv => <[kv.1 := Str kv.2]> d) kvs d !! h = d !! h.
Proof.
  revert d. induction kvs as [|[k v] kvs IH]; intros d Hnin; [reflexivity|].
  simpl in *. apply not_elem_of_cons in Hnin as [Hne Hnin].
  rewrite IH by assumption. now apply lookup_insert_ne.
Qed.

Lemma fold_insert_fields_lookup (kvs : list (string * string)) d h v :
  NoDup kvs.*1 -> (h, v) ∈ kvs ->
  fold_left (fun d kv => <[kv.1 := Str kv.2]> d) kvs d !! h = Some (Str v).
Proof.
  revert d. induction kvs as [|[k v'] kvs IH]; intros d Hnd Hin.
  - now apply elem_of_nil in Hin.
  - simpl in *. apply NoDup_cons in Hnd as [Hk Hnd].
    apply elem_of_cons in Hin as [[= <- <-]|Hin].
    + rewrite fold_insert_fields_other by assumption. apply lookup_insert_eq.
    + now apply IH.
Qed.

Lemma zip_pair fieldnames record (i : nat) h v :
  fieldnames !! i = Some h -> record !! i = Some v ->
  (h, v) ∈ zip fieldnames record.
Proof.
  revert record i. induction fieldnames as [|k fieldnames IH];
    intros [|v' record] [|i] Hh Hv; simpl in *; try discriminate.
  - injection Hh as ->. injection Hv as ->. apply list_elem_of_here.
  - apply list_elem_of_further. now apply (IH record i).
Qed.

Lemma zip_fst_NoDup fieldnames record :
  NoDup fieldnames -> NoDup (zip fieldnames record).*1.
Proof.
  revert record. induction fieldnames as [|k fieldnames IH];
    intros [|v record] Hnd; simpl; try apply NoDup_nil_2.
  apply NoDup_cons in Hnd as [Hk Hnd]. apply NoDup_cons. split; [|now apply IH].
  intros ((k' & v') & -> & Hin%elem_of_zip_l)%list_elem_of_fmap. contradiction.
Qed.

(** With headers that are all different, a header at a place the record
    has a field for is bound to the text of that field. *)
Lemma dict_row_present fieldnames record (i : nat) h v :
  NoDup fieldnames ->
  fieldnames !! i = Some h -> record !! i = Some v ->
  Csv.dict_row fieldnames record !! h = Some (Str v).
Proof.
  intros Hnd Hh Hv. unfold Csv.dict_row.
  assert (Hd : fold_left (fun d kv => <[kv.1 := Str kv.2]> d)
                 (zip fieldnames record) (∅ : row) !! h = Some (Str v)).
  { apply fold_insert_fields_lookup;
      [now apply zip_fst_NoDup | now apply zip_pair with i]. }
  destruct (length fieldnames <? length record)%nat; [exact Hd|].
  destruct (length record <? length fieldnames)%nat; [|exact Hd].
  rewrite fold_insert_restval_lookup, decide_False; [exact Hd|].
  intros [j Hj]%list_elem_of_lookup. rewrite lookup_drop in Hj.
  pose proof (NoDup_lookup _ _ _ _ Hnd Hh Hj) as Hij.
  apply lookup_lt_Some in Hv. lia.
Qed.

End CsvFacts.

(** C3, as stated, fails on the file with the lines [a,b] and [1]: the
    data line has one field for two headers, and the row binds [b] to
    [None], not to the empty text. *)
Lemma read_csv_short_line_None :
  let content := "a,b" +:+ Csv.LF +:+ "1" +:+ Csv.LF in
  Csv.file_records content = Ok [["a"; "b"]; ["1"]] /\
  exists r : row,
    CSVProcessor.read_csv (Content content) "data.csv" = Ok (["a"; "b"], [r]) /\
    r !! "a" = Some (Str "1") /\
    r !! "b" = Some PyNone /\
    r !! "b" <> Some (Str EmptyString).
Proof.
  cbv zeta. split; [reflexivity|]. eexists.
  split; [vm_compute; reflexivity|]. repeat split; discriminate.
Qed.

(** C3, amended.  When the file has a header record, [read_csv] returns
    the headers and one row for each record that is not empty, in order;
    every row has an entry for every header, and a header at a place for
    which the record has no field is bound to [None]. *)
Theorem read_csv_short_rows :
  forall (text filepath : string) (fieldnames : list string)
         (recs : list (list string)),
    Csv.file_records text = Ok (fieldnames :: recs) ->
    exists data : list row,
      CSVProcessor.read_csv (Content text) filepath = Ok (fieldnames, data) /\
      Forall2
        (fun (record : list string) (r : row) =>
           (forall h : string, h ∈ fieldnames -> is_Some (r !! h)) /\
           (forall (i : nat) (h : string),
               fieldnames !! i = Some h -> length record <= i ->
               r !! h = Some PyNone))
        (filter (fun record => record ≠ []) recs) data.
Proof.
  intros text filepath fieldnames recs Hrecs.
  exists (Csv.dict_rows fieldnames recs). unfold CSVProcessor.read_csv. rewrite Hrecs.
  split; [reflexivity|]. unfold Csv.dict_rows.
  apply Forall2_fmap_r, Forall_Forall2_diag, Forall_forall.
  intros record _. split.
  - intros h. apply dict_row_header.
  - intros i h. apply dict_row_missing.
Qed.

Lemma read_csv_short_rows_witness :
  exists data : list row,
    CSVProcessor.read_csv (Content ("a,b" +:+ Csv.LF +:+ "1" +:+ Csv.LF)) "data.csv"
    = Ok (["a"; "b"], data) /\
    Forall2
      (fun (record : list string) (r : row) =>
         (forall h : string, h ∈ ["a"; "b"] -> is_Some (r !! h)) /\
         (forall (i : nat) (h : string),
             ["a"; "b"] !! i = Some h -> length record <= i ->
             r !! h = Some PyNone))
      (filter (fun record => record ≠ []) [["1"]]) data.
Proof.
  apply (read_csv_short_rows
           ("a,b" +:+ Csv.LF +:+ "1" +:+ Csv.LF) "data.csv" ["a"; "b"] [["1"]]).
  reflexivity.
Defined.

(** ** The test suite of the repository, run on the model *)

Section Tests.

Example test_equals_operator :
  apply EqualsOperator (Str "apple") (Str "apple") = Ok true /\
  apply EqualsOperator (Str "apple") (Str "banana") = Ok false /\
  apply EqualsOperator (Str "  apple  ") (Str "apple") = Ok true /\
  apply EqualsOperator (Str "123") (Str "123") = Ok true.
Proof. repeat split. Qed.

Example test_greater_than_operator :
  apply GreaterThanOperator (Str "10") (Str "5") = Ok true /\
  apply GreaterThanOperator (Str "5") (Str "10") = Ok false /\
  apply GreaterThanOperator (Str "10.5") (Str "10") = Ok true /\
  apply GreaterThanOperator (Str "banana") (Str "apple") = Ok true.
Proof. repeat split. Qed.

Example test_less_than_operator :
  apply LessThanOperator (Str "5") (Str "10") = Ok true /\
  apply LessThanOperator (Str "10") (Str "5") = Ok false /\
  apply LessThanOperator (Str "9.5") (Str "10") = Ok true /\
  apply LessThanOperator (Str "apple") (Str "banana") = Ok true.
Proof. repeat split. Qed.

(** The texts are compared as they are: a leading blank is below any
    letter, though the trimmed text would be above. *)
Example greater_than_untrimmed :
  apply GreaterThanOperator (Str " b") (Str "a") = Ok false /\
  apply GreaterThanOperator (Str "b") (Str "a") = Ok true.
Proof. repeat split. Qed.

Example test_average_aggregation :
  calculate AverageAggregation (literal <$> ["1"; "2"; "3"; "4"; "5"])
  = Float (literal "3.0") /\
  calculate AverageAggregation (literal <$> ["10.5"; "20.5"])
  = Float (literal "15.5") /\
  calculate AverageAggregation [] = Float (literal "0.0") /\
  calculate AverageAggregation [literal "42"] = Float (literal "42.0").
Proof. repeat split. Qed.

Example test_min_aggregation :
  calculate MinAggregation (literal <$> ["10.5"; "5.2"; "20.1"])
  = Float (literal "5.2") /\
  calculate MinAggregation [] = Int 0.
Proof. repeat split. Qed.

Example test_max_aggregation :
  calculate MaxAggregation (literal <$> ["10.5"; "5.2"; "20.1"])
  = Float (literal "20.1") /\
  calculate MaxAggregation [] = Int 0.
Proof. repeat split. Qed.

Example test_read_csv :
  exists data first,
    CSVProcessor.read_csv (Content sample_csv) "test.csv"
    = Ok (["name"; "brand"; "price"; "rating"], data) /\
    length data = 4 /\ head data = Some first /\
    first !! "name" = Some (Str "iphone 15 pro") /\
    first !! "brand" = Some (Str "apple") /\
    first !! "price" = Some (Str "999").
Proof.
  eexists _, _. split; [vm_compute; reflexivity|]. repeat split.
Qed.

Example test_read_csv_file_not_found :
  CSVProcessor.read_csv Missing "nonexistent_file.csv"
  = Raise (FileNotFoundError "File not found: nonexistent_file.csv").
Proof. reflexivity. Qed.

Example test_filter_data :
  length_of (CSVProcessor.filter_data (rows_of sample_csv) "brand" "eq" "xiaomi")
  = Some 2 /\
  length_of (CSVProcessor.filter_data (rows_of sample_csv) "price" "gt" "500")
  = Some 2 /\
  length_of (CSVProcessor.filter_data (rows_of sample_csv) "price" "lt" "300")
  = Some 2.
Proof. repeat split; vm_compute; reflexivity. Qed.

Example test_filter_data_invalid :
  CSVProcessor.filter_data (rows_of sample_csv) "invalid_column" "eq" "test"
  = Raise (ValueError "Column 'invalid_column' not found in CSV") /\
  CSVProcessor.filter_data (rows_of sample_csv) "brand" "invalid_op" "test"
  = Raise (ValueError "Unsupported filter operator: invalid_op").
Proof. split; vm_compute; reflexivity. Qed.

Example test_aggregate_data :
  CSVProcessor.aggregate_data (rows_of sample_csv) "price" "avg"
  = Ok (Float (literal "674.0")) /\
  CSVProcessor.aggregate_data (rows_of sample_csv) "price" "min"
  = Ok (Float (literal "199.0")) /\
  CSVProcessor.aggregate_data (rows_of sample_csv) "price" "max"
  = Ok (Float (literal "1199.0")) /\
  CSVProcessor.aggregate_data [] "price" "avg" = Ok (Int 0).
Proof. repeat split; vm_compute; reflexivity. Qed.

Example test_aggregate_data_invalid :
  CSVProcessor.aggregate_data (rows_of sample_csv) "invalid_column" "avg"
  = Raise (ValueError "Column 'invalid_column' not found in CSV") /\
  CSVProcessor.aggregate_data (rows_of sample_csv) "price" "invalid_func"
  = Raise (ValueError "Unsupported aggregation function: invalid_func") /\
  CSVProcessor.aggregate_data (rows_of sample_csv) "brand" "avg"
  = Raise (ValueError "Non-numeric value found in column 'brand': apple").
Proof. repeat split; vm_compute; reflexivity. Qed.

Example test_parse_filter_condition :
  parse_filter_condition "brand=apple" = Ok ("brand", "eq", "apple") /\
  parse_filter_condition "price>500" = Ok ("price", "gt", "500") /\
  parse_filter_condition "rating<4.5" = Ok ("rating", "lt", "4.5") /\
  parse_filter_condition "  brand  =  apple  " = Ok ("brand", "eq", "apple") /\
  parse_filter_condition "invalid_condition"
  = Raise (ValueError "Invalid filter condition format: invalid_condition").
Proof. repeat split. Qed.

Example test_parse_aggregation_condition :
  parse_aggregation_condition "avg=price" = Ok ("avg", "price") /\
  parse_aggregation_condition "  max  =  rating  " = Ok ("max", "rating") /\
  parse_aggregation_condition "invalid_condition"
  = Raise (ValueError "Invalid aggregation condition format: invalid_condition").
Proof. repeat split. Qed.

Example test_multiple_operations :
  length_of (CSVProcessor.filter_data (rows_of complex_csv) "category" "eq" "electronics")
  = Some 3 /\
  length_of (CSVProcessor.filter_data (rows_of complex_csv) "value" "gt" "100")
  = Some 3 /\
  length_of (CSVProcessor.filter_data (rows_of complex_csv) "score" "gt" "8.0")
  = Some 3 /\
  CSVProcessor.aggregate_data (rows_of complex_csv) "score" "min"
  = Ok (Float (literal "6.8")) /\
  CSVProcessor.aggregate_data (rows_of complex_csv) "value" "max"
  = Ok (Float (literal "299.99")).
Proof. repeat split; vm_compute; reflexivity. Qed.

(** Literals of [float], against the values CPython gives them. *)
Example float_literals :
  PyFloat.of_str "0.1" = Some (S754_finite false 7205759403792794 (-56)) /\
  PyFloat.of_str " 1_000.000_1 " = Some (S754_finite false 8796093901817302 (-43)) /\
  PyFloat.of_str "+.5e-3" = Some (S754_finite false 4611686018427388 (-63)) /\
  PyFloat.of_str "9007199254740993" = Some (S754_finite false 4503599627370496 1) /\
  PyFloat.of_str "5e-324" = Some (S754_finite false 1 (-1074)) /\
  PyFloat.of_str "1e400" = Some (S754_infinity false) /\
  PyFloat.of_str "-0" = Some (S754_zero true) /\
  PyFloat.of_str "-Infinity" = Some (S754_infinity true) /\
  PyFloat.of_str "NaN" = Some S754_nan /\
  PyFloat.of_str "1__0" = None /\ PyFloat.of_str "1_" = None /\
  PyFloat.of_str "1e" = None /\ PyFloat.of_str "." = None /\
  PyFloat.of_str "infinit" = None /\ PyFloat.of_str "0x10" = None /\
  PyFloat.of_str EmptyString = None /\ PyFloat.of_str "banana" = None.
Proof. repeat split. Qed.

End Tests.

(** * Further properties *)

(** ** More on the condition parsers *)

Section MoreParserFacts.

Implicit Types condition s a b op column value : string.

Lemma chars_append a b :
  list_ascii_of_string (a +:+ b)
  = list_ascii_of_string a ++ list_ascii_of_string b.
Proof.
  induction a as [|c a IH]; [reflexivity|].
  rewrite append_cons. simpl. now rewrite IH.
Qed.

(** The characters of a text that occurs in [s] are characters of [s]. *)
Lemma contains_chars sub s (c : ascii) :
  PyStr.contains sub s = true ->
  In c (list_ascii_of_string sub) -> In c (list_ascii_of_string s).
Proof.
  intros (a & b & ->)%contains_true Hc.
  rewrite !chars_append, !in_app_iff. auto.
Qed.

(** An occurrence of [String c0 r] that starts inside [column] puts [c0]
    among the characters of [column]. *)
Lemma occurrence_inside before column (c0 : ascii) r t :
  before +:+ String c0 r = column +:+ t ->
  String.length before < String.length column ->
  In c0 (list_ascii_of_string column).
Proof.
  revert column. induction before as [|x before IH]; intros [|y column] Heq Hlen;
    simpl in Hlen; try lia.
  - rewrite append_nil, append_cons in Heq. injection Heq as -> _. now left.
  - rewrite !append_cons in Heq. injection Heq as -> Heq.
    right. apply (IH column Heq). lia.
Qed.

(** The text before the leftmost occurrence of [op], when the first
    character of [op] is not in [column]. *)
Lemma cut_fresh (c0 : ascii) r column value :
  ~ In c0 (list_ascii_of_string column) ->
  PyStr.cut (String c0 r) (column +:+ String c0 r +:+ value)
  = Some (column, value).
Proof.
  intros Hfresh. apply cut_unique; [reflexivity|].
  intros before' after' Heq.
  destruct (decide (String.length column <= String.length before')) as [|Hlt];
    [assumption|].
  exfalso. apply Hfresh.
  apply (occurrence_inside before' column c0 (r +:+ after')
           (String c0 r +:+ value)); [|lia].
  now rewrite <- append_cons.
Qed.

Lemma parse_filter_loop_Ok_strip ops condition column tag value :
  parse_filter_loop ops condition = Ok (column, tag, value) ->
  exists a b, column = PyStr.strip a /\ value = PyStr.strip b.
Proof.
  induction ops as [|op ops IH]; [discriminate|].
  rewrite parse_filter_loop_cons.
  destruct (PyStr.contains op condition); [|exact IH].
  destruct (PyStr.split1 op condition) as [|p0 [|p1 [|? ?]]]; try exact IH.
  destruct (op_mapping !! op); [|exact IH].
  intros [= <- <- <-]. eauto.
Qed.

Lemma strip_trimmed s :
  starts_nonblank (PyStr.strip s) /\ ends_nonblank (PyStr.strip s).
Proof. destruct (strip_spec s) as (l & r & _ & _ & _ & H1 & H2). now split. Qed.

End MoreParserFacts.

(** X1.  [parse_filter_condition] raises its format error exactly on the
    conditions that hold none of the characters [>], [<] and [=]; on every
    other condition it returns a triple. *)
Theorem parse_filter_condition_rejects_iff :
  forall condition : string,
    (parse_filter_condition condition = Raise (InvalidFilterFormat condition)
     <-> Forall (fun c : ascii => c <> ">"%char /\ c <> "<"%char /\ c <> "="%char)
           (list_ascii_of_string condition)) /\
    ((exists triple, parse_filter_condition condition = Ok triple)
     \/ parse_filter_condition condition = Raise (InvalidFilterFormat condition)).
Proof.
  intros condition.
  assert (Hiff : Forall (fun o => PyStr.contains o condition = false) operators
                 <-> Forall (fun c : ascii => c <> ">"%char /\ c <> "<"%char /\ c <> "="%char)
                       (list_ascii_of_string condition)).
  { split.
    - intros Hops. apply Forall_forall. intros c Hc%list_elem_of_In.
      unfold operators in Hops. rewrite !Forall_cons in Hops.
      destruct Hops as (_ & _ & Hgt & Hlt & Heq & _).
      repeat split; intros ->;
        [pose proof (proj2 (contains_char ">" condition) Hc)
        |pose proof (proj2 (contains_char "<" condition) Hc)
        |pose proof (proj2 (contains_char "=" condition) Hc)];
        congruence.
    - intros Hchars. rewrite Forall_forall in Hchars.
      assert (Hno : forall (c : ascii) op,
                 In c (list_ascii_of_string op) ->
                 (c = ">" \/ c = "<" \/ c = "=")%char ->
                 PyStr.contains op condition = false).
      { intros c op Hin Hc. destruct (PyStr.contains op condition) eqn:Hop;
          [|reflexivity].
        pose proof (contains_chars _ _ c Hop Hin) as Hin'%list_elem_of_In.
        destruct (Hchars c Hin') as (? & ? & ?).
        destruct Hc as [->| [->| ->]]; congruence. }
      unfold operators. repeat apply Forall_cons_2; try apply Forall_nil_2.
      + apply (Hno ">"%char); simpl; auto.
      + apply (Hno "<"%char); simpl; auto.
      + apply (Hno ">"%char); simpl; auto.
      + apply (Hno "<"%char); simpl; auto.
      + apply (Hno "="%char); simpl; auto.
      + apply (Hno "="%char); simpl; auto. }
  split.
  - now rewrite parse_filter_condition_invalid.
  - unfold parse_filter_condition.
    assert (Hall : forall ops,
               (exists triple, parse_filter_loop ops condition = Ok triple)
               \/ parse_filter_loop ops condition
                  = Raise (InvalidFilterFormat condition)).
    { induction ops as [|op ops IH]; [now right|].
      rewrite parse_filter_loop_cons.
      destruct (PyStr.contains op condition); [|exact IH].
      destruct (PyStr.split1 op condition) as [|p0 [|p1 [|? ?]]]; try exact IH.
      destruct (op_mapping !! op); [eauto | exact IH]. }
    apply Hall.
Qed.

(** X2.  Writing a column, one of the tokens [>=], [<=], [>], [<], [=] and
    a value one after the other, and parsing the result, gives back the
    trimmed column, the tag of the token and the trimmed value, when
    neither the column nor the value holds a [>], a [<] or a [=]. *)
Theorem parse_filter_condition_round_trip :
  forall (column value op tag : string),
    (op, tag) ∈ [(">=", "gte"); ("<=", "lte"); (">", "gt"); ("<", "lt"); ("=", "eq")] ->
    Forall (fun c : ascii => c <> ">"%char /\ c <> "<"%char /\ c <> "="%char)
      (list_ascii_of_string column) ->
    Forall (fun c : ascii => c <> ">"%char /\ c <> "<"%char /\ c <> "="%char)
      (list_ascii_of_string value) ->
    parse_filter_condition (column +:+ op +:+ value)
    = Ok (PyStr.strip column, tag, PyStr.strip value).
Proof.
  intros column value op tag Hop Hcol Hval.
  rewrite Forall_forall in Hcol, Hval.
  assert (Hfresh : forall c : ascii,
             (c = ">" \/ c = "<" \/ c = "=")%char ->
             ~ In c (list_ascii_of_string column)).
  { intros c Hc Hin%list_elem_of_In. destruct (Hcol c Hin) as (? & ? & ?).
    destruct Hc as [->| [->| ->]]; congruence. }
  assert (Hmiss : forall (c : ascii) tok,
             In c (list_ascii_of_string tok) ->
             (c = ">" \/ c = "<" \/ c = "=")%char ->
             ~ In c (list_ascii_of_string op) ->
             PyStr.contains tok (column +:+ op +:+ value) = false).
  { intros c tok Hin Hc Hnop.
    destruct (PyStr.contains tok (column +:+ op +:+ value)) eqn:Htok;
      [exfalso | reflexivity].
    pose proof (contains_chars _ _ c Htok Hin) as Hin'.
    rewrite !chars_append, !in_app_iff in Hin'.
    destruct Hin' as [Hin'| [Hin'|Hin'%list_elem_of_In]];
      [now apply (Hfresh c) | contradiction |].
    destruct (Hval c Hin') as (? & ? & ?).
    destruct Hc as [->| [->| ->]]; congruence. }
  unfold parse_filter_condition, operators.
  repeat (apply elem_of_cons in Hop as [[= -> ->]|Hop]);
    [| | | | |now apply elem_of_nil in Hop].
  - apply (parse_filter_loop_first []); [constructor | | reflexivity].
    apply cut_fresh, Hfresh. auto.
  - apply (parse_filter_loop_first [">="]); [| | reflexivity].
    + repeat constructor. apply (Hmiss ">"%char); simpl; intuition congruence.
    + apply cut_fresh, Hfresh. auto.
  - apply (parse_filter_loop_first [">="; "<="]); [| | reflexivity].
    + repeat constructor; apply (Hmiss "="%char); simpl; intuition congruence.
    + apply cut_fresh, Hfresh. auto.
  - apply (parse_filter_loop_first [">="; "<="; ">"]); [| | reflexivity].
    + repeat constructor;
        [apply (Hmiss "="%char) | apply (Hmiss "="%char) | apply (Hmiss ">"%char)];
        simpl; intuition congruence.
    + apply cut_fresh, Hfresh. auto.
  - apply (parse_filter_loop_first [">="; "<="; ">"; "<"]); [| | reflexivity].
    + repeat constructor;
        [apply (Hmiss ">"%char) | apply (Hmiss "<"%char)
         | apply (Hmiss ">"%char) | apply (Hmiss "<"%char)];
        simpl; intuition congruence.
    + apply cut_fresh, Hfresh. auto.
Qed.

Lemma parse_filter_condition_round_trip_witness :
  parse_filter_condition (" price " +:+ "<=" +:+ " 500")
  = Ok (PyStr.strip " price ", "lte", PyStr.strip " 500").
Proof.
  apply (parse_filter_condition_round_trip " price " " 500" "<=" "lte").
  - apply list_elem_of_further, list_elem_of_here.
  - repeat constructor; discriminate.
  - repeat constructor; discriminate.
Defined.

(** X3.  What the two parsers return is trimmed: the column and the value
    of a filter condition, and the function and the column of an
    aggregation condition, neither start nor end with a blank. *)
Theorem parsed_parts_are_trimmed :
  (forall condition column tag value : string,
      parse_filter_condition condition = Ok (column, tag, value) ->
      (starts_nonblank column /\ ends_nonblank column) /\
      (starts_nonblank value /\ ends_nonblank value)) /\
  (forall condition function column : string,
      parse_aggregation_condition condition = Ok (function, column) ->
      (starts_nonblank function /\ ends_nonblank function) /\
      (starts_nonblank column /\ ends_nonblank column)).
Proof.
  split.
  - intros condition column tag value Hparse.
    apply parse_filter_loop_Ok_strip in Hparse as (a & b & -> & ->).
    split; apply strip_trimmed.
  - intros condition function column. unfold parse_aggregation_condition.
    destruct (negb (PyStr.contains "=" condition)); [discriminate|].
    destruct (PyStr.split1 "=" condition) as [|p0 [|p1 [|? ?]]]; try discriminate.
    intros [= <- <-]. split; apply strip_trimmed.
Qed.

Section ParseThenFilter.

Implicit Types condition column operator value : string.

Lemma parse_filter_loop_Ok_tag ops condition column tag value :
  parse_filter_loop ops condition = Ok (column, tag, value) ->
  exists op, op ∈ ops /\ PyStr.contains op condition = true
             /\ op_mapping !! op = Some tag.
Proof.
  induction ops as [|op ops IH]; [discriminate|].
  rewrite parse_filter_loop_cons.
  destruct (PyStr.contains op condition) eqn:Hop.
  - destruct (PyStr.split1 op condition) as [|p0 [|p1 [|? ?]]];
      try (intros (op' & ? & ?)%IH; exists op'; split;
           [now apply list_elem_of_further | assumption]).
    destruct (op_mapping !! op) as [t|] eqn:Hmap.
    + intros [= <- <- <-]. exists op. split; [apply list_elem_of_here | auto].
    + intros (op' & ? & ?)%IH. exists op'. split;
        [now apply list_elem_of_further | assumption].
  - intros (op' & ? & ?)%IH. exists op'. split;
      [now apply list_elem_of_further | assumption].
Qed.

(** The tag a condition is parsed to: [gte] when it holds [>=]; else
    [lte] when it holds [<=]; else one of [gt], [lt], [eq]. *)
Lemma parse_filter_condition_tag condition column tag value :
  parse_filter_condition condition = Ok (column, tag, value) ->
  if PyStr.contains ">=" condition then tag = "gte"
  else if PyStr.contains "<=" condition then tag = "lte"
  else tag ∈ ["eq"; "gt"; "lt"].
Proof.
  unfold parse_filter_condition, operators. intros Hparse.
  destruct (PyStr.contains ">=" condition) eqn:Hge.
  { destruct (parse_filter_loop_tag ">=" ["<="; ">"; "<"; "="; "!="]
                condition "gte" Hge eq_refl) as (c & v & Heq).
    congruence. }
  rewrite (parse_filter_loop_miss _ _ _ Hge) in Hparse.
  destruct (PyStr.contains "<=" condition) eqn:Hle.
  { destruct (parse_filter_loop_tag "<=" [">"; "<"; "="; "!="]
                condition "lte" Hle eq_refl) as (c & v & Heq).
    congruence. }
  rewrite (parse_filter_loop_miss _ _ _ Hle) in Hparse.
  pose proof Hparse as (op & Hin & Hop & Hmap)%parse_filter_loop_Ok_tag.
  repeat (apply elem_of_cons in Hin as [->|Hin]);
    try (injection Hmap as <-).
  - apply list_elem_of_further, list_elem_of_here.
  - do 2 apply list_elem_of_further. apply list_elem_of_here.
  - apply list_elem_of_here.
  - exfalso. apply (parse_filter_condition_never_ne condition column value).
    unfold parse_filter_condition, operators.
    now rewrite !parse_filter_loop_miss by assumption.
  - now apply elem_of_nil in Hin.
Qed.

(** With operators that do not raise, the filter loop returns rows or
    reports the column as missing. *)
Lemma filter_rows_outcome (filter_op : FilterOperator) column value
    (data filtered_data : list row) :
  (forall c t, exists keep, apply filter_op c t = Ok keep) ->
  (exists out, CSVProcessor.filter_rows filter_op column value data filtered_data
               = Ok out)
  \/ CSVProcessor.filter_rows filter_op column value data filtered_data
     = Raise (ColumnNotFound column).
Proof.
  intros Htotal. revert filtered_data.
  induction data as [|r data IH]; intros filtered_data; simpl; [eauto|].
  destruct (r !! column) as [c|]; [|now right].
  destruct (Htotal c (Str value)) as [keep ->]. apply IH.
Qed.

Lemma ColumnNotFound_not_Unsupported column operator :
  ColumnNotFound column <> UnsupportedOperator operator.
Proof.
  unfold ColumnNotFound, UnsupportedOperator. rewrite !append_cons.
  discriminate.
Qed.

End ParseThenFilter.

(** X4.  A condition that was parsed is refused by [filter_data] as an
    unsupported operator exactly when it holds [>=] or [<=], whatever the
    rows. *)
Theorem parsed_condition_unsupported_iff :
  forall (condition column operator value : string) (data : list row),
    parse_filter_condition condition = Ok (column, operator, value) ->
    (CSVProcessor.filter_data data column operator value
     = Raise (UnsupportedOperator operator)
     <-> PyStr.contains ">=" condition = true
         \/ PyStr.contains "<=" condition = true).
Proof.
  intros condition column operator value data Hparse.
  apply parse_filter_condition_tag in Hparse.
  destruct (PyStr.contains ">=" condition); [subst; split; auto|].
  destruct (PyStr.contains "<=" condition); [subst; split; auto|].
  split; [|intros [|]; discriminate].
  apply filter_operators_registered in Hparse as [filter_op Hop].
  unfold CSVProcessor.filter_data. rewrite Hop. intros Hraise. exfalso.
  destruct (filter_rows_outcome filter_op column value data []
              (registered_apply_total _ _ Hop)) as [[out Hout]|Hmiss].
  - congruence.
  - rewrite Hmiss in Hraise. injection Hraise as Hraise.
    apply (ColumnNotFound_not_Unsupported column operator).
    unfold ColumnNotFound, UnsupportedOperator. now f_equal.
Qed.

Lemma parsed_condition_unsupported_iff_witness :
  CSVProcessor.filter_data [{["price" := Str "999"]}] "price" "gte" "500"
  = Raise (UnsupportedOperator "gte")
  <-> PyStr.contains ">=" "price>=500" = true
      \/ PyStr.contains "<=" "price>=500" = true.
Proof.
  apply (parsed_condition_unsupported_iff
           "price>=500" "price" "gte" "500" [{["price" := Str "999"]}]).
  reflexivity.
Defined.

(** ** More on the filter operators *)

Section MoreOperatorFacts.

Implicit Types s l r : string.

Lemma lstrip_blank l : blank l = true -> PyStr.lstrip l = EmptyString.
Proof.
  induction l as [|c l IH]; [reflexivity|]. simpl.
  intros [Hc Hl]%andb_true_iff. rewrite Hc. auto.
Qed.

Lemma lstrip_append s r :
  PyStr.lstrip (s +:+ r)
  = if blank s then PyStr.lstrip r else PyStr.lstrip s +:+ r.
Proof.
  induction s as [|c s IH]; [reflexivity|].
  rewrite append_cons. simpl. destruct (PyStr.isspace c); [exact IH | reflexivity].
Qed.

Lemma rstrip_blank r : blank r = true -> PyStr.rstrip r = EmptyString.
Proof.
  induction r as [|c r IH]; [reflexivity|]. simpl blank.
  intros [Hc Hr]%andb_true_iff. rewrite rstrip_cons, (IH Hr). now rewrite Hc.
Qed.

Lemma rstrip_append_blank s r :
  blank r = true -> PyStr.rstrip (s +:+ r) = PyStr.rstrip s.
Proof.
  intros Hr. induction s as [|c s IH]; [now apply rstrip_blank|].
  now rewrite append_cons, !rstrip_cons, IH.
Qed.

(** Blanks around a text do not change what [strip] returns. *)
Lemma strip_padded l s r :
  blank l = true -> blank r = true ->
  PyStr.strip (l +:+ s +:+ r) = PyStr.strip s.
Proof.
  intros Hl Hr. unfold PyStr.strip.
  rewrite lstrip_append, Hl, lstrip_append.
  destruct (blank s) eqn:Hs.
  - now rewrite (lstrip_blank r Hr), (lstrip_blank s Hs).
  - now apply rstrip_append_blank.
Qed.

Lemma SFcompare_diag (x : spec_float) :
  SFcompare x x = Some Eq \/ SFcompare x x = None.
Proof.
  pose proof (SFcompare_swap x x) as Hswap.
  destruct (SFcompare x x) as [[]|]; simpl in Hswap; auto; discriminate.
Qed.

Lemma str_compare_diag s : String.compare s s = Eq.
Proof.
  pose proof (String.compare_antisym s s) as Hswap.
  destruct (String.compare s s); simpl in Hswap; auto; discriminate.
Qed.

End MoreOperatorFacts.

(** X5.  [EqualsOperator.apply] does not see blanks around its operands:
    padding the cell text, the target, or both with blanks at either end
    leaves the answer as it is. *)
Theorem equals_ignores_padding :
  forall v t l r l' r' : string,
    blank l = true -> blank r = true -> blank l' = true -> blank r' = true ->
    apply EqualsOperator (Str (l +:+ v +:+ r)) (Str (l' +:+ t +:+ r'))
    = apply EqualsOperator (Str v) (Str t).
Proof.
  intros v t l r l' r' Hl Hr Hl' Hr'. rewrite !apply_eq. simpl py_str.
  now rewrite !strip_padded.
Qed.

Lemma equals_ignores_padding_witness :
  apply EqualsOperator (Str ("  " +:+ "apple" +:+ " ")) (Str (" " +:+ "apple" +:+ EmptyString))
  = apply EqualsOperator (Str "apple") (Str "apple").
Proof.
  apply (equals_ignores_padding "apple" "apple" "  " " " " " EmptyString);
    reflexivity.
Defined.

(** X6.  On no pair of cells do [GreaterThanOperator] and
    [LessThanOperator] both answer [True], and neither answers [True] on a
    cell compared with itself. *)
Theorem greater_and_less_exclude_each_other :
  forall value target : cell,
    (apply GreaterThanOperator value target = Ok true ->
     apply LessThanOperator value target = Ok false) /\
    apply GreaterThanOperator value value = Ok false /\
    apply LessThanOperator value value = Ok false.
Proof.
  intros value target. rewrite !apply_gt, !apply_lt. repeat split.
  - destruct (py_float value) as [x|], (py_float target) as [y|];
      unfold PyFloat.gt, PyFloat.lt, SFltb, PyStr.gt, PyStr.lt;
      try (destruct (SFcompare x y) as [[]|]; intros [=]; reflexivity);
      destruct (String.compare _ _); intros [=]; reflexivity.
  - destruct (py_float value) as [x|].
    + unfold PyFloat.gt. now destruct (SFcompare_diag x) as [-> | ->].
    + unfold PyStr.gt. now rewrite str_compare_diag.
  - destruct (py_float value) as [x|].
    + unfold PyFloat.lt, SFltb. now destruct (SFcompare_diag x) as [-> | ->].
    + unfold PyStr.lt. now rewrite str_compare_diag.
Qed.

(** ** More on filtering *)

Section MoreFilterFacts.

Implicit Types (data out : list row) (column operator value : string).

Lemma filter_rows_missing (filter_op : FilterOperator) column value
    (pre post : list row) (r : row) (filtered_data : list row) :
  (forall c t, exists keep, apply filter_op c t = Ok keep) ->
  Forall (fun r0 : row => is_Some (r0 !! column)) pre ->
  r !! column = None ->
  CSVProcessor.filter_rows filter_op column value (pre ++ r :: post) filtered_data
  = Raise (ColumnNotFound column).
Proof.
  intros Htotal Hpre Hr. revert filtered_data.
  induction Hpre as [|r0 pre [c Hc] _ IH]; intros filtered_data; simpl.
  - now rewrite Hr.
  - rewrite Hc. destruct (Htotal c (Str value)) as [keep ->]. apply IH.
Qed.

Lemma filter_rows_Ok_columns (filter_op : FilterOperator) column value
    data (filtered_data out : list row) :
  (forall c t, exists keep, apply filter_op c t = Ok keep) ->
  CSVProcessor.filter_rows filter_op column value data filtered_data = Ok out ->
  Forall (fun r : row => is_Some (r !! column)) data.
Proof.
  intros Htotal. revert filtered_data.
  induction data as [|r data IH]; intros filtered_data; simpl; [constructor|].
  destruct (r !! column) as [c|] eqn:Hc; [|discriminate].
  destruct (Htotal c (Str value)) as [keep ->].
  intros Hout%IH. constructor; [eauto | assumption].
Qed.

(** What a successful call of [filter_data] tells. *)
Lemma filter_data_Ok_inv data column operator value out :
  CSVProcessor.filter_data data column operator value = Ok out ->
  exists filter_op,
    CSVProcessor.filter_operators !! operator = Some filter_op /\
    Forall (fun r : row => is_Some (r !! column)) data /\
    out = List.filter (keeps filter_op column value) data.
Proof.
  unfold CSVProcessor.filter_data.
  destruct (CSVProcessor.filter_operators !! operator) as [filter_op|] eqn:Hop;
    [|discriminate].
  intros Hout. exists filter_op. split; [reflexivity|].
  pose proof (registered_apply_total _ _ Hop) as Htotal.
  pose proof (filter_rows_Ok_columns _ _ _ _ _ _ Htotal Hout) as Hcol.
  split; [assumption|].
  rewrite filter_rows_filter in Hout by assumption. now injection Hout as <-.
Qed.

Lemma filter_data_filter data column operator value filter_op :
  CSVProcessor.filter_operators !! operator = Some filter_op ->
  Forall (fun r : row => is_Some (r !! column)) data ->
  CSVProcessor.filter_data data column operator value
  = Ok (List.filter (keeps filter_op column value) data).
Proof.
  intros Hop Hcol. unfold CSVProcessor.filter_data. rewrite Hop.
  rewrite filter_rows_filter; [reflexivity | | assumption].
  now apply registered_apply_total with operator.
Qed.

Lemma Forall_filter_keep {A} (P : A -> Prop) (f : A -> bool) (l : list A) :
  Forall P l -> Forall P (List.filter f l).
Proof.
  induction 1 as [|x l Hx _ IH]; simpl; [constructor|].
  destruct (f x); [now constructor | assumption].
Qed.

Lemma filter_twice {A} (f : A -> bool) (l : list A) :
  List.filter f (List.filter f l) = List.filter f l.
Proof.
  induction l as [|x l IH]; [reflexivity|]. simpl.
  destruct (f x) eqn:Hx; [|exact IH]. simpl. now rewrite Hx, IH.
Qed.

Lemma filter_swap {A} (f g : A -> bool) (l : list A) :
  List.filter f (List.filter g l) = List.filter g (List.filter f l).
Proof.
  induction l as [|x l IH]; [reflexivity|]. simpl.
  destruct (f x) eqn:Hf, (g x) eqn:Hg; simpl; rewrite ?Hf, ?Hg, IH; reflexivity.
Qed.

End MoreFilterFacts.

(** X7.  With a registered operator, [filter_data] reports the column as
    not found as soon as one row lacks it, whatever the rows before it
    matched and whatever follows: no part of the rows is returned. *)
Theorem filter_data_column_not_found :
  forall (pre post : list row) (r : row) (column operator value : string),
    operator ∈ ["eq"; "gt"; "lt"] ->
    Forall (fun r0 : row => is_Some (r0 !! column)) pre ->
    r !! column = None ->
    CSVProcessor.filter_data (pre ++ r :: post) column operator value
    = Raise (ColumnNotFound column).
Proof.
  intros pre post r column operator value Hop Hpre Hr.
  apply filter_operators_registered in Hop as [filter_op Hop].
  unfold CSVProcessor.filter_data. rewrite Hop.
  apply filter_rows_missing; auto. now apply registered_apply_total with operator.
Qed.

Lemma filter_data_column_not_found_witness :
  CSVProcessor.filter_data
    ([{["brand" := Str "apple"]}] ++ {["name" := Str "x"]}
       :: [{["brand" := Str "xiaomi"]}])
    "brand" "eq" "apple"
  = Raise (ColumnNotFound "brand").
Proof.
  apply (filter_data_column_not_found
           [{["brand" := Str "apple"]}] [{["brand" := Str "xiaomi"]}]
           {["name" := Str "x"]} "brand" "eq" "apple").
  - apply list_elem_of_here.
  - repeat constructor. eexists. reflexivity.
  - reflexivity.
Defined.

(** X8.  Filtering is idempotent: applying the same filter to the rows it
    returned returns the same rows. *)
Theorem filter_data_idempotent :
  forall (data out : list row) (column operator value : string),
    CSVProcessor.filter_data data column operator value = Ok out ->
    CSVProcessor.filter_data out column operator value = Ok out.
Proof.
  intros data out column operator value
    (filter_op & Hop & Hcol & ->)%filter_data_Ok_inv.
  rewrite (filter_data_filter _ _ _ _ filter_op Hop).
  - now rewrite filter_twice.
  - now apply Forall_filter_keep.
Qed.

Lemma filter_data_idempotent_witness :
  CSVProcessor.filter_data [{["brand" := Str "xiaomi"]}] "brand" "eq" "xiaomi"
  = Ok [{["brand" := Str "xiaomi"]}].
Proof.
  apply (filter_data_idempotent
           [{["brand" := Str "apple"]}; {["brand" := Str "xiaomi"]}]
           [{["brand" := Str "xiaomi"]}] "brand" "eq" "xiaomi").
  reflexivity.
Defined.

(** X9.  Two filters commute: on rows that all have both columns, with
    registered operators, filtering by the first condition and then by
    the second returns the same rows as filtering by the second and then
    by the first. *)
Theorem filter_data_commute :
  forall (data : list row) (column1 operator1 value1 : string)
         (column2 operator2 value2 : string),
    operator1 ∈ ["eq"; "gt"; "lt"] ->
    operator2 ∈ ["eq"; "gt"; "lt"] ->
    Forall (fun r : row => is_Some (r !! column1) /\ is_Some (r !! column2)) data ->
    exists data1 data2 both : list row,
      CSVProcessor.filter_data data column1 operator1 value1 = Ok data1 /\
      CSVProcessor.filter_data data1 column2 operator2 value2 = Ok both /\
      CSVProcessor.filter_data data column2 operator2 value2 = Ok data2 /\
      CSVProcessor.filter_data data2 column1 operator1 value1 = Ok both.
Proof.
  intros data column1 operator1 value1 column2 operator2 value2 Hop1 Hop2 Hcols.
  apply filter_operators_registered in Hop1 as [op1 Hop1].
  apply filter_operators_registered in Hop2 as [op2 Hop2].
  assert (Hc1 : Forall (fun r : row => is_Some (r !! column1)) data)
    by (eapply Forall_impl; [exact Hcols | now intros r []]).
  assert (Hc2 : Forall (fun r : row => is_Some (r !! column2)) data)
    by (eapply Forall_impl; [exact Hcols | now intros r []]).
  eexists _, _, _.
  split; [now apply (filter_data_filter _ _ _ _ op1)|].
  split; [apply (filter_data_filter _ _ _ _ op2 Hop2);
          now apply Forall_filter_keep|].
  split; [now apply (filter_data_filter _ _ _ _ op2)|].
  rewrite (filter_data_filter _ _ _ _ op1 Hop1) by now apply Forall_filter_keep.
  now rewrite filter_swap.
Qed.

Lemma filter_data_commute_witness :
  exists data1 data2 both : list row,
    CSVProcessor.filter_data (rows_of sample_csv) "brand" "eq" "xiaomi" = Ok data1 /\
    CSVProcessor.filter_data data1 "price" "gt" "200" = Ok both /\
    CSVProcessor.filter_data (rows_of sample_csv) "price" "gt" "200" = Ok data2 /\
    CSVProcessor.filter_data data2 "brand" "eq" "xiaomi" = Ok both.
Proof.
  apply (filter_data_commute (rows_of sample_csv)
           "brand" "eq" "xiaomi" "price" "gt" "200").
  - apply list_elem_of_here.
  - apply list_elem_of_further, list_elem_of_here.
  - vm_compute. repeat constructor; eexists; reflexivity.
Defined.

(** ** More on aggregation *)

Section MoreAggregateFacts.

Implicit Types (data : list row) (column function : string).

Lemma aggregation_functions_unregistered function :
  function ∉ ["avg"; "min"; "max"] ->
  CSVProcessor.aggregation_functions !! function = None.
Proof.
  intros Hnin. unfold CSVProcessor.aggregation_functions.
  rewrite !lookup_insert_ne; [apply lookup_empty|..];
    intros <-; apply Hnin; repeat constructor.
Qed.

(** The loop collects the floats of the cells, in the order of the rows,
    after those it was given. *)
Lemma numeric_values_all column data (floats values : list spec_float) :
  Forall2 (fun (r : row) x => exists s,
               r !! column = Some (Str s) /\ PyFloat.of_str s = Some x)
    data floats ->
  CSVProcessor.numeric_values column data values = Ok (values ++ floats).
Proof.
  intros Hall. revert values.
  induction Hall as [|r x data floats (s & Hs & Hx) _ IH]; intros values; simpl.
  - now rewrite app_nil_r.
  - unfold getitem, try_except, mbind, result_bind, py_float.
    rewrite Hs, Hx, IH. now rewrite <- app_assoc.
Qed.

(** The order of floats is transitive. *)
Lemma SFcompare_Lt_trans (x y z : spec_float) :
  SFcompare x y = Some Lt -> SFcompare y z = Some Lt ->
  SFcompare x z = Some Lt.
Proof.
  destruct x as [sx|sx| |sx mx ex], y as [sy|sy| |sy my ey],
           z as [sz|sz| |sz mz ez]; simpl;
    try discriminate; try reflexivity;
    try (destruct sx; discriminate || reflexivity);
    try (destruct sx, sy; discriminate || reflexivity);
    try (destruct sx, sz; discriminate || reflexivity);
    try (destruct sy, sz; discriminate || reflexivity);
    try (destruct sx, sy, sz; discriminate || reflexivity).
  change (Pos.compare_cont Eq mx my) with (Pos.compare mx my).
  change (Pos.compare_cont Eq my mz) with (Pos.compare my mz).
  change (Pos.compare_cont Eq mx mz) with (Pos.compare mx mz).
  destruct sx, sy, sz; try discriminate; try reflexivity;
    destruct (Z.compare_spec ex ey), (Z.compare_spec ey ez),
             (Z.compare_spec ex ez);
    try discriminate; try reflexivity; try lia;
    destruct (Pos.compare_spec mx my), (Pos.compare_spec my mz),
             (Pos.compare_spec mx mz);
    simpl; try discriminate; try reflexivity; lia.
Qed.

Lemma float_lt_trans (x y z : spec_float) :
  PyFloat.lt x y = true -> PyFloat.lt y z = true -> PyFloat.lt x z = true.
Proof.
  unfold PyFloat.lt, SFltb. intros Hxy Hyz.
  rewrite (SFcompare_Lt_trans x y z); [reflexivity| |].
  - now destruct (SFcompare x y) as [[]|].
  - now destruct (SFcompare y z) as [[]|].
Qed.

Lemma float_lt_irrefl (x : spec_float) : PyFloat.lt x x = false.
Proof.
  unfold PyFloat.lt, SFltb. now destruct (SFcompare_diag x) as [-> | ->].
Qed.

(** The running minimum is one of the items seen and no item seen is
    below it. *)
Lemma py_min_invariant (seen rest : list spec_float) (m : spec_float) :
  m ∈ seen -> (forall y, y ∈ seen -> PyFloat.lt y m = false) ->
  py_min m rest ∈ seen ++ rest /\
  forall y, y ∈ seen ++ rest -> PyFloat.lt y (py_min m rest) = false.
Proof.
  revert seen m. induction rest as [|x rest IH]; intros seen m Hm Hlow.
  - rewrite app_nil_r. now split.
  - change (py_min m (x :: rest))
      with (py_min (if PyFloat.lt x m then x else m) rest).
    replace (seen ++ x :: rest) with ((seen ++ [x]) ++ rest)
      by now rewrite <- app_assoc.
    apply IH.
    + destruct (PyFloat.lt x m); apply elem_of_app; [right | now left].
      apply list_elem_of_here.
    + intros y [Hy|Hy%list_elem_of_singleton]%elem_of_app.
      * destruct (PyFloat.lt x m) eqn:Hxm; [|now apply Hlow].
        destruct (PyFloat.lt y x) eqn:Hyx; [|reflexivity].
        rewrite <- (Hlow y Hy). symmetry. now apply float_lt_trans with x.
      * subst y. destruct (PyFloat.lt x m) eqn:Hxm;
          [apply float_lt_irrefl | assumption].
Qed.

(** The running maximum is one of the items seen and no item seen is
    above it. *)
Lemma py_max_invariant (seen rest : list spec_float) (m : spec_float) :
  m ∈ seen -> (forall y, y ∈ seen -> PyFloat.gt y m = false) ->
  py_max m rest ∈ seen ++ rest /\
  forall y, y ∈ seen ++ rest -> PyFloat.gt y (py_max m rest) = false.
Proof.
  revert seen m. induction rest as [|x rest IH]; intros seen m Hm Hhigh.
  - rewrite app_nil_r. now split.
  - change (py_max m (x :: rest))
      with (py_max (if PyFloat.gt x m then x else m) rest).
    replace (seen ++ x :: rest) with ((seen ++ [x]) ++ rest)
      by now rewrite <- app_assoc.
    apply IH.
    + destruct (PyFloat.gt x m); apply elem_of_app; [right | now left].
      apply list_elem_of_here.
    + intros y [Hy|Hy%list_elem_of_singleton]%elem_of_app.
      * destruct (PyFloat.gt x m) eqn:Hxm; [|now apply Hhigh].
        destruct (PyFloat.gt y x) eqn:Hyx; [|reflexivity].
        rewrite <- (Hhigh y Hy). symmetry. rewrite float_gt_lt in *.
        now apply float_lt_trans with x.
      * subst y. destruct (PyFloat.gt x m) eqn:Hxm; [|assumption].
        rewrite float_gt_lt. apply float_lt_irrefl.
Qed.

End MoreAggregateFacts.

(** X10.  When every row holds under the column a text that parses as a
    float, [aggregate_data] on rows that are not empty returns what the
    registered function calculates from those floats, taken in the order
    of the rows. *)
Theorem aggregate_data_numeric :
  forall (data : list row) (floats : list spec_float) (column function : string),
    function ∈ ["avg"; "min"; "max"] ->
    data <> [] ->
    Forall2 (fun (r : row) x => exists s,
                 r !! column = Some (Str s) /\ PyFloat.of_str s = Some x)
      data floats ->
    exists agg_func,
      CSVProcessor.aggregation_functions !! function = Some agg_func /\
      CSVProcessor.aggregate_data data column function
      = Ok (calculate agg_func floats).
Proof.
  intros data floats column function Hin Hne Hall.
  destruct (aggregation_functions_registered function Hin) as [agg_func Hf].
  exists agg_func. split; [exact Hf|].
  unfold CSVProcessor.aggregate_data. rewrite Hf.
  rewrite (numeric_values_all column data floats [] Hall).
  destruct Hall as [|r x data floats (s & Hs & _) _]; [contradiction|].
  now rewrite Hs.
Qed.

Lemma aggregate_data_numeric_witness :
  exists agg_func,
    CSVProcessor.aggregation_functions !! "max" = Some agg_func /\
    CSVProcessor.aggregate_data
      [{["price" := Str "999"]}; {["price" := Str " 1_199.5 "]}] "price" "max"
    = Ok (calculate agg_func [literal "999"; literal "1199.5"]).
Proof.
  apply (aggregate_data_numeric
           [{["price" := Str "999"]}; {["price" := Str " 1_199.5 "]}]
           [literal "999"; literal "1199.5"] "price" "max").
  - do 2 apply list_elem_of_further. apply list_elem_of_here.
  - discriminate.
  - repeat constructor; eexists; split; reflexivity.
Defined.

(** X11.  For a function tag other than [avg], [min] and [max],
    [aggregate_data] raises the unsupported-function error, whatever the
    rows and the column, also on no rows. *)
Theorem aggregate_data_unsupported_function :
  forall (data : list row) (column function : string),
    function ∉ ["avg"; "min"; "max"] ->
    CSVProcessor.aggregate_data data column function
    = Raise (UnsupportedFunction function).
Proof.
  intros data column function Hnin. unfold CSVProcessor.aggregate_data.
  now rewrite aggregation_functions_unregistered.
Qed.

Lemma aggregate_data_unsupported_function_witness :
  CSVProcessor.aggregate_data [] "price" "sum" = Raise (UnsupportedFunction "sum").
Proof.
  apply (aggregate_data_unsupported_function [] "price" "sum").
  intros Hin. repeat (apply elem_of_cons in Hin as [Heq|Hin]; [discriminate|]).
  now apply elem_of_nil in Hin.
Defined.

(** X12.  On values that are not empty, [MinAggregation] returns one of
    the values, and no value is below it; [MaxAggregation] returns one of
    the values, and no value is above it. *)
Theorem min_max_are_extreme_values :
  forall (x : spec_float) (rest : list spec_float),
    (exists m,
        calculate MinAggregation (x :: rest) = Float m /\
        m ∈ x :: rest /\
        forall y, y ∈ x :: rest -> PyFloat.lt y m = false) /\
    (exists m,
        calculate MaxAggregation (x :: rest) = Float m /\
        m ∈ x :: rest /\
        forall y, y ∈ x :: rest -> PyFloat.gt y m = false).
Proof.
  intros x rest. split.
  - exists (py_min x rest). split; [reflexivity|].
    apply (py_min_invariant [x] rest x); [apply list_elem_of_here|].
    intros y ->%list_elem_of_singleton. apply float_lt_irrefl.
  - exists (py_max x rest). split; [reflexivity|].
    apply (py_max_invariant [x] rest x); [apply list_elem_of_here|].
    intros y ->%list_elem_of_singleton. rewrite float_gt_lt.
    apply float_lt_irrefl.
Qed.

(** ** More on reading the table *)

Section MoreCsvFacts.

Implicit Types (fieldnames record headers : list string) (d : row) (h : string).

Lemma fold_insert_fields_inv (kvs : list (string * string)) d h :
  is_Some (fold_left (fun d kv => <[kv.1 := Str kv.2]> d) kvs d !! h) ->
  is_Some (d !! h) \/ exists v, (h, v) ∈ kvs.
Proof.
  revert d. induction kvs as [|[k v] kvs IH]; intros d; simpl; [auto|].
  intros [Hd|[v' Hin]]%IH.
  - apply lookup_insert_is_Some' in Hd as [<-|Hd]; [|auto].
    right. exists v. apply list_elem_of_here.
  - right. exists v'. now apply list_elem_of_further.
Qed.

(** A row has no entry under a name that is not a header. *)
Lemma dict_row_key fieldnames record h :
  is_Some (Csv.dict_row fieldnames record !! h) -> h ∈ fieldnames.
Proof.
  unfold Csv.dict_row.
  assert (Hzip : is_Some (fold_left (fun d kv => <[kv.1 := Str kv.2]> d)
                            (zip fieldnames record) (∅ : row) !! h) ->
                 h ∈ fieldnames).
  { intros [Hd|[v Hin]]%fold_insert_fields_inv.
    - rewrite lookup_empty in Hd. now destruct Hd.
    - now apply elem_of_zip_l in Hin. }
  destruct (length fieldnames <? length record)%nat; [exact Hzip|].
  destruct (length record <? length fieldnames)%nat; [|exact Hzip].
  rewrite fold_insert_restval_lookup.
  destruct (decide (h ∈ drop (length record) fieldnames)) as [Hin|_];
    [|exact Hzip].
  intros _. apply list_elem_of_lookup in Hin as [i Hi].
  rewrite lookup_drop in Hi. now apply list_elem_of_lookup_2 in Hi.
Qed.

Lemma dict_row_dom fieldnames record h :
  is_Some (Csv.dict_row fieldnames record !! h) <-> h ∈ fieldnames.
Proof. split; [apply dict_row_key | apply dict_row_header]. Qed.

(** What a successful call of [read_csv] tells. *)
Lemma read_csv_Ok_inv (file : opened) (filepath : string) headers
    (data : list row) :
  CSVProcessor.read_csv file filepath = Ok (headers, data) ->
  exists recs, data = Csv.dict_row headers <$> recs.
Proof.
  unfold CSVProcessor.read_csv. destruct file as [|why|text]; try discriminate.
  destruct (Csv.file_records text) as [[|fieldnames recs]|e]; try discriminate.
  - intros [= <- <-]. now exists [].
  - intros [= <- <-]. unfold Csv.dict_rows. eauto.
Qed.

Lemma read_csv_rows_dom (file : opened) (filepath : string) headers
    (data : list row) (r : row) h :
  CSVProcessor.read_csv file filepath = Ok (headers, data) ->
  r ∈ data -> (is_Some (r !! h) <-> h ∈ headers).
Proof.
  intros [recs ->]%read_csv_Ok_inv (record & -> & _)%list_elem_of_fmap.
  apply dict_row_dom.
Qed.

Lemma numeric_values_no_KeyError (column key : string) (data : list row)
    (values : list spec_float) :
  Forall (fun r : row => is_Some (r !! column)) data ->
  CSVProcessor.numeric_values column data values <> Raise (KeyError key).
Proof.
  intros Hcol. revert values.
  induction Hcol as [|r data [c Hc] _ IH]; intros values; simpl; [discriminate|].
  unfold getitem, try_except, mbind, result_bind. rewrite Hc.
  destruct c as [s|]; simpl; [|discriminate].
  destruct (PyFloat.of_str s); [apply IH | discriminate].
Qed.

End MoreCsvFacts.



(** X14.  When the headers are all different, each row that [read_csv]
    returns binds the header at a place to the text of the field at that
    place, for every place the record has a field at. *)
Theorem read_csv_binds_fields :
  forall (text filepath : string) (fieldnames : list string)
         (recs : list (list string)),
    Csv.file_records text = Ok (fieldnames :: recs) ->
    NoDup fieldnames ->
    exists data : list row,
      CSVProcessor.read_csv (Content text) filepath = Ok (fieldnames, data) /\
      Forall2
        (fun (record : list string) (r : row) =>
           forall (i : nat) (h v : string),
             fieldnames !! i = Some h -> record !! i = Some v ->
             r !! h = Some (Str v))
        (filter (fun record => record ≠ []) recs) data.
Proof.
  intros text filepath fieldnames recs Hrecs Hnd.
  exists (Csv.dict_rows fieldnames recs). unfold CSVProcessor.read_csv.
  rewrite Hrecs. split; [reflexivity|]. unfold Csv.dict_rows.
  apply Forall2_fmap_r, Forall_Forall2_diag, Forall_forall.
  intros record _ i h v. now apply dict_row_present.
Qed.

Lemma read_csv_binds_fields_witness :
  exists data : list row,
    CSVProcessor.read_csv (Content ("a,b" +:+ Csv.LF +:+ "1,2" +:+ Csv.LF)) "data.csv"
    = Ok (["a"; "b"], data) /\
    Forall2
      (fun (record : list string) (r : row) =>
         forall (i : nat) (h v : string),
           ["a"; "b"] !! i = Some h -> record !! i = Some v ->
           r !! h = Some (Str v))
      (filter (fun record => record ≠ []) [["1"; "2"]]) data.
Proof.
  apply (read_csv_binds_fields
           ("a,b" +:+ Csv.LF +:+ "1,2" +:+ Csv.LF) "data.csv" ["a"; "b"] [["1"; "2"]]).
  - reflexivity.
  - repeat (apply NoDup_cons; split;
            [intros Hin;
             repeat (apply elem_of_cons in Hin as [Heq|Hin]; [discriminate|]);
             now apply elem_of_nil in Hin|]).
    apply NoDup_nil_2.
Defined.

(** X15.  On the rows that [read_csv] returned, a filter with a
    registered operator goes through when the column is a header, and
    reports the column as not found when it is no header and there is a
    row. *)
Theorem filter_data_on_read_rows :
  forall (file : opened) (filepath : string) (headers : list string)
         (data : list row) (column operator value : string),
    CSVProcessor.read_csv file filepath = Ok (headers, data) ->
    operator ∈ ["eq"; "gt"; "lt"] ->
    (column ∈ headers ->
     exists out, CSVProcessor.filter_data data column operator value = Ok out) /\
    (column ∉ headers -> data <> [] ->
     CSVProcessor.filter_data data column operator value
     = Raise (ColumnNotFound column)).
Proof.
  intros file filepath headers data column operator value Hread Hop. split.
  - intros Hcol. apply filter_operators_registered in Hop as [filter_op Hop].
    eexists. apply (filter_data_filter _ _ _ _ filter_op Hop).
    apply Forall_forall. intros r Hr.
    now apply (read_csv_rows_dom file filepath headers data r column Hread Hr).
  - intros Hcol Hne. destruct data as [|r data]; [contradiction|].
    apply filter_operators_registered in Hop as [filter_op Hop].
    unfold CSVProcessor.filter_data. rewrite Hop.
    apply (filter_rows_missing filter_op column value [] data r);
      [now apply registered_apply_total with operator | constructor|].
    apply eq_None_not_Some. intros Hsome. apply Hcol.
    apply (read_csv_rows_dom file filepath headers (r :: data) r column Hread);
      [apply list_elem_of_here | assumption].
Qed.

Lemma filter_data_on_read_rows_witness :
  ("price" ∈ ["name"; "brand"; "price"; "rating"] ->
   exists out,
     CSVProcessor.filter_data (rows_of sample_csv) "price" "gt" "500" = Ok out) /\
  ("price" ∉ ["name"; "brand"; "price"; "rating"] -> rows_of sample_csv <> [] ->
   CSVProcessor.filter_data (rows_of sample_csv) "price" "gt" "500"
   = Raise (ColumnNotFound "price")).
Proof.
  apply (filter_data_on_read_rows (Content sample_csv) "test.csv"
           ["name"; "brand"; "price"; "rating"] (rows_of sample_csv)
           "price" "gt" "500").
  - vm_compute. reflexivity.
  - apply list_elem_of_further, list_elem_of_here.
Defined.

(** X16.  On the rows that [read_csv] returned, [aggregate_data] never
    raises [KeyError]: a column that the first row has, every row has. *)
Theorem aggregate_data_on_read_rows_no_KeyError :
  forall (file : opened) (filepath : string) (headers : list string)
         (data : list row) (column function key : string),
    CSVProcessor.read_csv file filepath = Ok (headers, data) ->
    CSVProcessor.aggregate_data data column function <> Raise (KeyError key).
Proof.
  intros file filepath headers data column function key Hread.
  unfold CSVProcessor.aggregate_data.
  destruct (CSVProcessor.aggregation_functions !! function); [|discriminate].
  destruct data as [|first rest] eqn:Hdata; [discriminate|].
  destruct (first !! column) as [c|] eqn:Hc; [|discriminate].
  rewrite <- Hdata in *.
  assert (Hcol : Forall (fun r : row => is_Some (r !! column)) data).
  { assert (column ∈ headers).
    { apply (read_csv_rows_dom file filepath headers data first column Hread);
        [rewrite Hdata; apply list_elem_of_here | eauto]. }
    apply Forall_forall. intros r Hr.
    now apply (read_csv_rows_dom file filepath headers data r column Hread Hr). }
  pose proof (numeric_values_no_KeyError column key data [] Hcol) as Hno.
  destruct (CSVProcessor.numeric_values column data []); simpl;
    [discriminate | congruence].
Qed.

Lemma aggregate_data_on_read_rows_no_KeyError_witness :
  CSVProcessor.aggregate_data (rows_of sample_csv) "brand" "avg"
  <> Raise (KeyError "brand").
Proof.
  apply (aggregate_data_on_read_rows_no_KeyError (Content sample_csv) "test.csv"
           ["name"; "brand"; "price"; "rating"] (rows_of sample_csv)
           "brand" "avg" "brand").
  vm_compute. reflexivity.
Defined.

(** ** The presenter *)

Section PresenterFacts.

Implicit Types (headers texts : list string) (col_widths : list nat)
  (data : list (list cell)).

Lemma bind_call_Ok {A B : Type} (a : A) (k : A -> io B) :
  (call (Ok a) ≫= k) = k a.
Proof. unfold mbind, io_bind, call. now destruct (k a). Qed.

Lemma bind_call_Raise {A B : Type} (e : exn) (k : A -> io B) :
  (call (Raise e) ≫= k) = ([], Raised e).
Proof. reflexivity. Qed.

Lemma bind_print {B : Type} (s : string) (k : unit -> io B) :
  (print s ≫= k) = (s :: (k tt).1, (k tt).2).
Proof. unfold mbind, io_bind, print. now destruct (k tt). Qed.

Lemma length_replicate_string (n : nat) (c : ascii) :
  String.length (string_of_list_ascii (replicate n c)) = n.
Proof. induction n as [|n IH]; simpl; [reflexivity | now rewrite IH]. Qed.

Lemma length_rule (n : nat) : String.length (rule n) = n.
Proof. apply length_replicate_string. Qed.

(** [ljust] never shortens, and pads up to the width. *)
Lemma length_ljust (s : string) (width : nat) :
  String.length (ljust s width) = Nat.max (String.length s) width.
Proof. unfold ljust. rewrite length_append, length_replicate_string. lia. Qed.

Lemma join_cons (sep p : string) (rest : list string) :
  rest <> [] -> join sep (p :: rest) = p +:+ sep +:+ join sep rest.
Proof. now destruct rest. Qed.

(** Widening keeps the number of widths and lowers none. *)
Lemma widen_from_length (i : nat) (r : list cell) col_widths :
  length (widen_from i r col_widths) = length col_widths.
Proof.
  revert i col_widths. induction r as [|c r IH]; intros i col_widths; simpl;
    [reflexivity|].
  rewrite IH. destruct (decide (i < length col_widths));
    [apply length_insert | reflexivity].
Qed.

Lemma widen_from_mono (i : nat) (r : list cell) col_widths (j x : nat) :
  col_widths !! j = Some x ->
  exists x', widen_from i r col_widths !! j = Some x' /\ x <= x'.
Proof.
  revert i col_widths x. induction r as [|c r IH]; intros i col_widths x Hj;
    simpl; [eauto|].
  destruct (decide (i < length col_widths)) as [Hi|]; [|now apply IH].
  destruct (decide (i = j)) as [->|Hne].
  - destruct (IH (S j) (<[j := Nat.max (col_widths !!! j) (String.length (py_str c))]>
                          col_widths)
                (Nat.max (col_widths !!! j) (String.length (py_str c))))
      as (x' & Hx' & Hle); [now apply list_lookup_insert_eq|].
    exists x'. split; [assumption|].
    rewrite (list_lookup_total_correct _ _ _ Hj) in Hle. lia.
  - apply IH. now rewrite list_lookup_insert_ne.
Qed.

(** After widening, the width at the place of a cell is at least the
    length of the cell. *)
Lemma widen_from_covers (i k : nat) (r : list cell) col_widths (c : cell) :
  r !! k = Some c -> i + k < length col_widths ->
  exists x, widen_from i r col_widths !! (i + k) = Some x
            /\ String.length (py_str c) <= x.
Proof.
  revert i k col_widths. induction r as [|c0 r IH]; intros i k col_widths Hk Hlt;
    [discriminate|]. simpl. destruct k as [|k]; simpl in Hk.
  - injection Hk as ->. rewrite Nat.add_0_r in *.
    rewrite decide_True by assumption.
    destruct (widen_from_mono (S i) r
                (<[i := Nat.max (col_widths !!! i) (String.length (py_str c))]>
                   col_widths)
                i (Nat.max (col_widths !!! i) (String.length (py_str c))))
      as (x & Hx & Hle); [now apply list_lookup_insert_eq|].
    exists x. split; [assumption | lia].
  - replace (i + S k) with (S i + k) by lia. apply IH; [assumption|].
    destruct (decide (i < length col_widths)); rewrite ?length_insert; lia.
Qed.

(** The widths [_display_basic_table] ends with. *)
Lemma col_widths_length data col_widths :
  length (fold_left (fun w r => widen_from 0 r w) data col_widths)
  = length col_widths.
Proof.
  revert col_widths. induction data as [|r data IH]; intros col_widths; simpl;
    [reflexivity|]. now rewrite IH, widen_from_length.
Qed.

Lemma col_widths_mono data col_widths (j x : nat) :
  col_widths !! j = Some x ->
  exists x', fold_left (fun w r => widen_from 0 r w) data col_widths !! j = Some x'
             /\ x <= x'.
Proof.
  revert col_widths x. induction data as [|r data IH]; intros col_widths x Hj;
    simpl; [eauto|].
  destruct (widen_from_mono 0 r col_widths j x Hj) as (x1 & Hx1 & Hle1).
  destruct (IH _ _ Hx1) as (x' & Hx' & Hle). exists x'. split; [assumption | lia].
Qed.

Lemma col_widths_covers data col_widths (r : list cell) (k : nat) (c : cell) :
  r ∈ data -> r !! k = Some c -> k < length col_widths ->
  exists x, fold_left (fun w r => widen_from 0 r w) data col_widths !! k = Some x
            /\ String.length (py_str c) <= x.
Proof.
  revert col_widths. induction data as [|r0 data IH]; intros col_widths Hin Hk Hlt;
    [now apply elem_of_nil in Hin|]. simpl.
  apply elem_of_cons in Hin as [->|Hin].
  - destruct (widen_from_covers 0 k r0 col_widths c Hk Hlt) as (x1 & Hx1 & Hle1).
    destruct (col_widths_mono data _ _ _ Hx1) as (x & Hx & Hle).
    exists x. split; [assumption | lia].
  - apply IH; [assumption.. |]. now rewrite widen_from_length.
Qed.

(** A line of padded cells, none wider than its column: its length is
    the sum of the widths used and three more for each separator. *)
Lemma padded_line_length (i : nat) texts col_widths :
  (forall k t, texts !! k = Some t ->
               exists w, col_widths !! (i + k) = Some w /\ String.length t <= w) ->
  exists cells,
    padded_from i texts col_widths = Ok cells /\
    String.length (join " | " cells)
    = sum_list (take (length texts) (drop i col_widths))
      + 3 * (length texts - 1).
Proof.
  revert i. induction texts as [|t texts IH]; intros i Hfit.
  - exists []. split; [reflexivity|]. now rewrite take_0.
  - destruct (Hfit 0 t eq_refl) as (w & Hw & Hle). rewrite Nat.add_0_r in Hw.
    destruct (IH (S i)) as (cells & Hcells & Hlen).
    { intros k t' Hk. destruct (Hfit (S k) t' Hk) as (w' & Hw' & Hle').
      exists w'. split; [|assumption]. now replace (S i + k) with (i + S k) by lia. }
    exists (ljust t w :: cells). simpl padded_from.
    rewrite Hw, Hcells. split; [reflexivity|].
    rewrite (drop_S _ _ _ Hw). simpl length. simpl take. simpl sum_list.
    destruct texts as [|t' texts].
    + simpl in Hcells. injection Hcells as <-. simpl.
      rewrite length_ljust. lia.
    + assert (Hne : cells <> []).
      { simpl in Hcells. destruct (col_widths !! S i); [|discriminate].
        unfold mbind, result_bind in Hcells.
        destruct (padded_from (S (S i)) texts col_widths); now inversion Hcells. }
      rewrite (join_cons _ _ _ Hne), !length_append, length_ljust, Hlen.
      simpl. lia.
Qed.

(** A row with more cells than there are widths stops the printing. *)
Lemma padded_from_long (i : nat) texts col_widths :
  i <= length col_widths -> length col_widths < i + length texts ->
  padded_from i texts col_widths = Raise IndexError.
Proof.
  revert i. induction texts as [|t texts IH]; intros i Hi Hlong; simpl in *;
    [lia|].
  destruct (col_widths !! i) as [w|] eqn:Hw; [|reflexivity].
  apply lookup_lt_Some in Hw. rewrite IH; [reflexivity | lia | lia].
Qed.

Lemma padded_from_short (i : nat) texts col_widths :
  i + length texts <= length col_widths ->
  exists cells, padded_from i texts col_widths = Ok cells.
Proof.
  revert i. induction texts as [|t texts IH]; intros i Hfit; simpl in *; [eauto|].
  destruct (lookup_lt_is_Some_2 col_widths i) as [w ->]; [lia|].
  destruct (IH (S i)) as [cells ->]; [lia|]. eauto.
Qed.

Lemma print_rows_cons col_widths (r : list cell) data :
  print_rows col_widths (r :: data)
  = (call (padded_from 0 (py_str <$> r) col_widths) ≫= fun cells =>
     print (join " | " cells) ≫= fun _ => print_rows col_widths data).
Proof. reflexivity. Qed.

(** The rows are printed one line each, down to the first row that has
    more cells than there are widths. *)
Lemma print_rows_Done col_widths data :
  Forall (fun r : list cell => length r <= length col_widths) data ->
  exists lines, print_rows col_widths data = (lines, Done tt)
                /\ length lines = length data.
Proof.
  induction 1 as [|r data Hr _ (lines & Hlines & Hlen)]; [now exists []|].
  destruct (padded_from_short 0 (py_str <$> r) col_widths) as [cells Hcells].
  { now rewrite length_fmap. }
  rewrite print_rows_cons, Hcells, bind_call_Ok, bind_print, Hlines. simpl.
  eexists. split; [reflexivity|]. simpl. now rewrite Hlen.
Qed.

Lemma print_rows_Raised col_widths data :
  ~ Forall (fun r : list cell => length r <= length col_widths) data ->
  exists lines, print_rows col_widths data = (lines, Raised IndexError).
Proof.
  induction data as [|r data IH]; intros Hnot; [destruct Hnot; constructor|].
  rewrite print_rows_cons.
  destruct (decide (length r <= length col_widths)) as [Hr|Hr].
  - destruct (padded_from_short 0 (py_str <$> r) col_widths) as [cells Hcells].
    { now rewrite length_fmap. }
    rewrite Hcells, bind_call_Ok, bind_print.
    destruct IH as [lines Hlines].
    { intros Hall. apply Hnot. now constructor. }
    rewrite Hlines. simpl. eauto.
  - rewrite padded_from_long; [rewrite bind_call_Raise; eauto | lia|].
    rewrite length_fmap. lia.
Qed.

Lemma print_rows_aligned col_widths data :
  Forall (fun r : list cell =>
            length r = length col_widths /\
            forall k c, r !! k = Some c ->
                        exists w, col_widths !! k = Some w
                                  /\ String.length (py_str c) <= w) data ->
  exists lines,
    print_rows col_widths data = (lines, Done tt) /\
    length lines = length data /\
    Forall (fun l => String.length l
                     = sum_list col_widths + 3 * (length col_widths - 1)) lines.
Proof.
  induction 1 as [|r data [Hlen Hfit] _ (lines & Hlines & Hcount & Hall)];
    [exists []; repeat split; constructor|].
  destruct (padded_line_length 0 (py_str <$> r) col_widths)
    as (cells & Hcells & Hwidth).
  { intros k t Hk. rewrite list_lookup_fmap in Hk.
    destruct (r !! k) as [c|] eqn:Hc; [|discriminate]. injection Hk as <-.
    now apply Hfit. }
  rewrite print_rows_cons, Hcells, bind_call_Ok, bind_print, Hlines. simpl.
  eexists. split; [reflexivity|]. split; [simpl; now rewrite Hcount|].
  constructor; [|assumption].
  rewrite Hwidth, length_fmap, Hlen, drop_0, firstn_all. reflexivity.
Qed.

End PresenterFacts.

Section BasicTableFacts.

Implicit Types (headers : list string) (data : list (list cell)).

Lemma header_cells_fit headers data (k : nat) (t : string) :
  headers !! k = Some t ->
  exists w,
    fold_left (fun w r => widen_from 0 r w) data (String.length <$> headers) !! k
    = Some w /\ String.length t <= w.
Proof.
  intros Hk. apply col_widths_mono. now rewrite list_lookup_fmap, Hk.
Qed.

Lemma basic_table_unfold headers data :
  _display_basic_table headers data
  = (call (padded_from 0 headers
             (fold_left (fun w r => widen_from 0 r w) data
                (String.length <$> headers))) ≫= fun cells =>
     print (join " | " cells) ≫= fun _ =>
     print (rule (String.length (join " | " cells))) ≫= fun _ =>
     print_rows (fold_left (fun w r => widen_from 0 r w) data
                   (String.length <$> headers)) data).
Proof. reflexivity. Qed.

Lemma basic_table_aligned headers data :
  Forall (fun r : list cell => length r = length headers) data ->
  exists (lines : list string) (width : nat),
    _display_basic_table headers data = (lines, Done tt) /\
    length lines = 2 + length data /\
    Forall (fun l => String.length l = width) lines.
Proof.
  intros Hfull. rewrite basic_table_unfold.
  set (col_widths := fold_left (fun w r => widen_from 0 r w) data
                       (String.length <$> headers)).
  assert (Hlen : length col_widths = length headers).
  { unfold col_widths. now rewrite col_widths_length, length_fmap. }
  destruct (padded_line_length 0 headers col_widths) as (cells & Hcells & Hwidth).
  { intros k t Hk. now apply header_cells_fit. }
  rewrite <- Hlen, drop_0, firstn_all in Hwidth.
  destruct (print_rows_aligned col_widths data) as (lines & Hlines & Hcount & Hall).
  { apply Forall_forall. intros r Hr. rewrite Forall_forall in Hfull.
    split; [now rewrite Hlen; apply Hfull|].
    intros k c Hk. apply (col_widths_covers data _ r k c Hr Hk).
    rewrite length_fmap, <- (Hfull r Hr). now apply lookup_lt_Some in Hk. }
  rewrite Hcells, bind_call_Ok, !bind_print, Hlines. simpl.
  eexists _, (sum_list col_widths + 3 * (length col_widths - 1)).
  split; [reflexivity|]. split; [simpl; now rewrite Hcount|].
  constructor; [exact Hwidth|].
  constructor; [now rewrite length_rule | exact Hall].
Qed.

End BasicTableFacts.

(** X17.  When every row has as many cells as there are headers,
    [_display_basic_table] prints the header line, the rule and one line
    for each row, and all these lines have the same length: the columns
    line up and no cell is cut. *)
Theorem display_basic_table_aligned :
  forall (headers : list string) (data : list (list cell)),
    Forall (fun r : list cell => length r = length headers) data ->
    exists (lines : list string) (width : nat),
      _display_basic_table headers data = (lines, Done tt) /\
      length lines = 2 + length data /\
      Forall (fun l => String.length l = width) lines.
Proof. intros headers data. apply basic_table_aligned. Qed.

Lemma display_basic_table_aligned_witness :
  exists (lines : list string) (width : nat),
    _display_basic_table ["name"; "brand"]
      [[Str "iphone 15 pro"; Str "apple"]; [Str "x"; PyNone]]
    = (lines, Done tt) /\
    length lines = 2 + length [[Str "iphone 15 pro"; Str "apple"]; [Str "x"; PyNone]] /\
    Forall (fun l => String.length l = width) lines.
Proof.
  apply (display_basic_table_aligned ["name"; "brand"]
           [[Str "iphone 15 pro"; Str "apple"]; [Str "x"; PyNone]]).
  repeat constructor.
Defined.

(** X18.  [_display_basic_table] returns, after the header line, the rule
    and a line for each row, when no row has more cells than there are
    headers; when some row has more, it raises [IndexError] after the
    header line and the rule are printed. *)
Theorem display_basic_table_index_error :
  forall (headers : list string) (data : list (list cell)),
    (Forall (fun r : list cell => length r <= length headers) data ->
     exists lines, _display_basic_table headers data = (lines, Done tt)
                   /\ length lines = 2 + length data) /\
    (~ Forall (fun r : list cell => length r <= length headers) data ->
     exists lines, _display_basic_table headers data = (lines, Raised IndexError)
                   /\ 2 <= length lines).
Proof.
  intros headers data. rewrite basic_table_unfold.
  set (col_widths := fold_left (fun w r => widen_from 0 r w) data
                       (String.length <$> headers)).
  assert (Hlen : length col_widths = length headers).
  { unfold col_widths. now rewrite col_widths_length, length_fmap. }
  destruct (padded_from_short 0 headers col_widths) as [cells Hcells]; [lia|].
  rewrite Hcells, bind_call_Ok, !bind_print, <- Hlen. split.
  - intros (lines & Hlines & Hcount)%print_rows_Done. rewrite Hlines. simpl.
    eexists. split; [reflexivity|]. simpl. now rewrite Hcount.
  - intros (lines & Hlines)%print_rows_Raised. rewrite Hlines. simpl.
    eexists. split; [reflexivity|]. simpl. lia.
Qed.


(** ** The orchestrator *)

Section MainFacts.

Variable tabulate : option (list (list cell) -> list string -> string).
Variable upper : string -> string.
Variable str_of_float : spec_float -> string.

Implicit Types (open : string -> opened) (a : args) (data : list row)
  (headers : list string).












Lemma main_unfold open a :
  main tabulate upper str_of_float open a
  = match given (filter_arg a), given (aggregate_arg a) with
    | None, None =>
        print "Error: Either --filter or --aggregate must be specified."
          ≫= fun _ => sys_exit 1
    | filter_condition, aggregate_condition =>
        io_try
          (call (CSVProcessor.read_csv (open (filepath a)) (filepath a))
             ≫= fun '(headers, data) =>
           match data with
           | [] => print "No data found in CSV file."
           | _ =>
               match filter_condition with
               | Some condition =>
                   filter_step tabulate headers data condition
               | None => mret data
               end ≫= fun data =>
               match aggregate_condition with
               | Some condition =>
                   aggregate_step upper str_of_float data condition
               | None => mret tt
               end
           end)
          (fun _ => true)
          (fun e => print ("Error: " +:+ exn_str e) ≫= fun _ => sys_exit 1)
    end.
Proof. reflexivity. Qed.

(** The part of [main] that runs once the table is read. *)
Lemma main_given open a :
  (is_Some (given (filter_arg a)) \/ is_Some (given (aggregate_arg a))) ->
  main tabulate upper str_of_float open a
  = io_try
      (call (CSVProcessor.read_csv (open (filepath a)) (filepath a))
         ≫= fun '(headers, data) =>
       match data with
       | [] => print "No data found in CSV file."
       | _ =>
           match given (filter_arg a) with
           | Some condition => filter_step tabulate headers data condition
           | None => mret data
           end ≫= fun data =>
           match given (aggregate_arg a) with
           | Some condition => aggregate_step upper str_of_float data condition
           | None => mret tt
           end
       end)
      (fun _ => true)
      (fun e => print ("Error: " +:+ exn_str e) ≫= fun _ => sys_exit 1).
Proof.
  intros Hgiven. rewrite main_unfold.
  destruct (given (filter_arg a)), (given (aggregate_arg a)); try reflexivity.
  destruct Hgiven as [[? [=]]|[? [=]]].
Qed.



(** The two parsers and the two methods raise nothing but [ValueError],
    on rows whose column is in every row. *)
Lemma parse_filter_condition_outcome (condition : string) :
  (exists triple, parse_filter_condition condition = Ok triple)
  \/ parse_filter_condition condition = Raise (InvalidFilterFormat condition).
Proof.
  unfold parse_filter_condition. induction operators as [|op ops IH]; [now right|].
  rewrite parse_filter_loop_cons.
  destruct (PyStr.contains op condition); [|exact IH].
  destruct (PyStr.split1 op condition) as [|p0 [|p1 [|? ?]]]; try exact IH.
  destruct (op_mapping !! op); [eauto | exact IH].
Qed.

Lemma filter_data_raises_ValueError data (column operator value : string) (e : exn) :
  CSVProcessor.filter_data data column operator value = Raise e ->
  is_ValueError e = true.
Proof.
  unfold CSVProcessor.filter_data.
  destruct (CSVProcessor.filter_operators !! operator) as [filter_op|] eqn:Hop;
    [|now intros [= <-]].
  destruct (filter_rows_outcome filter_op column value data []
              (registered_apply_total _ _ Hop)) as [[out ->]| ->];
    [discriminate | now intros [= <-]].
Qed.

End MainFacts.


(** X21.  With a condition given, [main] reads the table before it looks
    at any condition: when reading fails it prints [Error:] and the
    message and exits with 1, and when the table has no rows it prints
    [No data found in CSV file.] and returns, whatever the conditions
    are, well formed or not. *)
Theorem main_reads_before_parsing :
  forall (tabulate : option (list (list cell) -> list string -> string))
         (upper : string -> string) (str_of_float : spec_float -> string)
         (open : string -> opened) (a : args),
    is_Some (given (filter_arg a)) \/ is_Some (given (aggregate_arg a)) ->
    (forall e,
        CSVProcessor.read_csv (open (filepath a)) (filepath a) = Raise e ->
        main tabulate upper str_of_float open a
        = (["Error: " +:+ exn_str e], Exited 1)) /\
    (forall headers,
        CSVProcessor.read_csv (open (filepath a)) (filepath a) = Ok (headers, []) ->
        main tabulate upper str_of_float open a
        = (["No data found in CSV file."], Done tt)).
Proof.
  intros tabulate upper str_of_float open a Hgiven.
  rewrite (main_given _ _ _ _ _ Hgiven). split.
  - intros e ->. reflexivity.
  - intros headers ->. reflexivity.
Qed.

Lemma main_reads_before_parsing_witness :
  (forall e,
      CSVProcessor.read_csv Missing "nowhere.csv" = Raise e ->
      main None (fun s => s) (fun _ => "nan") (fun _ => Missing)
        {| filepath := "nowhere.csv"; filter_arg := Some "no operator here";
           aggregate_arg := None |}
      = (["Error: " +:+ exn_str e], Exited 1)) /\
  (forall headers,
      CSVProcessor.read_csv Missing "nowhere.csv" = Ok (headers, []) ->
      main None (fun s => s) (fun _ => "nan") (fun _ => Missing)
        {| filepath := "nowhere.csv"; filter_arg := Some "no operator here";
           aggregate_arg := None |}
      = (["No data found in CSV file."], Done tt)).
Proof.
  apply (main_reads_before_parsing None (fun s => s) (fun _ => "nan")
           (fun _ => Missing)
           {| filepath := "nowhere.csv"; filter_arg := Some "no operator here";
              aggregate_arg := None |}).
  left. simpl. eauto.
Defined.

(** X22.  When the filter condition does not parse, or [filter_data]
    raises on the parsed condition, [main] prints the one line
    [Filter error:] with the message and exits with 1: no table is
    shown and the aggregation, if one was asked for, is not run. *)
Theorem main_filter_error_stops :
  forall (tabulate : option (list (list cell) -> list string -> string))
         (upper : string -> string) (str_of_float : spec_float -> string)
         (open : string -> opened) (a : args)
         (headers : list string) (data : list row) (condition : string) (e : exn),
    CSVProcessor.read_csv (open (filepath a)) (filepath a) = Ok (headers, data) ->
    data <> [] ->
    given (filter_arg a) = Some condition ->
    (parse_filter_condition condition ≫= fun '(column, operator, value) =>
     CSVProcessor.filter_data data column operator value) = Raise e ->
    main tabulate upper str_of_float open a
    = (["Filter error: " +:+ exn_str e], Exited 1).
Proof.
  intros tabulate upper str_of_float open a headers data condition e
    Hread Hdata Hcond Hfail.
  rewrite main_given by (left; rewrite Hcond; eauto).
  rewrite Hread, Hcond. destruct data as [|r data]; [contradiction|].
  unfold filter_step.
  destruct (parse_filter_condition_outcome condition) as [[[[c o] v] Hparse]|Hparse];
    rewrite Hparse in *.
  - simpl in Hfail. pose proof (filter_data_raises_ValueError _ _ _ _ _ Hfail) as He.
    destruct e; try discriminate.
    rewrite bind_call_Ok. cbv beta iota.
    rewrite bind_call_Ok. cbv beta iota. rewrite Hfail. reflexivity.
  - simpl in Hfail. injection Hfail as <-. reflexivity.
Qed.

Lemma main_filter_error_stops_witness :
  main None (fun s => s) (fun _ => "nan") (fun _ => Content sample_csv)
    {| filepath := "test.csv"; filter_arg := Some "price>=500";
       aggregate_arg := Some "avg=price" |}
  = (["Filter error: " +:+ exn_str (UnsupportedOperator "gte")], Exited 1).
Proof.
  apply (main_filter_error_stops None (fun s => s) (fun _ => "nan")
           (fun _ => Content sample_csv)
           {| filepath := "test.csv"; filter_arg := Some "price>=500";
              aggregate_arg := Some "avg=price" |}
           ["name"; "brand"; "price"; "rating"] (rows_of sample_csv)
           "price>=500" (UnsupportedOperator "gte")).
  - vm_compute. reflexivity.
  - vm_compute. discriminate.
  - reflexivity.
  - reflexivity.
Defined.

(** X23.  When the filter keeps no row, [main] still runs the
    aggregation, on no rows: for a registered function it prints the
    result 0 and returns, whether or not the column of the aggregation
    exists. *)
Theorem main_aggregates_empty_filter_result :
  forall (tabulate : option (list (list cell) -> list string -> string))
         (upper : string -> string) (str_of_float : spec_float -> string)
         (open : string -> opened) (a : args)
         (headers : list string) (data : list row)
         (filter_condition column operator value : string)
         (aggregate_condition function aggregated : string),
    CSVProcessor.read_csv (open (filepath a)) (filepath a) = Ok (headers, data) ->
    data <> [] ->
    given (filter_arg a) = Some filter_condition ->
    parse_filter_condition filter_condition = Ok (column, operator, value) ->
    CSVProcessor.filter_data data column operator value = Ok [] ->
    given (aggregate_arg a) = Some aggregate_condition ->
    parse_aggregation_condition aggregate_condition = Ok (function, aggregated) ->
    function ∈ ["avg"; "min"; "max"] ->
    main tabulate upper str_of_float open a
    = (["Filtered by: " +:+ column +:+ " " +:+ operator +:+ " " +:+ value;
        "Records found: 0" +:+ Csv.LF;
        "No data to display.";
        Csv.LF +:+ "Aggregation Result:";
        "Function: " +:+ upper function;
        "Column: " +:+ aggregated;
        "Result: 0"],
       Done tt).
Proof.
  intros tabulate upper str_of_float open a headers data filter_condition
    column operator value aggregate_condition function aggregated
    Hread Hdata Hfc Hparse Hfilter Hac Hparse' Hfun.
  rewrite main_given by (left; rewrite Hfc; eauto).
  rewrite Hread, Hfc, Hac. destruct data as [|r data]; [contradiction|].
  unfold filter_step, aggregate_step.
  rewrite Hparse, Hparse'.
  rewrite bind_call_Ok. cbv beta iota. rewrite bind_call_Ok. cbv beta iota.
  rewrite Hfilter.
  clear Hparse'.
  repeat (apply elem_of_cons in Hfun as [->|Hfun]; [reflexivity|]).
  now apply elem_of_nil in Hfun.
Qed.

Lemma main_aggregates_empty_filter_result_witness :
  main None (fun s => s) (fun _ => "nan") (fun _ => Content sample_csv)
    {| filepath := "test.csv"; filter_arg := Some "brand=nokia";
       aggregate_arg := Some "avg=no such column" |}
  = (["Filtered by: " +:+ "brand" +:+ " " +:+ "eq" +:+ " " +:+ "nokia";
      "Records found: 0" +:+ Csv.LF;
      "No data to display.";
      Csv.LF +:+ "Aggregation Result:";
      "Function: " +:+ (fun s : string => s) "avg";
      "Column: " +:+ "no such column";
      "Result: 0"],
     Done tt).
Proof.
  apply (main_aggregates_empty_filter_result None (fun s => s) (fun _ => "nan")
           (fun _ => Content sample_csv)
           {| filepath := "test.csv"; filter_arg := Some "brand=nokia";
              aggregate_arg := Some "avg=no such column" |}
           ["name"; "brand"; "price"; "rating"] (rows_of sample_csv)
           "brand=nokia" "brand" "eq" "nokia"
           "avg=no such column" "avg" "no such column").
  - vm_compute. reflexivity.
  - vm_compute. discriminate.
  - reflexivity.
  - reflexivity.
  - vm_compute. reflexivity.
  - reflexivity.
  - reflexivity.
  - apply list_elem_of_here.
Defined.

(** X24.  With no filter, an error of the aggregation is reported by its
    kind: a [ValueError] as [Aggregation error:], any other exception,
    such as the [TypeError] of a cell that is [None], as [Error:]; either
    way [main] prints that one line and exits with 1. *)
Theorem main_aggregation_error_report :
  forall (tabulate : option (list (list cell) -> list string -> string))
         (upper : string -> string) (str_of_float : spec_float -> string)
         (open : string -> opened) (a : args)
         (headers : list string) (data : list row)
         (condition function column : string) (e : exn),
    CSVProcessor.read_csv (open (filepath a)) (filepath a) = Ok (headers, data) ->
    data <> [] ->
    given (filter_arg a) = None ->
    given (aggregate_arg a) = Some condition ->
    parse_aggregation_condition condition = Ok (function, column) ->
    CSVProcessor.aggregate_data data column function = Raise e ->
    main tabulate upper str_of_float open a
    = ([(if is_ValueError e then "Aggregation error: " else "Error: ")
        +:+ exn_str e], Exited 1).
Proof.
  intros tabulate upper str_of_float open a headers data condition function
    column e Hread Hdata Hfc Hac Hparse Hfail.
  rewrite main_given by (right; rewrite Hac; eauto).
  rewrite Hread, Hfc, Hac. destruct data as [|r data]; [contradiction|].
  unfold aggregate_step. rewrite Hparse.
  rewrite bind_call_Ok. cbv beta iota.
  change (mret (r :: data) : io (list row)) with (call (Ok (r :: data))).
  rewrite bind_call_Ok. cbv beta iota.
  rewrite bind_call_Ok. cbv beta iota. rewrite Hfail.
  now destruct e.
Qed.

Lemma main_aggregation_error_report_witness :
  main None (fun s => s) (fun _ => "nan")
    (fun _ => Content ("a,b" +:+ Csv.LF +:+ "1" +:+ Csv.LF))
    {| filepath := "data.csv"; filter_arg := None; aggregate_arg := Some "avg=b" |}
  = ([(if is_ValueError
            (TypeError
               "float() argument must be a string or a real number, not 'NoneType'")
       then "Aggregation error: " else "Error: ")
      +:+ exn_str
            (TypeError
               "float() argument must be a string or a real number, not 'NoneType'")],
     Exited 1).
Proof.
  apply (main_aggregation_error_report None (fun s => s) (fun _ => "nan")
           (fun _ => Content ("a,b" +:+ Csv.LF +:+ "1" +:+ Csv.LF))
           {| filepath := "data.csv"; filter_arg := None;
              aggregate_arg := Some "avg=b" |}
           ["a"; "b"] [{["a" := Str "1"; "b" := PyNone]}] "avg=b" "avg" "b").
  - vm_compute. reflexivity.
  - discriminate.
  - reflexivity.
  - reflexivity.
  - reflexivity.
  - vm_compute. reflexivity.
Defined.

(** ** Reading back a written file *)

Section RoundTripFacts.

Implicit Types (t f fld cur : string) (c : ascii) (flds r : list string)
  (s : Csv.state).

Lemma append_nil_r (s : string) : s +:+ EmptyString = s.
Proof.
  induction s as [|c s IH]; [reflexivity|]. rewrite append_cons. now f_equal.
Qed.

Lemma all_chars_append p a b :
  all_chars p (a +:+ b) = all_chars p a && all_chars p b.
Proof.
  induction a as [|c a IH]; [reflexivity|].
  rewrite append_cons. simpl. now rewrite IH, andb_assoc.
Qed.

Lemma all_chars_impl (p q : ascii -> bool) (s : string) :
  (forall c, p c = true -> q c = true) ->
  all_chars p s = true -> all_chars q s = true.
Proof.
  intros Hpq. induction s as [|c s IH]; [reflexivity|]. simpl.
  intros [Hc Hs]%andb_true_iff. now rewrite (Hpq c Hc), IH.
Qed.

Lemma all_chars_join p sep parts :
  all_chars p sep = true ->
  Forall (fun f => all_chars p f = true) parts ->
  all_chars p (join sep parts) = true.
Proof.
  intros Hsep. induction 1 as [|f parts Hf Hparts IH]; [reflexivity|].
  destruct parts as [|f' parts]; [exact Hf|].
  rewrite join_cons by discriminate.
  now rewrite !all_chars_append, Hf, Hsep, IH.
Qed.

(** Text mode leaves a text with no carriage return as it is. *)
Lemma universal_newlines_id (s : string) :
  all_chars (fun c => negb (Ascii.eqb c (ascii_of_nat 13))) s = true ->
  Csv.universal_newlines s = s.
Proof.
  induction s as [|c s IH]; [reflexivity|]. simpl.
  intros [Hc Hs]%andb_true_iff. apply negb_true_iff in Hc.
  rewrite Hc. now rewrite IH.
Qed.

(** A text with no line feed stays on the current line. *)
Lemma lines_from_line cur (s : string) t :
  all_chars (fun c => negb (Ascii.eqb c (ascii_of_nat 10))) s = true ->
  Csv.lines_from cur (s +:+ t) = Csv.lines_from (cur +:+ s) t.
Proof.
  revert cur. induction s as [|c s IH]; intros cur.
  - now rewrite append_nil, append_nil_r.
  - intros [Hc Hs]%andb_true_iff. apply negb_true_iff in Hc.
    rewrite append_cons.
    change (Csv.lines_from cur (String c (s +:+ t)))
      with (if Ascii.eqb c (ascii_of_nat 10)
            then (cur +:+ String c EmptyString) :: Csv.lines_from EmptyString (s +:+ t)
            else Csv.lines_from (cur +:+ String c EmptyString) (s +:+ t)).
    rewrite Hc, IH by exact Hs.
    now rewrite append_assoc.
Qed.

Lemma lines_from_LF cur t :
  Csv.lines_from cur (Csv.LF +:+ t)
  = (cur +:+ Csv.LF) :: Csv.lines_from EmptyString t.
Proof. reflexivity. Qed.

Lemma plain_char_inv c :
  plain_char c = true ->
  Ascii.eqb c Csv.delimiter = false /\ Ascii.eqb c Csv.quotechar = false /\
  Csv.is_newline c = false.
Proof.
  unfold plain_char. intros H%negb_true_iff.
  apply orb_false_iff in H as [H Hn]. apply orb_false_iff in H as [Hd Hq].
  now repeat split.
Qed.

(** One character of a field that needs no quoting. *)
Lemma process_plain_char s fld flds c :
  unquoted s -> plain_char c = true ->
  (N.of_nat (String.length fld) < Csv.field_limit)%N ->
  Csv.parse_process_char {| Csv.st := s; Csv.field := fld; Csv.fields := flds |}
    (Some c)
  = Ok {| Csv.st := Csv.IN_FIELD; Csv.field := fld +:+ String c EmptyString;
          Csv.fields := flds |}.
Proof.
  intros Hs (Hd & Hq & Hn)%plain_char_inv Hlen.
  apply N.leb_gt in Hlen.
  destruct Hs as [->|[->| ->]];
    unfold Csv.parse_process_char, Csv.parse_add_char; simpl;
    now rewrite ?Hn, ?Hq, ?Hd, Hlen.
Qed.

(** The characters of a field that needs no quoting are added to the
    field being read. *)
Lemma process_plain_field f : forall s fld flds t,
  unquoted s -> all_chars plain_char f = true ->
  (N.of_nat (String.length fld + String.length f) <= Csv.field_limit)%N ->
  Csv.process_line {| Csv.st := s; Csv.field := fld; Csv.fields := flds |}
    (f +:+ t)
  = Csv.process_line
      {| Csv.st := match f with EmptyString => s | _ => Csv.IN_FIELD end;
         Csv.field := fld +:+ f; Csv.fields := flds |} t.
Proof.
  induction f as [|c f IH]; intros s fld flds t Hs Hf Hlen.
  - now rewrite append_nil, append_nil_r.
  - simpl in Hf. apply andb_true_iff in Hf as [Hc Hf]. simpl in Hlen.
    rewrite append_cons.
    change (Csv.process_line ?rd (String c ?r))
      with (Csv.parse_process_char rd (Some c) ≫= fun rd' => Csv.process_line rd' r).
    rewrite process_plain_char by (trivial; lia).
    change (Ok ?rd ≫= ?k) with (k rd). cbv beta.
    rewrite IH; [|right; now right|exact Hf|rewrite length_append; simpl; lia].
    rewrite append_assoc, append_cons, append_nil.
    now destruct f.
Qed.

Lemma process_delimiter s fld flds t :
  unquoted s ->
  Csv.process_line {| Csv.st := s; Csv.field := fld; Csv.fields := flds |}
    ("," +:+ t)
  = Csv.process_line
      {| Csv.st := Csv.START_FIELD; Csv.field := EmptyString;
         Csv.fields := flds ++ [fld] |} t.
Proof. now intros [->|[->| ->]]. Qed.

(** The end of a line, with its line feed or at the end of the file. *)
Lemma process_line_end s fld flds (final_newline : bool) :
  s = Csv.START_FIELD \/ s = Csv.IN_FIELD ->
  Csv.process_line {| Csv.st := s; Csv.field := fld; Csv.fields := flds |}
    (if final_newline then Csv.LF else EmptyString)
  = Ok {| Csv.st := Csv.START_RECORD; Csv.field := EmptyString;
          Csv.fields := flds ++ [fld] |}.
Proof. now intros [->| ->]; destruct final_newline. Qed.

Lemma plain_field_inv f :
  plain_field f = true ->
  all_chars plain_char f = true /\
  (N.of_nat (String.length f) <= Csv.field_limit)%N.
Proof.
  unfold plain_field. intros [Hf Hlen]%andb_true_iff.
  now apply N.leb_le in Hlen.
Qed.

(** A line of fields that need no quoting is read as these fields. *)
Lemma process_plain_record r : forall s flds (final_newline : bool),
  forallb plain_field r = true -> r <> [] ->
  s = Csv.START_FIELD \/ (s = Csv.START_RECORD /\ join "," r <> EmptyString) ->
  Csv.process_line
    {| Csv.st := s; Csv.field := EmptyString; Csv.fields := flds |}
    (join "," r +:+ (if final_newline then Csv.LF else EmptyString))
  = Ok {| Csv.st := Csv.START_RECORD; Csv.field := EmptyString;
          Csv.fields := flds ++ r |}.
Proof.
  induction r as [|f r IH]; intros s flds final_newline Hr Hne Hs;
    [contradiction|].
  simpl in Hr. apply andb_true_iff in Hr as [Hf Hr].
  apply plain_field_inv in Hf as [Hf Hlen].
  assert (Hun : unquoted s) by (destruct Hs as [->|[-> _]]; unfold unquoted; auto).
  destruct r as [|f' r].
  - simpl join. rewrite process_plain_field by (trivial; simpl; lia).
    rewrite append_nil. apply process_line_end.
    destruct f; [|now right]. destruct Hs as [->|[_ Hs]]; [now left|].
    now destruct Hs.
  - rewrite join_cons by discriminate. rewrite !append_assoc.
    rewrite process_plain_field by (trivial; simpl; lia).
    rewrite process_delimiter
      by (destruct f; [exact Hun | right; now right]).
    rewrite IH; [|exact Hr|discriminate|now left].
    now rewrite <- app_assoc.
Qed.


Lemma forallb_holds {A : Type} (p : A -> bool) (l : list A) :
  forallb p l = true -> Forall (fun x => p x = true) l.
Proof.
  induction l as [|x l IH]; [constructor|]. simpl.
  intros [Hx Hl]%andb_true_iff. constructor; auto.
Qed.

Lemma plain_record_inv r :
  plain_record r = true ->
  forallb plain_field r = true /\ r <> [] /\ join "," r <> EmptyString.
Proof.
  unfold plain_record. intros [Hr Hne]%andb_true_iff.
  apply negb_true_iff, String.eqb_neq in Hne.
  repeat split; [exact Hr| |exact Hne]. now intros ->.
Qed.

(** The line of a record holds, before its end, neither a line feed nor a
    carriage return. *)
Lemma plain_record_line (c : ascii) r :
  Csv.is_newline c = true -> forallb plain_field r = true ->
  all_chars (fun c' => negb (Ascii.eqb c' c)) (join "," r) = true.
Proof.
  intros Hc Hr. apply all_chars_join.
  - change (negb (Ascii.eqb ","%char c) && true = true).
    rewrite andb_true_r. apply negb_true_iff, Ascii.eqb_neq.
    now intros <-.
  - apply forallb_holds in Hr. eapply Forall_impl; [exact Hr|].
    intros f [Hf _]%plain_field_inv.
    revert Hf. apply all_chars_impl. intros c' (_ & _ & Hn)%plain_char_inv.
    apply negb_true_iff, Ascii.eqb_neq. intros ->. congruence.
Qed.

(** The reader yields the record of a line that needs no quoting and goes
    on with the lines after it. *)
Lemma records_plain_line r (final_newline : bool) (rest : list string) :
  plain_record r = true ->
  Csv.records
    ((join "," r +:+ (if final_newline then Csv.LF else EmptyString)) :: rest)
    Csv.parse_reset
  = more ← Csv.records rest Csv.parse_reset; Ok (r :: more).
Proof.
  intros (Hr & Hne & Hline)%plain_record_inv.
  change (Csv.records (?line :: rest) Csv.parse_reset)
    with (Csv.process_line Csv.parse_reset line ≫= fun rd' =>
          if decide (Csv.st rd' = Csv.START_RECORD) then
            more ← Csv.records rest Csv.parse_reset; Ok (Csv.fields rd' :: more)
          else Csv.records rest rd').
  change (Csv.process_line Csv.parse_reset)
    with (Csv.process_line
            {| Csv.st := Csv.START_RECORD; Csv.field := EmptyString;
               Csv.fields := [] |}).
  rewrite (process_plain_record r Csv.START_RECORD [] final_newline)
    by (trivial; right; now split).
  reflexivity.
Qed.

Lemma records_plain (recs : list (list string)) (final_newline : bool) :
  Forall (fun r => plain_record r = true) recs -> recs <> [] ->
  Csv.records (Csv.lines_from EmptyString (csv_text recs final_newline))
    Csv.parse_reset
  = Ok recs.
Proof.
  unfold csv_text.
  induction 1 as [|r recs Hr Hrecs IH]; intros Hne; [now destruct Hne|].
  clear Hne. pose proof Hr as (Hfields & _ & Hline)%plain_record_inv.
  pose proof (plain_record_line (ascii_of_nat 10) r eq_refl Hfields) as Hlf.
  destruct recs as [|r' recs].
  - simpl fmap. simpl join at 1. rewrite lines_from_line by exact Hlf.
    rewrite append_nil. destruct final_newline.
    + change (Csv.lines_from ?cur Csv.LF) with [cur +:+ Csv.LF].
      now rewrite (records_plain_line r true [] Hr).
    + assert (Csv.lines_from (join "," r) EmptyString = [join "," r]) as ->
        by now destruct (join "," r).
      rewrite <- (append_nil_r (join "," r)) at 1.
      now rewrite (records_plain_line r false [] Hr).
  - rewrite fmap_cons, join_cons by discriminate. rewrite !append_assoc.
    rewrite lines_from_line by exact Hlf. rewrite lines_from_LF, append_nil.
    rewrite (records_plain_line r true _ Hr), IH by discriminate.
    reflexivity.
Qed.

Lemma csv_text_no_CR (recs : list (list string)) (final_newline : bool) :
  Forall (fun r => plain_record r = true) recs ->
  all_chars (fun c => negb (Ascii.eqb c (ascii_of_nat 13)))
    (csv_text recs final_newline) = true.
Proof.
  intros Hrecs. unfold csv_text. rewrite all_chars_append.
  apply andb_true_iff. split; [|now destruct final_newline].
  apply all_chars_join; [reflexivity|].
  apply Forall_fmap. eapply Forall_impl; [exact Hrecs|].
  intros r (Hr & _)%plain_record_inv.
  now apply plain_record_line.
Qed.

Lemma file_records_plain (recs : list (list string)) (final_newline : bool) :
  Forall (fun r => plain_record r = true) recs -> recs <> [] ->
  Csv.file_records (csv_text recs final_newline) = Ok recs.
Proof.
  intros Hrecs Hne. unfold Csv.file_records, Csv.file_lines.
  rewrite universal_newlines_id by now apply csv_text_no_CR.
  now apply records_plain.
Qed.

End RoundTripFacts.

(** X25.  Reading back what was written: for headers and records whose
    fields hold no comma, no quote and no end of line and are within the
    field size limit, and whose lines are not empty, [read_csv] on the
    file with one comma-separated line for each of them, with or without
    a line feed after the last line, returns these headers and, for each
    record in order, the row [csv.DictReader] builds from its fields. *)
Theorem read_csv_round_trip :
  forall (filepath : string) (headers : list string)
         (records : list (list string)) (final_newline : bool),
    plain_record headers = true ->
    Forall (fun r => plain_record r = true) records ->
    CSVProcessor.read_csv
      (Content (csv_text (headers :: records) final_newline)) filepath
    = Ok (headers, Csv.dict_row headers <$> records).
Proof.
  intros filepath headers records final_newline Hh Hrecs.
  unfold CSVProcessor.read_csv.
  rewrite file_records_plain by (try discriminate; now constructor).
  unfold Csv.dict_rows. do 3 f_equal.
  induction Hrecs as [|r records Hr _ IH]; [reflexivity|].
  rewrite filter_cons_True, IH; [reflexivity|].
  now apply plain_record_inv in Hr as (_ & Hr & _).
Qed.

Lemma read_csv_round_trip_witness :
  CSVProcessor.read_csv
    (Content (csv_text (["name"; "brand"; "price"]
                          :: [["iphone 15 pro"; "apple"; "999"];
                              ["redmi note 12"; ""; "199"]]) false))
    "test.csv"
  = Ok (["name"; "brand"; "price"],
        Csv.dict_row ["name"; "brand"; "price"]
          <$> [["iphone 15 pro"; "apple"; "999"];
               ["redmi note 12"; ""; "199"]]).
Proof.
  apply (read_csv_round_trip "test.csv" ["name"; "brand"; "price"]
           [["iphone 15 pro"; "apple"; "999"]; ["redmi note 12"; ""; "199"]]
           false).
  - reflexivity.
  - repeat constructor.
Defined.

(** ** The reports of a run that succeeds *)

Section MainReportFacts.

Variable tabulate : option (list (list cell) -> list string -> string).
Variable upper : string -> string.
Variable str_of_float : spec_float -> string.

Lemma bind_Done {A B : Type} (out : list string) (x : A) (k : A -> io B) :
  ((out, Done x) ≫= k) = (out ++ (k x).1, (k x).2).
Proof. unfold mbind, io_bind. now destruct (k x). Qed.

Lemma io_try_Done {A : Type} (out : list string) (x : A) caught handler :
  io_try (out, Done x) caught handler = (out, Done x).
Proof. reflexivity. Qed.

(** [display_table] returns, whatever the rows are. *)
Lemma display_table_Done (headers : list string) (data : list row) :
  (display_table tabulate headers data).2 = Done tt.
Proof.
  unfold display_table. destruct data as [|r data]; [reflexivity|].
  destruct tabulate; [reflexivity|].
  match goal with |- (_display_basic_table headers ?t).2 = _ =>
    destruct (basic_table_aligned headers t) as (lines & width & -> & _);
      [|reflexivity]
  end.
  apply Forall_fmap, Forall_forall. intros r0 _. simpl. now rewrite length_fmap.
Qed.

Lemma filter_step_Ok (headers : list string) (data kept : list row)
    (condition column operator value : string) :
  parse_filter_condition condition = Ok (column, operator, value) ->
  CSVProcessor.filter_data data column operator value = Ok kept ->
  filter_step tabulate headers data condition
  = (("Filtered by: " +:+ column +:+ " " +:+ operator +:+ " " +:+ value)
       :: ("Records found: " +:+ str_of_nat (length kept) +:+ Csv.LF)
       :: (display_table tabulate headers kept).1,
     Done kept).
Proof.
  intros Hparse Hfilter. unfold filter_step.
  rewrite Hparse, bind_call_Ok. cbv beta iota.
  rewrite Hfilter, bind_call_Ok, !bind_print.
  pose proof (display_table_Done headers kept) as Hdone.
  destruct (display_table tabulate headers kept) as [lines r].
  simpl in Hdone. subst r. rewrite bind_Done. simpl.
  now rewrite app_nil_r.
Qed.

Lemma aggregate_step_Ok (data : list row) (condition function column : string)
    (result : number) :
  parse_aggregation_condition condition = Ok (function, column) ->
  CSVProcessor.aggregate_data data column function = Ok result ->
  aggregate_step upper str_of_float data condition
  = ([Csv.LF +:+ "Aggregation Result:";
      "Function: " +:+ upper function;
      "Column: " +:+ column;
      "Result: " +:+ str_of_number str_of_float result],
     Done tt).
Proof.
  intros Hparse Hagg. unfold aggregate_step.
  rewrite Hparse, bind_call_Ok. cbv beta iota.
  now rewrite Hagg, bind_call_Ok.
Qed.

End MainReportFacts.

(** X26.  When the filter succeeds, [main] prints the filter, the number
    of rows kept and their table and, when an aggregation is asked for
    too, computes it over the rows the filter kept, not over the rows of
    the file, prints its result after the table and returns. *)
Theorem main_filter_then_aggregate :
  forall (tabulate : option (list (list cell) -> list string -> string))
         (upper : string -> string) (str_of_float : spec_float -> string)
         (open : string -> opened) (a : args)
         (headers : list string) (data kept : list row)
         (filter_condition column operator value : string),
    CSVProcessor.read_csv (open (filepath a)) (filepath a) = Ok (headers, data) ->
    data <> [] ->
    given (filter_arg a) = Some filter_condition ->
    parse_filter_condition filter_condition = Ok (column, operator, value) ->
    CSVProcessor.filter_data data column operator value = Ok kept ->
    (given (aggregate_arg a) = None ->
     main tabulate upper str_of_float open a
     = (("Filtered by: " +:+ column +:+ " " +:+ operator +:+ " " +:+ value)
          :: ("Records found: " +:+ str_of_nat (length kept) +:+ Csv.LF)
          :: (display_table tabulate headers kept).1,
        Done tt)) /\
    (forall (aggregate_condition function aggregated : string) (result : number),
        given (aggregate_arg a) = Some aggregate_condition ->
        parse_aggregation_condition aggregate_condition = Ok (function, aggregated) ->
        CSVProcessor.aggregate_data kept aggregated function = Ok result ->
        main tabulate upper str_of_float open a
        = ((("Filtered by: " +:+ column +:+ " " +:+ operator +:+ " " +:+ value)
              :: ("Records found: " +:+ str_of_nat (length kept) +:+ Csv.LF)
              :: (display_table tabulate headers kept).1) ++
           [Csv.LF +:+ "Aggregation Result:";
            "Function: " +:+ upper function;
            "Column: " +:+ aggregated;
            "Result: " +:+ str_of_number str_of_float result],
           Done tt)).
Proof.
  intros tabulate upper str_of_float open a headers data kept filter_condition
    column operator value Hread Hdata Hfc Hparse Hfilter.
  rewrite main_given by (left; rewrite Hfc; eauto).
  rewrite Hread, bind_call_Ok, Hfc. destruct data as [|r data]; [contradiction|].
  rewrite (filter_step_Ok _ _ _ _ _ _ _ _ Hparse Hfilter), bind_Done.
  split.
  - intros ->. simpl. now rewrite app_nil_r.
  - intros aggregate_condition function aggregated result Hac Hparse' Hagg.
    rewrite Hac, (aggregate_step_Ok _ _ _ _ _ _ _ Hparse' Hagg).
    reflexivity.
Qed.

Lemma main_filter_then_aggregate_witness :
  (given (aggregate_arg
            {| filepath := "data.csv"; filter_arg := Some "a>1";
               aggregate_arg := Some "max=a" |}) = None ->
   main None (fun s => s) (fun _ => "nan")
     (fun _ => Content ("a,b" +:+ Csv.LF +:+ "1,x" +:+ Csv.LF +:+ "2,y"))
     {| filepath := "data.csv"; filter_arg := Some "a>1";
        aggregate_arg := Some "max=a" |}
   = (("Filtered by: " +:+ "a" +:+ " " +:+ "gt" +:+ " " +:+ "1")
        :: ("Records found: "
            +:+ str_of_nat (length [({["a" := Str "2"; "b" := Str "y"]} : row)])
            +:+ Csv.LF)
        :: (display_table None ["a"; "b"]
              [{["a" := Str "2"; "b" := Str "y"]}]).1,
      Done tt)) /\
  (forall (aggregate_condition function aggregated : string) (result : number),
      given (aggregate_arg
               {| filepath := "data.csv"; filter_arg := Some "a>1";
                  aggregate_arg := Some "max=a" |}) = Some aggregate_condition ->
      parse_aggregation_condition aggregate_condition = Ok (function, aggregated) ->
      CSVProcessor.aggregate_data [{["a" := Str "2"; "b" := Str "y"]}]
        aggregated function = Ok result ->
      main None (fun s => s) (fun _ => "nan")
        (fun _ => Content ("a,b" +:+ Csv.LF +:+ "1,x" +:+ Csv.LF +:+ "2,y"))
        {| filepath := "data.csv"; filter_arg := Some "a>1";
           aggregate_arg := Some "max=a" |}
      = ((("Filtered by: " +:+ "a" +:+ " " +:+ "gt" +:+ " " +:+ "1")
            :: ("Records found: "
                +:+ str_of_nat (length [({["a" := Str "2"; "b" := Str "y"]} : row)])
                +:+ Csv.LF)
            :: (display_table None ["a"; "b"]
                  [{["a" := Str "2"; "b" := Str "y"]}]).1) ++
         [Csv.LF +:+ "Aggregation Result:";
          "Function: " +:+ (fun s : string => s) function;
          "Column: " +:+ aggregated;
          "Result: " +:+ str_of_number (fun _ => "nan") result],
         Done tt)).
Proof.
  apply (main_filter_then_aggregate None (fun s => s) (fun _ => "nan")
           (fun _ => Content ("a,b" +:+ Csv.LF +:+ "1,x" +:+ Csv.LF +:+ "2,y"))
           {| filepath := "data.csv"; filter_arg := Some "a>1";
              aggregate_arg := Some "max=a" |}
           ["a"; "b"]
           [{["a" := Str "1"; "b" := Str "x"]}; {["a" := Str "2"; "b" := Str "y"]}]
           [{["a" := Str "2"; "b" := Str "y"]}]
           "a>1" "a" "gt" "1").
  - vm_compute. reflexivity.
  - discriminate.
  - reflexivity.
  - reflexivity.
  - vm_compute. reflexivity.
Defined.

(** X27.  With an aggregation and no filter, [main] aggregates the rows
    of the file and prints the four lines of the result only: no table is
    shown. *)
Theorem main_aggregate_only :
  forall (tabulate : option (list (list cell) -> list string -> string))
         (upper : string -> string) (str_of_float : spec_float -> string)
         (open : string -> opened) (a : args)
         (headers : list string) (data : list row)
         (condition function column : string) (result : number),
    CSVProcessor.read_csv (open (filepath a)) (filepath a) = Ok (headers, data) ->
    data <> [] ->
    given (filter_arg a) = None ->
    given (aggregate_arg a) = Some condition ->
    parse_aggregation_condition condition = Ok (function, column) ->
    CSVProcessor.aggregate_data data column function = Ok result ->
    main tabulate upper str_of_float open a
    = ([Csv.LF +:+ "Aggregation Result:";
        "Function: " +:+ upper function;
        "Column: " +:+ column;
        "Result: " +:+ str_of_number str_of_float result],
       Done tt).
Proof.
  intros tabulate upper str_of_float open a headers data condition function
    column result Hread Hdata Hfc Hac Hparse Hagg.
  rewrite main_given by (right; rewrite Hac; eauto).
  rewrite Hread, bind_call_Ok, Hfc, Hac.
  destruct data as [|r data]; [contradiction|].
  change (mret (r :: data) : io (list row)) with (call (Ok (r :: data))).
  rewrite bind_call_Ok, (aggregate_step_Ok _ _ _ _ _ _ _ Hparse Hagg).
  reflexivity.
Qed.

Lemma main_aggregate_only_witness :
  main None (fun s => s) (fun _ => "nan")
    (fun _ => Content ("a,b" +:+ Csv.LF +:+ "1,x" +:+ Csv.LF +:+ "2,y"))
    {| filepath := "data.csv"; filter_arg := None;
       aggregate_arg := Some "max=a" |}
  = ([Csv.LF +:+ "Aggregation Result:";
      "Function: " +:+ (fun s : string => s) "max";
      "Column: " +:+ "a";
      "Result: " +:+ str_of_number (fun _ => "nan") (Float (literal "2"))],
     Done tt).
Proof.
  apply (main_aggregate_only None (fun s => s) (fun _ => "nan")
           (fun _ => Content ("a,b" +:+ Csv.LF +:+ "1,x" +:+ Csv.LF +:+ "2,y"))
           {| filepath := "data.csv"; filter_arg := None;
              aggregate_arg := Some "max=a" |}
           ["a"; "b"]
           [{["a" := Str "1"; "b" := Str "x"]}; {["a" := Str "2"; "b" := Str "y"]}]
           "max=a" "max" "a" (Float (literal "2"))).
  - vm_compute. reflexivity.
  - discriminate.
  - reflexivity.
  - reflexivity.
  - reflexivity.
  - vm_compute. reflexivity.
Defined.
